(** * XRT kernel-driven scheduler: the xocl client layer and the CU interface

    A shallow embedding of

    - [src/runtime_src/core/common/drv/include/xrt_cu.h]: the capability
      table of a compute unit (CU) and the inline wrappers around it;
    - [src/runtime_src/core/pcie/driver/linux/xocl/userpf/xocl_kds.c]: the
      context, command, notify and poll entry points of a client;
    - [tests/validate/common/includes/xcl2/xcl2.cpp]: the emulation flags and
      the device name test of the host helpers.

    C integers are [Z] with their wrap-around written out, pointers that may
    be NULL are [option], objects reached through pointers live in finite
    maps keyed by their address.  Code of the driver that is not part of these
    files (kds_core.c, the icap sub-device, the CU backends) is taken as
    a parameter together with the contract the callers rely on. *)

From Stdlib Require Import ZArith Lia.
From stdpp Require Import base option list gmap strings.

Local Open Scope Z_scope.

(** ** Machine integers *)

(** [u32]: the value a C [u32] holds after an arithmetic result [z]. *)
Definition u32 (z : Z) : Z := z mod 2 ^ 32.

(** [s32]: the value a C [int] (two's complement, the kernel is built with
    wrapping signed arithmetic) holds after an arithmetic result [z]. *)
Definition s32 (z : Z) : Z := (z + 2 ^ 31) mod 2 ^ 32 - 2 ^ 31.

Definition INT_MAX : Z := 2 ^ 31 - 1.
Definition U32_MAX : Z := 2 ^ 32 - 1.

(** ** xrt_cu.h *)

Module XrtCu.

Definition MAX_CUS : Z := 128.

Definition CU_INTR_DONE : Z := 1.
Definition CU_INTR_READY : Z := 2.

Inductive xcu_model := XCU_HLS | XCU_ACC | XCU_PLRAM.

Inductive xcu_config_type := CONSECUTIVE_T | PAIRS_T.

Inductive CU_PROTOCOL := CTRL_HS | CTRL_CHAIN | CTRL_NONE | CTRL_ME | CTRL_ACC.

Record xcu_status := { num_done : Z; num_ready : Z }.

(** [struct xcu_funcs]: every entry receives the backend's private state
    through an untyped pointer and may change it, so every entry returns the
    state it leaves behind. *)
Record xcu_funcs (core_t : Type) := {
  alloc_credit : core_t -> Z * core_t;
  free_credit : core_t -> Z -> core_t;
  peek_credit : core_t -> Z * core_t;
  configure : core_t -> list Z -> Z -> xcu_config_type -> core_t;
  start : core_t -> core_t;
  check : core_t -> xcu_status -> core_t * xcu_status;
  reset : core_t -> core_t;
  reset_done : core_t -> Z * core_t;
  enable_intr : core_t -> Z -> core_t;
  disable_intr : core_t -> Z -> core_t;
  clear_intr : core_t -> Z * core_t
}.

Arguments alloc_credit {core_t}.
Arguments free_credit {core_t}.
Arguments peek_credit {core_t}.
Arguments configure {core_t}.
Arguments start {core_t}.
Arguments check {core_t}.
Arguments reset {core_t}.
Arguments reset_done {core_t}.
Arguments enable_intr {core_t}.
Arguments disable_intr {core_t}.
Arguments clear_intr {core_t}.

Record xrt_cu_event := { ev_client : option nat; ev_state : Z }.

(** [struct xrt_cu]: the queues hold commands of type [cmd_t]
    (kds_command.h); [funcs] is a pointer that [xrt_cu_enable_intr] and its
    siblings test against NULL. *)
Record xrt_cu (core_t cmd_t : Type) := {
  pq : list cmd_t;
  num_pq : Z;
  rq : list cmd_t;
  num_rq : Z;
  sq : list cmd_t;
  num_sq : Z;
  cq : list cmd_t;
  num_cq : Z;
  core : core_t;
  stop : Z;
  bad_state : bool;
  done_cnt : Z;
  ready_cnt : Z;
  run_timeout : Z;
  ev : xrt_cu_event;
  funcs : option (xcu_funcs core_t)
}.

Arguments pq {core_t cmd_t}.
Arguments num_pq {core_t cmd_t}.
Arguments rq {core_t cmd_t}.
Arguments num_rq {core_t cmd_t}.
Arguments sq {core_t cmd_t}.
Arguments num_sq {core_t cmd_t}.
Arguments cq {core_t cmd_t}.
Arguments num_cq {core_t cmd_t}.
Arguments core {core_t cmd_t}.
Arguments stop {core_t cmd_t}.
Arguments bad_state {core_t cmd_t}.
Arguments done_cnt {core_t cmd_t}.
Arguments ready_cnt {core_t cmd_t}.
Arguments run_timeout {core_t cmd_t}.
Arguments ev {core_t cmd_t}.
Arguments funcs {core_t cmd_t}.

Section Wrappers.
Context {core_t cmd_t : Type}.
Implicit Types xcu : xrt_cu core_t cmd_t.

(** [xcu->core] after a call into the backend. *)
Definition with_core xcu (c : core_t) : xrt_cu core_t cmd_t :=
  {| pq := pq xcu; num_pq := num_pq xcu; rq := rq xcu; num_rq := num_rq xcu;
     sq := sq xcu; num_sq := num_sq xcu; cq := cq xcu; num_cq := num_cq xcu;
     core := c; stop := stop xcu; bad_state := bad_state xcu;
     done_cnt := done_cnt xcu; ready_cnt := ready_cnt xcu;
     run_timeout := run_timeout xcu; ev := ev xcu; funcs := funcs xcu |}.

Definition with_counts xcu (d r : Z) : xrt_cu core_t cmd_t :=
  {| pq := pq xcu; num_pq := num_pq xcu; rq := rq xcu; num_rq := num_rq xcu;
     sq := sq xcu; num_sq := num_sq xcu; cq := cq xcu; num_cq := num_cq xcu;
     core := core xcu; stop := stop xcu; bad_state := bad_state xcu;
     done_cnt := d; ready_cnt := r;
     run_timeout := run_timeout xcu; ev := ev xcu; funcs := funcs xcu |}.

Definition xrt_cu_enable_intr xcu (intr_type : Z) : xrt_cu core_t cmd_t :=
  match funcs xcu with
  | Some f => with_core xcu (enable_intr f (core xcu) intr_type)
  | None => xcu
  end.

Definition xrt_cu_disable_intr xcu (intr_type : Z) : xrt_cu core_t cmd_t :=
  match funcs xcu with
  | Some f => with_core xcu (disable_intr f (core xcu) intr_type)
  | None => xcu
  end.

Definition xrt_cu_clear_intr xcu : Z * xrt_cu core_t cmd_t :=
  match funcs xcu with
  | Some f => let '(fired, c) := clear_intr f (core xcu) in (fired, with_core xcu c)
  | None => (0, xcu)
  end.

(** The wrappers below dereference [xcu->funcs] without a test: with a NULL
    table there is no result ([None]). *)
Definition xrt_cu_config xcu (data : list Z) (sz : Z) (type : xcu_config_type)
  : option (xrt_cu core_t cmd_t) :=
  f ← funcs xcu; Some (with_core xcu (configure f (core xcu) data sz type)).

Definition xrt_cu_start xcu : option (xrt_cu core_t cmd_t) :=
  f ← funcs xcu; Some (with_core xcu (start f (core xcu))).

Definition xrt_cu_check xcu : option (xrt_cu core_t cmd_t) :=
  f ← funcs xcu;
  let status := {| num_done := 0; num_ready := 0 |} in
  let '(c, status) := check f (core xcu) status in
  (* XRT CU assume command finished in order *)
  Some (with_counts (with_core xcu c)
          (u32 (done_cnt xcu + num_done status))
          (u32 (ready_cnt xcu + num_ready status))).

Definition xrt_cu_get_credit xcu : option (Z * xrt_cu core_t cmd_t) :=
  f ← funcs xcu;
  let '(r, c) := alloc_credit f (core xcu) in Some (r, with_core xcu c).

Definition is_zero_credit xcu : option (bool * xrt_cu core_t cmd_t) :=
  f ← funcs xcu;
  let '(r, c) := peek_credit f (core xcu) in Some (r =? 0, with_core xcu c).

Definition xrt_cu_put_credit xcu (count : Z) : option (xrt_cu core_t cmd_t) :=
  f ← funcs xcu; Some (with_core xcu (free_credit f (core xcu) count)).

(** [n] polls of the free credit in a row. *)
Fixpoint peek_credit_times (n : nat) xcu : option (xrt_cu core_t cmd_t) :=
  match n with
  | O => Some xcu
  | S n => '(_, xcu') ← is_zero_credit xcu; peek_credit_times n xcu'
  end.

End Wrappers.

(** [struct xrt_cu_hls], the private state of the HLS backend. *)
Record xrt_cu_hls := {
  vaddr : Z;
  max_credits : Z;
  credits : Z;
  run_cnts : Z;
  ctrl_chain : bool
}.

(** The backend state with [n] free credits. *)
Definition with_credits (c : xrt_cu_hls) (n : Z) : xrt_cu_hls :=
  {| vaddr := vaddr c; max_credits := max_credits c; credits := n;
     run_cnts := run_cnts c; ctrl_chain := ctrl_chain c |}.

(** Modelled from the spec: the credit operations of a CU backend
    (cu_hls.c and cu_plram.c are not part of the sources; xrt_cu.h only
    declares the table, with the note "Try to alloc one credit on the CU ...
    Return: the number of remaining credit").  Section 4.2: [alloc_credit] is
    an "attempt to reserve one credit; return the new available count
    (negative/zero if none was free)": the count goes down by one and the new
    count is returned, zero when the last credit was taken and negative when
    none was free, which is how the caller learns that the attempt failed;
    section 8 has [free_credit(1)] restore the count after every
    [alloc_credit]. *)
Definition cu_hls_alloc_credit (c : xrt_cu_hls) : Z * xrt_cu_hls :=
  (credits c - 1, with_credits c (credits c - 1)).

(** Modelled from the spec: section 4.2, [free_credit(n)]: "return [n]
    credits". *)
Definition cu_hls_free_credit (c : xrt_cu_hls) (count : Z) : xrt_cu_hls :=
  with_credits c (credits c + count).

(** Modelled from the spec: section 4.2, [peek_credit() -> remaining]:
    "side-effect-free". *)
Definition cu_hls_peek_credit (c : xrt_cu_hls) : Z * xrt_cu_hls :=
  (credits c, c).

(** A capability table carries the credit operations above. *)
Definition hls_credit_table (f : xcu_funcs xrt_cu_hls) : Prop :=
  alloc_credit f = cu_hls_alloc_credit /\
  free_credit f = cu_hls_free_credit /\
  peek_credit f = cu_hls_peek_credit.

(** A backend that implements the credit operations and nothing else; it
    is enough to run the credit wrappers. *)
Definition credit_only_funcs : xcu_funcs xrt_cu_hls :=
  {| alloc_credit := cu_hls_alloc_credit;
     free_credit := cu_hls_free_credit;
     peek_credit := cu_hls_peek_credit;
     configure := fun c _ _ _ => c;
     start := fun c => c;
     check := fun c st => (c, st);
     reset := fun c => c;
     reset_done := fun c => (1, c);
     enable_intr := fun c _ => c;
     disable_intr := fun c _ => c;
     clear_intr := fun c => (0, c) |}.

(** A CU with the table [f] and [n] free credits out of [m], all queues
    empty. *)
Definition idle_cu (f : xcu_funcs xrt_cu_hls) (n m : Z) : xrt_cu xrt_cu_hls nat :=
  {| pq := []; num_pq := 0; rq := []; num_rq := 0; sq := []; num_sq := 0;
     cq := []; num_cq := 0;
     core := {| vaddr := 0; max_credits := m; credits := n; run_cnts := 0;
                ctrl_chain := false |};
     stop := 0; bad_state := false; done_cnt := 0; ready_cnt := 0;
     run_timeout := 0; ev := {| ev_client := None; ev_state := 0 |};
     funcs := Some f |}.

(** A backend whose [check] reports a fixed pair of deltas. *)
Definition fixed_check_funcs (d r : Z) : xcu_funcs xrt_cu_hls :=
  {| alloc_credit := cu_hls_alloc_credit;
     free_credit := cu_hls_free_credit;
     peek_credit := cu_hls_peek_credit;
     configure := fun c _ _ _ => c;
     start := fun c => c;
     check := fun c st =>
       (c, {| num_done := u32 (num_done st + d);
              num_ready := u32 (num_ready st + r) |});
     reset := fun c => c;
     reset_done := fun c => (1, c);
     enable_intr := fun c _ => c;
     disable_intr := fun c _ => c;
     clear_intr := fun c => (0, c) |}.

(** The numbers of [enum CU_PROTOCOL]. *)
Definition protocol_value (p : CU_PROTOCOL) : Z :=
  match p with
  | CTRL_HS => 0
  | CTRL_CHAIN => 1
  | CTRL_NONE => 2
  | CTRL_ME => 3
  | CTRL_ACC => 4
  end.

(** [prot2str]: the switch over a protocol number, with its default. *)
Definition prot2str (prot : Z) : string :=
  if prot =? protocol_value CTRL_HS then "CTRL_HS"
  else if prot =? protocol_value CTRL_CHAIN then "CTRL_CHAIN"
  else if prot =? protocol_value CTRL_NONE then "CTRL_NONE"
  else if prot =? protocol_value CTRL_ME then "CTRL_ME"
  else if prot =? protocol_value CTRL_ACC then "CTRL_ACC"
  else "UNKNOWN".

(** A backend for the interrupt wrappers: the state is the mask of enabled
    interrupts. *)
Definition intr_mask_funcs : xcu_funcs Z :=
  {| alloc_credit := fun m => (0, m);
     free_credit := fun m _ => m;
     peek_credit := fun m => (0, m);
     configure := fun m _ _ _ => m;
     start := fun m => m;
     check := fun m st => (m, st);
     reset := fun m => m;
     reset_done := fun m => (1, m);
     enable_intr := fun m t => Z.lor m t;
     disable_intr := fun m t => Z.land m (Z.lnot t);
     clear_intr := fun m => (m, m) |}.

(** A CU without a capability table. *)
Definition bare_cu : xrt_cu Z nat :=
  {| pq := [1%nat]; num_pq := 1; rq := []; num_rq := 0; sq := []; num_sq := 0;
     cq := []; num_cq := 0; core := 0;
     stop := 0; bad_state := false; done_cnt := 0; ready_cnt := 0;
     run_timeout := 0; ev := {| ev_client := None; ev_state := 0 |};
     funcs := None |}.

End XrtCu.

(** ** Kernel constants used by xocl_kds.c *)

(** errno values (include/uapi/asm-generic/errno-base.h and errno.h). *)
Definition ENOENT : Z := 2.
Definition ENOMEM : Z := 12.
Definition EFAULT : Z := 14.
Definition EBUSY : Z := 16.
Definition EINVAL : Z := 22.
Definition EDEADLK : Z := 35.

(** poll event bit (include/uapi/asm-generic/poll.h). *)
Definition POLLIN : Z := 1.

(** [atomic_inc] on an [atomic_t]. *)
Definition atomic_inc (v : Z) : Z := s32 (v + 1).

(** [atomic_dec_if_positive]: computes [v - 1], stores it unless it is
    negative, and returns it in both cases.  The pair is (returned value,
    value left in the counter). *)
Definition atomic_dec_if_positive (v : Z) : Z * Z :=
  let dec := s32 (v - 1) in
  if dec <? 0 then (dec, v) else (dec, dec).

(** ** xocl_kds.c *)

Module XoclKds.

(** A 16-byte xclbin identifier as a number; [uuid_equal] compares the
    bytes. *)
Definition xuid_t : Type := N.
Definition uuid_equal (a b : xuid_t) : bool := N.eqb a b.

(** Enumerators and macros of headers that are not part of the sources
    (kds_command.h, ert.h, xocl_ioctl.h, kds_core.h). *)
Class KdsAbi := {
  KDS_COMPLETED : Z;
  KDS_ERROR : Z;
  KDS_TIMEOUT : Z;
  KDS_ABORT : Z;
  ERT_CMD_STATE_NEW : Z;
  ERT_CMD_STATE_COMPLETED : Z;
  ERT_CMD_STATE_ERROR : Z;
  ERT_CMD_STATE_TIMEOUT : Z;
  ERT_CMD_STATE_ABORT : Z;
  ERT_CONFIGURE : Z;
  ERT_START_CU : Z;
  XOCL_CTX_VIRT_CU_INDEX : Z;
  XOCL_CTX_EXCLUSIVE : Z;
  CU_CTX_VIRT_CU : Z;
  CU_CTX_EXCLUSIVE : Z;
  CU_CTX_SHARED : Z
}.

(** The four enumerators of [enum kds_status] that [notify_execbuf] tests
    are different numbers. *)
Class KdsStatusDistinct `{KdsAbi} : Prop :=
  kds_status_distinct : NoDup [KDS_COMPLETED; KDS_ERROR; KDS_TIMEOUT; KDS_ABORT].

(** Modelled from the spec: [struct drm_xocl_ctx] of xocl_ioctl.h, which is
    not part of the sources: the argument of the context ioctl, section 6
    "xclbin id, cu_index, flags".  These are the fields xocl_kds.c reads
    ([xclbin_id], here [ctx_xclbin_id], [cu_index], [flags]). *)
Record drm_xocl_ctx := {
  ctx_xclbin_id : xuid_t;
  cu_index : Z;
  flags : Z
}.

(** Modelled from the spec: [struct kds_ctx_info] of kds_core.h, section 3
    "Context info. (cu_index, mode)"; xocl_kds.c writes [cu_idx] and
    [flags], here [info_flags]. *)
Record kds_ctx_info := { cu_idx : Z; info_flags : Z }.

(** Modelled from the spec: [struct kds_client] of kds_core.h, which is not
    part of the sources.  Section 3: a client "holds a mapping from CU index
    to access mode, an xclbin identifier used while any context is open, an
    event counter, and a wait primitive".  xocl_kds.c uses [pid], [num_ctx]
    (the number of opened contexts), [xclbin_id] (a pointer to an allocated
    uuid, or NULL), [event] (an [atomic_t]) and [waitq] (here the number of
    wake-ups delivered to the wait queue); [ctx] is the mapping, which only
    kds_core.c touches. *)
Record kds_client := {
  pid : Z;
  num_ctx : nat;
  xclbin_id : option xuid_t;
  event : Z;
  waitq : nat;
  ctx : gmap Z Z
}.

(** Modelled from the spec: [struct ert_packet] of ert.h, section 6 "Command
    buffer layout": a header with [opcode] and [count] and the [state] word;
    these are the fields xocl_kds.c reads and writes. *)
Record ert_packet := { state : Z; count : Z; opcode : Z }.

(** Modelled from the spec: [struct in_kernel_cb], the "optional in-kernel
    completion hook" of a command (section 3), with the fields xocl_kds.c
    uses; [func] is a function pointer, 0 for NULL. *)
Record in_kernel_cb := { func : Z; data : Z; cmd_state : Z }.

(** The two destinations of a command that xocl_kds.c assigns
    ([enum kds_type] of kds_command.h). *)
Inductive kds_type := KDS_CU | KDS_ERT.

(** The functions that xocl_kds.c stores in a command's callback slots. *)
Inductive notify_host_fn := notify_execbuf_fn.
Inductive free_fn := kds_free_command.

(** Modelled from the spec: [struct kds_command] of kds_command.h, section 3
    "Command": owning client, payload, completion callback, optional
    in-kernel hook.  These are the fields xocl_kds.c uses: [client] is the
    owning client (its key in the table of clients), [type] is unset until
    the ioctl assigns it, [execbuf] is the address of the command buffer and
    [gem_obj] the buffer object, both keys of the table of buffer objects. *)
Record kds_command := {
  client : nat;
  type : option kds_type;
  info_size : Z;
  execbuf : option nat;
  gem_obj : option nat;
  inkern_cb : option in_kernel_cb;
  cb_notify_host : option notify_host_fn;
  cb_free : option free_fn
}.

(** Modelled from the spec: [struct drm_xocl_bo], the external command
    buffer behind a handle (section 6), as xocl_kds.c uses it: its reference
    count, its kernel mapping (the command packet) and whether it was created
    as an execbuf ([xocl_bo_execbuf]).  An object that exists holds at least
    one reference: the count is a [positive], and the object whose last
    reference is dropped leaves the table of buffer objects. *)
Record drm_xocl_bo := {
  vmapping : ert_packet;
  refcount : positive;
  bo_execbuf : bool
}.

(** Modelled from the spec: [struct drm_xocl_execbuf] and, for in-kernel
    callers, [struct drm_xocl_execbuf_cb] of xocl_ioctl.h; section 6:
    "external command buffer handle" and "buffer handle, callback ptr, user
    data". *)
Record drm_xocl_execbuf := {
  exec_bo_handle : nat;
  cb_func : Z;
  cb_data : Z
}.

(** Modelled from the spec: [struct kds_sched] of kds_core.h, section 4.4:
    the scheduler holds the CU pipelines, the ERT path and "a global
    bad-state flag".  The first four fields are the ones xocl_kds.c reads and
    writes; [cu_refs] (holders per CU), [cu_excl] (CUs held exclusively) and
    [pending] (commands handed over) are the scheduler's own. *)
Record kds_sched := {
  bad_state : bool;
  ert_disable : bool;
  cu_intr_cap : Z;
  cu_intr : Z;
  cu_refs : gmap Z nat;
  cu_excl : gset Z;
  pending : list kds_command
}.

(** Modelled from the spec: the bitstream lock of the icap sub-device
    (sections 4.3 and 5): the locked xclbin and the number of references
    held on it. *)
Record icap_t := { icap_uuid : option xuid_t; icap_ref : nat }.

(** Modelled from the spec: [struct xocl_dev] of common.h, the parts that
    xocl_kds.c reaches: the scheduler ([XDEV(xdev)->kds]), the icap
    sub-device and the buffer objects of the DRM device. *)
Record xocl_dev := {
  kds : kds_sched;
  icap : icap_t;
  bos : gmap nat drm_xocl_bo
}.

(** Functions of the driver that xocl_kds.c calls and that live in files
    outside the sources (kds_core.c, the icap sub-device, the packet
    conversions of kds_core.h).

    [kds_alloc_command] is given the client and a size, not the packet: the
    command it returns cannot depend on the buffer that is submitted.

    [kds_add_command] is given the scheduler and the command; it returns a
    code and leaves the scheduler changed.  The command carries pointers to
    its client, to the command buffer and to the buffer object, and the
    callbacks [notify_host] and [free].  The contract taken here: kds_core.c
    reaches the buffer objects, the event counter of the client and the work
    queue through [notify_host] only, and every such call, whether it is made
    before [kds_add_command] returns or later from a worker, is a call of
    [notify_execbuf]: an entry of its own, [NotifyHost], in the transition
    system below.  The result of [xocl_command_ioctl] is therefore the state
    that its own statements leave; nothing follows the call of
    [kds_add_command] but the return, so that a notification made inside the
    call acts on exactly that state. *)
Class KdsCore := {
  xocl_icap_lock_bitstream : icap_t -> xuid_t -> Z * icap_t;
  xocl_icap_unlock_bitstream : icap_t -> xuid_t -> Z * icap_t;
  kds_add_context : kds_sched -> kds_client -> kds_ctx_info -> Z * kds_sched * kds_client;
  kds_del_context : kds_sched -> kds_client -> kds_ctx_info -> Z * kds_sched * kds_client;
  kds_fini_client : kds_sched -> kds_client -> kds_sched * kds_client;
  kds_alloc_command : nat -> Z -> kds_command;
  cfg_ecmd2xcmd : nat -> ert_packet -> kds_command -> kds_command;
  start_krnl_ecmd2xcmd : nat -> ert_packet -> kds_command -> kds_command;
  kds_add_command : kds_sched -> kds_command -> Z * kds_sched
}.

(** What xocl_kds.c relies on: the context functions of kds_core.c leave the
    client's [xclbin_id] pointer alone, change nothing in the client when
    they fail, and a successful [kds_add_context] leaves at least one
    context. *)
Class KdsCoreLaws `{KdsCore} : Prop := {
  kds_add_context_xclbin k c i :
    xclbin_id (kds_add_context k c i).2 = xclbin_id c;
  kds_add_context_ok k c i :
    (kds_add_context k c i).1.1 = 0 -> num_ctx (kds_add_context k c i).2 <> 0%nat;
  kds_add_context_fail k c i :
    (kds_add_context k c i).1.1 <> 0 -> (kds_add_context k c i).2 = c;
  kds_del_context_xclbin k c i :
    xclbin_id (kds_del_context k c i).2 = xclbin_id c;
  kds_del_context_fail k c i :
    (kds_del_context k c i).1.1 <> 0 -> (kds_del_context k c i).2 = c;
  kds_fini_client_xclbin k c :
    xclbin_id (kds_fini_client k c).2 = xclbin_id c
}.

(** The context functions of kds_core.c have no business with the client's
    event counter. *)
Class KdsCoreEventFrame `{KdsCore} : Prop := {
  kds_add_context_event k c i : event (kds_add_context k c i).2 = event c;
  kds_del_context_event k c i : event (kds_del_context k c i).2 = event c
}.

(** *** Field updates *)

Definition with_xclbin_id (c : kds_client) (u : option xuid_t) : kds_client :=
  {| pid := pid c; num_ctx := num_ctx c; xclbin_id := u; event := event c;
     waitq := waitq c; ctx := ctx c |}.

Definition with_event (c : kds_client) (e : Z) (w : nat) : kds_client :=
  {| pid := pid c; num_ctx := num_ctx c; xclbin_id := xclbin_id c; event := e;
     waitq := w; ctx := ctx c |}.

Definition with_kds (xdev : xocl_dev) (k : kds_sched) : xocl_dev :=
  {| kds := k; icap := icap xdev; bos := bos xdev |}.

Definition with_icap (xdev : xocl_dev) (i : icap_t) : xocl_dev :=
  {| kds := kds xdev; icap := i; bos := bos xdev |}.

Definition with_bos (xdev : xocl_dev) (b : gmap nat drm_xocl_bo) : xocl_dev :=
  {| kds := kds xdev; icap := icap xdev; bos := b |}.

Definition with_state (p : ert_packet) (s : Z) : ert_packet :=
  {| state := s; count := count p; opcode := opcode p |}.

Definition with_vmapping (bo : drm_xocl_bo) (p : ert_packet) : drm_xocl_bo :=
  {| vmapping := p; refcount := refcount bo; bo_execbuf := bo_execbuf bo |}.

(** [drm_gem_object_get]: one more reference on a buffer object. *)
Definition gem_object_get (bo : drm_xocl_bo) : drm_xocl_bo :=
  {| vmapping := vmapping bo; refcount := (refcount bo + 1)%positive;
     bo_execbuf := bo_execbuf bo |}.

(** The buffer object with the reference count [n]. *)
Definition with_refcount (bo : drm_xocl_bo) (n : positive) : drm_xocl_bo :=
  {| vmapping := vmapping bo; refcount := n; bo_execbuf := bo_execbuf bo |}.

(** [drm_gem_object_put] on the object at the address [g] of the table [b]:
    one reference less, and with the last reference the object is released
    and leaves the table.  A pointer that names no object gives no result. *)
Definition gem_object_put (b : gmap nat drm_xocl_bo) (g : nat)
  : option (gmap nat drm_xocl_bo) :=
  gbo ← b !! g;
  if (refcount gbo =? 1)%positive then Some (delete g b)
  else Some (<[g := with_refcount gbo (refcount gbo - 1)%positive]> b).

Definition with_cb_free (x : kds_command) (f : option free_fn) : kds_command :=
  {| client := client x; type := type x; info_size := info_size x;
     execbuf := execbuf x; gem_obj := gem_obj x; inkern_cb := inkern_cb x;
     cb_notify_host := cb_notify_host x; cb_free := f |}.

Definition with_type (x : kds_command) (t : option kds_type) : kds_command :=
  {| client := client x; type := t; info_size := info_size x;
     execbuf := execbuf x; gem_obj := gem_obj x; inkern_cb := inkern_cb x;
     cb_notify_host := cb_notify_host x; cb_free := cb_free x |}.

Definition with_notify (x : kds_command) (n : option notify_host_fn) (g : option nat)
  : kds_command :=
  {| client := client x; type := type x; info_size := info_size x;
     execbuf := execbuf x; gem_obj := g; inkern_cb := inkern_cb x;
     cb_notify_host := n; cb_free := cb_free x |}.

Definition with_inkern_cb (x : kds_command) (cb : option in_kernel_cb) : kds_command :=
  {| client := client x; type := type x; info_size := info_size x;
     execbuf := execbuf x; gem_obj := gem_obj x; inkern_cb := cb;
     cb_notify_host := cb_notify_host x; cb_free := cb_free x |}.

Definition with_execbuf (x : kds_command) (a : option nat) : kds_command :=
  {| client := client x; type := type x; info_size := info_size x;
     execbuf := a; gem_obj := gem_obj x; inkern_cb := inkern_cb x;
     cb_notify_host := cb_notify_host x; cb_free := cb_free x |}.

(** *** The entry points *)

Section EntryPoints.
Context `{KdsAbi, KdsCore}.

Definition xocl_ctx_to_info (args : drm_xocl_ctx) : kds_ctx_info :=
  {| cu_idx :=
       if cu_index args =? XOCL_CTX_VIRT_CU_INDEX then CU_CTX_VIRT_CU
       else cu_index args;
     info_flags :=
       if flags args =? XOCL_CTX_EXCLUSIVE then CU_CTX_EXCLUSIVE
       else CU_CTX_SHARED |}.

(** The block that [xocl_add_context] runs at its label [out] and that
    [xocl_del_context] runs after a successful delete: with no context left,
    free the recorded uuid, clear the pointer and unlock the bitstream. *)
Definition unlock_if_no_ctx (xdev : xocl_dev) (c : kds_client) (args : drm_xocl_ctx)
  : xocl_dev * kds_client :=
  if (num_ctx c =? 0)%nat then
    (with_icap xdev (xocl_icap_unlock_bitstream (icap xdev) (ctx_xclbin_id args)).2,
     with_xclbin_id c None)
  else (xdev, c).

(** [xocl_add_context] up to the label [out]: the value of [ret] and the
    device and client reached there.  [vzalloc_ok] tells whether the
    allocation of the uuid succeeds. *)
Definition add_context_body (xdev : xocl_dev) (c : kds_client) (args : drm_xocl_ctx)
    (vzalloc_ok : bool) : Z * xocl_dev * kds_client :=
  let add xdev c :=
    let '(ret, k, c) := kds_add_context (kds xdev) c (xocl_ctx_to_info args) in
    (ret, with_kds xdev k, c) in
  (* If this client has no opened context, lock bitstream *)
  if (num_ctx c =? 0)%nat then
    let '(ret, ic) := xocl_icap_lock_bitstream (icap xdev) (ctx_xclbin_id args) in
    let xdev := with_icap xdev ic in
    if negb (ret =? 0) then (ret, xdev, c)
    else if negb vzalloc_ok then (- ENOMEM, xdev, c)
    else add xdev (with_xclbin_id c (Some (ctx_xclbin_id args)))
  else add xdev c.

Definition xocl_add_context (xdev : xocl_dev) (c : kds_client) (args : drm_xocl_ctx)
    (vzalloc_ok : bool) : Z * xocl_dev * kds_client :=
  let '(ret, xdev, c) := add_context_body xdev c args vzalloc_ok in
  let '(xdev, c) := unlock_if_no_ctx xdev c args in
  (ret, xdev, c).

Definition xocl_del_context (xdev : xocl_dev) (c : kds_client) (args : drm_xocl_ctx)
  : Z * xocl_dev * kds_client :=
  match xclbin_id c with
  | None => (- EINVAL, xdev, c)
  | Some uuid =>
    if negb (uuid_equal uuid (ctx_xclbin_id args)) then (- EBUSY, xdev, c)
    else
      let '(ret, k, c) := kds_del_context (kds xdev) c (xocl_ctx_to_info args) in
      let xdev := with_kds xdev k in
      if negb (ret =? 0) then (ret, xdev, c)
      else
        (* unlock bitstream if there is no opening context *)
        let '(xdev, c) := unlock_if_no_ctx xdev c args in
        (ret, xdev, c)
  end.

(** The state word [notify_execbuf] stores for [status], if any. *)
Definition notify_state (status : Z) : option Z :=
  if status =? KDS_COMPLETED then Some ERT_CMD_STATE_COMPLETED
  else if status =? KDS_ERROR then Some ERT_CMD_STATE_ERROR
  else if status =? KDS_TIMEOUT then Some ERT_CMD_STATE_TIMEOUT
  else if status =? KDS_ABORT then Some ERT_CMD_STATE_ABORT
  else None.

(** What [notify_execbuf] touches: the buffer objects, the clients and the
    kernel work queue. *)
Record notify_env := {
  n_bos : gmap nat drm_xocl_bo;
  n_clients : gmap nat kds_client;
  n_workq : list in_kernel_cb
}.

(** The four branches at the head of [notify_execbuf]: the table of buffer
    objects after the state word is stored.  The packet is only dereferenced
    in the branches that store a state; following a pointer that names no
    object gives no result. *)
Definition notify_written (xcmd : kds_command) (status : Z) (b : gmap nat drm_xocl_bo)
  : option (gmap nat drm_xocl_bo) :=
  match notify_state status with
  | Some s =>
      a ← execbuf xcmd; bo ← b !! a;
      Some (<[a := with_vmapping bo (with_state (vmapping bo) s)]> b)
  | None => Some b
  end.

(** [notify_execbuf]: the state word, the put of the buffer object, and the
    completion signal. *)
Definition notify_execbuf (xcmd : kds_command) (status : Z) (e : notify_env)
  : option notify_env :=
  b1 ← notify_written xcmd status (n_bos e);
  g ← gem_obj xcmd; b2 ← gem_object_put b1 g;
  match inkern_cb xcmd with
  | Some cb =>
      Some {| n_bos := b2; n_clients := n_clients e; n_workq := n_workq e ++ [cb] |}
  | None =>
      c ← n_clients e !! client xcmd;
      Some {| n_bos := b2;
              n_clients := <[client xcmd := with_event c (atomic_inc (event c)) (S (waitq c))]>
                             (n_clients e);
              n_workq := n_workq e |}
  end.

(** [xocl_command_ioctl] for the client [c] stored under the key [fd].
    [xcmd_ok] and [cb_ok] tell whether the allocations of the command and of
    the in-kernel callback succeed.  The result is the returned value and the
    device as the statements of the ioctl and the scheduler's own part of
    [kds_add_command] leave it (see [KdsCore]); on the paths through [out]
    the reference that the lookup took is not given back. *)
Definition xocl_command_ioctl (xdev : xocl_dev) (fd : nat) (c : kds_client)
    (args : drm_xocl_execbuf) (in_kernel xcmd_ok cb_ok : bool) : Z * xocl_dev :=
  match xclbin_id c with
  | None => (- EINVAL, xdev)
  | Some _ =>
    if bad_state (kds xdev) then (- EDEADLK, xdev)
    else
      let h := exec_bo_handle args in
      (* xocl_gem_object_lookup: the object behind the handle, with a
         reference taken, or NULL *)
      match bos xdev !! h with
      | None => (- ENOENT, xdev)
      | Some obj =>
        let xobj := gem_object_get obj in
        if negb (bo_execbuf xobj) then (- EINVAL, with_bos xdev (<[h := xobj]> (bos xdev)))
        else
          let ecmd := with_state (vmapping xobj) ERT_CMD_STATE_NEW in
          let xdev := with_bos xdev (<[h := with_vmapping xobj ecmd]> (bos xdev)) in
          if negb xcmd_ok then (- ENOMEM, xdev)
          else
            let xcmd := kds_alloc_command fd (u32 (count ecmd * 4)) in
            let xcmd := with_cb_free xcmd (Some kds_free_command) in
            let xcmd :=
              if opcode ecmd =? ERT_CONFIGURE then cfg_ecmd2xcmd h ecmd xcmd
              else if opcode ecmd =? ERT_START_CU then start_krnl_ecmd2xcmd h ecmd xcmd
              else xcmd in
            let xcmd :=
              with_type xcmd (Some (if ert_disable (kds xdev) then KDS_CU else KDS_ERT)) in
            let xcmd := with_notify xcmd (Some notify_execbuf_fn) (Some h) in
            if in_kernel && negb (cb_func args =? 0) && negb cb_ok then (- ENOMEM, xdev)
            else
              let xcmd :=
                if in_kernel && negb (cb_func args =? 0)
                then with_inkern_cb xcmd
                       (Some {| func := cb_func args; data := cb_data args; cmd_state := 0 |})
                else xcmd in
              (* Now, we could forget execbuf *)
              let '(ret, k) := kds_add_command (kds xdev) xcmd in
              (ret, with_kds xdev k)
      end
  end.

(** [xocl_destroy_client]: the device it leaves; the client itself is
    freed. *)
Definition xocl_destroy_client (xdev : xocl_dev) (c : kds_client) : xocl_dev :=
  let '(k, c) := kds_fini_client (kds xdev) c in
  let xdev := with_kds xdev k in
  match xclbin_id c with
  | Some u => with_icap xdev (xocl_icap_unlock_bitstream (icap xdev) u).2
  | None => xdev
  end.

(** [xocl_poll_client]: the returned event mask and the client. *)
Definition xocl_poll_client (c : kds_client) : Z * kds_client :=
  let '(ev, v) := atomic_dec_if_positive (event c) in
  if ev =? -1 then (0, with_event c v (waitq c))
  else (POLLIN, with_event c v (waitq c)).

(** *** The driver as a transition system *)

Record system := {
  dev : xocl_dev;
  clients : gmap nat kds_client;
  workq : list in_kernel_cb
}.

(** One call into the driver: the context ioctl with its two operations, the
    command ioctl, a completion reported by the scheduler, a poll and the
    release of a client. *)
Inductive kds_entry :=
  | CtxAlloc (fd : nat) (args : drm_xocl_ctx) (vzalloc_ok : bool)
  | CtxFree (fd : nat) (args : drm_xocl_ctx)
  | Execbuf (fd : nat) (args : drm_xocl_execbuf) (in_kernel xcmd_ok cb_ok : bool)
  | NotifyHost (xcmd : kds_command) (status : Z)
  | Poll (fd : nat)
  | DestroyClient (fd : nat).

(** The calls made through the command's [notify_host] callback. *)
Definition is_notify (e : kds_entry) : bool :=
  match e with NotifyHost _ _ => true | _ => false end.

(** A call is possible when the client it names exists and, for a
    completion, when the command's pointers are valid. *)
Definition kds_step (s : system) (e : kds_entry) : option system :=
  match e with
  | CtxAlloc fd args ok =>
      c ← clients s !! fd;
      let '(_, xdev, c) := xocl_add_context (dev s) c args ok in
      Some {| dev := xdev; clients := <[fd := c]> (clients s); workq := workq s |}
  | CtxFree fd args =>
      c ← clients s !! fd;
      let '(_, xdev, c) := xocl_del_context (dev s) c args in
      Some {| dev := xdev; clients := <[fd := c]> (clients s); workq := workq s |}
  | Execbuf fd args in_kernel xcmd_ok cb_ok =>
      c ← clients s !! fd;
      let '(_, xdev) := xocl_command_ioctl (dev s) fd c args in_kernel xcmd_ok cb_ok in
      Some {| dev := xdev; clients := clients s; workq := workq s |}
  | NotifyHost xcmd status =>
      e ← notify_execbuf xcmd status
            {| n_bos := bos (dev s); n_clients := clients s; n_workq := workq s |};
      Some {| dev := with_bos (dev s) (n_bos e); clients := n_clients e;
              workq := n_workq e |}
  | Poll fd =>
      c ← clients s !! fd;
      Some {| dev := dev s; clients := <[fd := (xocl_poll_client c).2]> (clients s);
              workq := workq s |}
  | DestroyClient fd =>
      c ← clients s !! fd;
      Some {| dev := xocl_destroy_client (dev s) c; clients := delete fd (clients s);
              workq := workq s |}
  end.

Fixpoint kds_run (s : system) (es : list kds_entry) : option system :=
  match es with
  | [] => Some s
  | e :: es => s' ← kds_step s e; kds_run s' es
  end.

(** The state word of the command buffer [h]. *)
Definition state_word (s : system) (h : nat) : option Z :=
  bo ← bos (dev s) !! h; Some (state (vmapping bo)).

(** The client holds the bitstream lock exactly when it has a context. *)
Definition lock_iff_ctx (c : kds_client) : Prop :=
  xclbin_id c <> None <-> (0 < num_ctx c)%nat.

Definition clients_lock_iff_ctx (s : system) : Prop :=
  forall fd c, clients s !! fd = Some c -> lock_iff_ctx c.

(** Every client's event counter is a count between 0 and [b]. *)
Definition events_within (b : Z) (s : system) : Prop :=
  forall fd c, clients s !! fd = Some c -> 0 <= event c <= b.

End EntryPoints.

(** *** A reference implementation of the missing functions *)

Section SpecModel.
Context `{KdsAbi}.

(** Modelled from the spec: the bitstream lock of the icap sub-device, which
    is outside the sources.  Section 4.3: "acquire the bitstream lock for
    xclbin_id. On failure, reject. If already locked to a different xclbin,
    reject with BUSY"; section 5: the scheduler "holds at most one reference
    per client". *)
Definition spec_lock_bitstream (ic : icap_t) (id : xuid_t) : Z * icap_t :=
  match icap_uuid ic with
  | Some u =>
      if uuid_equal u id
      then (0, {| icap_uuid := Some u; icap_ref := S (icap_ref ic) |})
      else (- EBUSY, ic)
  | None => (0, {| icap_uuid := Some id; icap_ref := 1 |})
  end.

(** Modelled from the spec: releasing one reference of the bitstream lock;
    the last release unlocks. *)
Definition spec_unlock_bitstream (ic : icap_t) (id : xuid_t) : Z * icap_t :=
  match icap_uuid ic with
  | Some u =>
      if uuid_equal u id then
        match icap_ref ic with
        | S (S n) => (0, {| icap_uuid := Some u; icap_ref := S n |})
        | _ => (0, {| icap_uuid := None; icap_ref := 0 |})
        end
      else (- EINVAL, ic)
  | None => (- EINVAL, ic)
  end.

(** The client with the context table [m]; [num_ctx] follows the table. *)
Definition with_ctx (c : kds_client) (m : gmap Z Z) : kds_client :=
  {| pid := pid c; num_ctx := size m; xclbin_id := xclbin_id c; event := event c;
     waitq := waitq c; ctx := m |}.

(** The scheduler with the CU holders [r] and the exclusive CUs [x]. *)
Definition with_cu (k : kds_sched) (r : gmap Z nat) (x : gset Z) : kds_sched :=
  {| bad_state := bad_state k; ert_disable := ert_disable k;
     cu_intr_cap := cu_intr_cap k; cu_intr := cu_intr k;
     cu_refs := r; cu_excl := x; pending := pending k |}.

(** Modelled from the spec: [kds_add_context] of kds_core.c, which is
    outside the sources.  Section 4.3: "Enforce mode rules: exclusive fails
    if any other client holds any context on the same CU; otherwise insert
    (cu_index, mode) into the client's map"; the virtual CU reserves no CU
    resource; scenario 4: a shared open of a CU that another client holds
    exclusively is BUSY. *)
Definition spec_kds_add_context (k : kds_sched) (c : kds_client) (info : kds_ctx_info)
  : Z * kds_sched * kds_client :=
  let cu := cu_idx info in
  let c' := with_ctx c (<[cu := info_flags info]> (ctx c)) in
  if cu =? CU_CTX_VIRT_CU then (0, k, c')
  else
    let mine := match ctx c !! cu with Some _ => 1%nat | None => 0%nat end in
    let others := (default 0%nat (cu_refs k !! cu) - mine)%nat in
    let excl := info_flags info =? CU_CTX_EXCLUSIVE in
    if excl && negb (others =? 0)%nat then (- EBUSY, k, c)
    else if bool_decide (cu ∈ cu_excl k) && (mine =? 0)%nat then (- EBUSY, k, c)
    else
      let r := if (mine =? 0)%nat
               then <[cu := S (default 0%nat (cu_refs k !! cu))]> (cu_refs k)
               else cu_refs k in
      let x := if excl then {[cu]} ∪ cu_excl k else cu_excl k ∖ {[cu]} in
      (0, with_cu k r x, c').

(** Modelled from the spec: one reference of the CU [cu] given back; the
    virtual CU holds no CU resource (section 4.3). *)
Definition release_cu (cu : Z) (k : kds_sched) : kds_sched :=
  if cu =? CU_CTX_VIRT_CU then k
  else with_cu k (<[cu := Nat.pred (default 0%nat (cu_refs k !! cu))]> (cu_refs k))
                 (cu_excl k ∖ {[cu]}).

(** Modelled from the spec: [kds_del_context] of kds_core.c.  Section 4.3:
    "Remove (cu_index, mode)"; section 6: freeing a context can fail with
    INVALID, which is the answer for a context the client does not hold. *)
Definition spec_kds_del_context (k : kds_sched) (c : kds_client) (info : kds_ctx_info)
  : Z * kds_sched * kds_client :=
  let cu := cu_idx info in
  match ctx c !! cu with
  | None => (- EINVAL, k, c)
  | Some _ => (0, release_cu cu k, with_ctx c (delete cu (ctx c)))
  end.

(** Modelled from the spec: [kds_fini_client] of kds_core.c: closing a
    client gives back every context it still holds (section 8, scenario 5:
    "closing A releases the bitstream lock"; the abort of its commands in
    flight, section 4.6, is the CU pipelines' work and not modelled). *)
Definition spec_kds_fini_client (k : kds_sched) (c : kds_client) : kds_sched * kds_client :=
  (foldr (fun kv k => release_cu kv.1 k) k (map_to_list (ctx c)), with_ctx c ∅).

(** Modelled from the spec: [kds_alloc_command] of kds_core.c: a new command
    carries its "owning client handle" (section 3) and nothing else yet. *)
Definition spec_kds_alloc_command (fd : nat) (size : Z) : kds_command :=
  {| client := fd; type := None; info_size := size; execbuf := None;
     gem_obj := None; inkern_cb := None; cb_notify_host := None; cb_free := None |}.

(** Modelled from the spec: the packet conversions [cfg_ecmd2xcmd] and
    [start_krnl_ecmd2xcmd] of kds_core.h attach the command buffer at the
    address [a] to the command (section 3: the command carries its payload;
    section 4.5: the notify path writes the "external status word"). *)
Definition spec_ecmd2xcmd (a : nat) (ecmd : ert_packet) (xcmd : kds_command) : kds_command :=
  with_execbuf xcmd (Some a).

(** Modelled from the spec: [kds_add_command] of kds_core.c hands the
    command to a pipeline, section 4.1: "append to the pending queue ...
    Non-blocking". *)
Definition spec_kds_add_command (k : kds_sched) (xcmd : kds_command) : Z * kds_sched :=
  (0, {| bad_state := bad_state k; ert_disable := ert_disable k;
         cu_intr_cap := cu_intr_cap k; cu_intr := cu_intr k;
         cu_refs := cu_refs k; cu_excl := cu_excl k;
         pending := pending k ++ [xcmd] |}).

(** The reference implementation as one table. *)
Definition spec_kds_core : KdsCore :=
  {| xocl_icap_lock_bitstream := spec_lock_bitstream;
     xocl_icap_unlock_bitstream := spec_unlock_bitstream;
     kds_add_context := spec_kds_add_context;
     kds_del_context := spec_kds_del_context;
     kds_fini_client := spec_kds_fini_client;
     kds_alloc_command := spec_kds_alloc_command;
     cfg_ecmd2xcmd := spec_ecmd2xcmd;
     start_krnl_ecmd2xcmd := spec_ecmd2xcmd;
     kds_add_command := spec_kds_add_command |}.

End SpecModel.

(** *** Sample data *)

(** One numbering of the enumerators. *)
Definition sample_abi : KdsAbi :=
  {| KDS_COMPLETED := 0; KDS_ERROR := 1; KDS_ABORT := 2; KDS_TIMEOUT := 3;
     ERT_CMD_STATE_NEW := 1; ERT_CMD_STATE_COMPLETED := 4;
     ERT_CMD_STATE_ERROR := 5; ERT_CMD_STATE_ABORT := 6;
     ERT_CMD_STATE_TIMEOUT := 8;
     ERT_START_CU := 0; ERT_CONFIGURE := 2;
     XOCL_CTX_VIRT_CU_INDEX := 4294967295; XOCL_CTX_EXCLUSIVE := 1;
     CU_CTX_VIRT_CU := 4294967295; CU_CTX_EXCLUSIVE := 1; CU_CTX_SHARED := 0 |}.

(** The reference implementation under that numbering. *)
Definition sample_core : KdsCore := @spec_kds_core sample_abi.

(** A client as [xocl_create_client] allocates it: all fields zero. *)
Definition new_client (p : Z) : kds_client :=
  {| pid := p; num_ctx := 0; xclbin_id := None; event := 0; waitq := 0; ctx := ∅ |}.

(** A scheduler without ERT, no CU held, nothing pending, with the
    bad-state flag [bad]. *)
Definition new_sched (bad : bool) : kds_sched :=
  {| bad_state := bad; ert_disable := true; cu_intr_cap := 0; cu_intr := 0;
     cu_refs := ∅; cu_excl := ∅; pending := [] |}.

(** A 16-word START_CU packet in state [s]. *)
Definition sample_packet (s : Z) : ert_packet :=
  {| state := s; count := 16; opcode := 0 |}.

(** A device with one execbuf object under the handle 7. *)
Definition sample_dev (bad : bool) : xocl_dev :=
  {| kds := new_sched bad;
     icap := {| icap_uuid := None; icap_ref := 0 |};
     bos := {[ 7%nat := {| vmapping := sample_packet 0; refcount := 1;
                           bo_execbuf := true |} ]} |}.

(** A system with one new client under the key 3. *)
Definition sample_system (bad : bool) : system :=
  {| dev := sample_dev bad; clients := {[ 3%nat := new_client 100 ]}; workq := [] |}.

(** Arguments of the two ioctls. *)
Definition sample_ctx (id : xuid_t) (cu : Z) (fl : Z) : drm_xocl_ctx :=
  {| ctx_xclbin_id := id; cu_index := cu; flags := fl |}.

Definition sample_execbuf : drm_xocl_execbuf :=
  {| exec_bo_handle := 7; cb_func := 0; cb_data := 0 |}.

(** The command that the submission of [sample_execbuf] by client 3 builds. *)
Definition sample_xcmd (cb : option in_kernel_cb) : kds_command :=
  {| client := 3; type := Some KDS_CU; info_size := 64; execbuf := Some 7%nat;
     gem_obj := Some 7%nat; inkern_cb := cb;
     cb_notify_host := Some notify_execbuf_fn; cb_free := Some kds_free_command |}.

(** Client 3 after it opened CU 0 of the xclbin 5. *)
Definition sample_open_client : kds_client :=
  {| pid := 100; num_ctx := 1; xclbin_id := Some 5%N; event := 0; waitq := 0;
     ctx := {[ 0 := 0 ]} |}.

(** The system with that client under the key 3. *)
Definition sample_open_system (bad : bool) : system :=
  {| dev := sample_dev bad; clients := {[ 3%nat := sample_open_client ]}; workq := [] |}.

(** A session of client 3: two opens, a submission, its completion, a poll
    and three closes, the second one with the wrong xclbin. *)
Definition sample_calls : list kds_entry :=
  [CtxAlloc 3 (sample_ctx 5%N 0 0) true; CtxAlloc 3 (sample_ctx 5%N 1 1) true;
   Execbuf 3 sample_execbuf false true true; NotifyHost (sample_xcmd None) 0;
   Poll 3; CtxFree 3 (sample_ctx 5%N 0 0); CtxFree 3 (sample_ctx 6%N 1 0);
   CtxFree 3 (sample_ctx 5%N 1 0)].

(** A completion of [sample_xcmd] that finds the buffer object 7 with a
    single reference, and the client 3 with its context open. *)
Definition sample_notify_env : notify_env :=
  {| n_bos := bos (sample_dev false); n_clients := {[ 3%nat := sample_open_client ]};
     n_workq := [] |}.

(** An in-kernel callback. *)
Definition sample_cb : in_kernel_cb := {| func := 4096; data := 1; cmd_state := 0 |}.

(** The buffer object 7 while a submission is in flight: the state word is
    NEW and the reference of the lookup is taken. *)
Definition sample_submitted_bo : drm_xocl_bo :=
  {| vmapping := sample_packet 1; refcount := 2; bo_execbuf := true |}.

(** What a completion of [sample_xcmd] finds after the submission. *)
Definition sample_submitted_env : notify_env :=
  {| n_bos := {[ 7%nat := sample_submitted_bo ]};
     n_clients := {[ 3%nat := sample_open_client ]}; n_workq := [] |}.

(** The submission in flight next to another buffer object, 9, and another
    client, 4. *)
Definition sample_crowded_env : notify_env :=
  {| n_bos := <[ 9%nat := {| vmapping := sample_packet 3; refcount := 2;
                             bo_execbuf := false |} ]> (n_bos sample_submitted_env);
     n_clients := <[ 4%nat := new_client 200 ]> {[ 3%nat := sample_open_client ]};
     n_workq := [] |}.

(** The same with the event counter of client 3 at [v]. *)
Definition sample_env_with_event (v : Z) : notify_env :=
  {| n_bos := n_bos sample_submitted_env;
     n_clients := {[ 3%nat := with_event sample_open_client v 0 ]};
     n_workq := [] |}.

(** The system while that submission is in flight. *)
Definition sample_submitted_system : system :=
  {| dev := with_bos (sample_dev false) (n_bos sample_submitted_env);
     clients := n_clients sample_submitted_env; workq := [] |}.

(** A 16-word packet whose opcode is neither CONFIGURE nor START_CU. *)
Definition other_packet (s : Z) : ert_packet :=
  {| state := s; count := 16; opcode := 5 |}.

(** A device whose execbuf object 7 holds such a packet. *)
Definition sample_dev_other : xocl_dev :=
  {| kds := new_sched false;
     icap := {| icap_uuid := None; icap_ref := 0 |};
     bos := {[ 7%nat := {| vmapping := other_packet 0; refcount := 1;
                           bo_execbuf := true |} ]} |}.

(** *** The remaining entry points *)

(** Command numbers of xocl_ioctl.h, which is not part of the sources: the
    two context operations and the three client ioctls. *)
Class KdsIoctlAbi := {
  XOCL_CTX_OP_ALLOC_CTX : Z;
  XOCL_CTX_OP_FREE_CTX : Z;
  DRM_XOCL_CTX : Z;
  DRM_XOCL_EXECBUF : Z;
  DRM_XOCL_EXECBUF_CB : Z
}.

(** The labels of one switch are different numbers. *)
Class KdsIoctlDistinct `{KdsIoctlAbi} : Prop := {
  ctx_op_distinct : XOCL_CTX_OP_ALLOC_CTX <> XOCL_CTX_OP_FREE_CTX;
  drm_op_distinct : NoDup [DRM_XOCL_CTX; DRM_XOCL_EXECBUF; DRM_XOCL_EXECBUF_CB]
}.

(** [kds_init_client] of kds_core.c, called by [xocl_create_client]. *)
Class KdsInit := {
  kds_init_client : kds_sched -> kds_client -> Z * kds_sched * kds_client
}.

(** The argument block of a client ioctl as the callees read it: the
    context ioctl reads an operation and a [drm_xocl_ctx], the command ioctl a
    [drm_xocl_execbuf] (with the callback fields when called in kernel). *)
Record ioctl_data := {
  data_op : Z;
  data_ctx : drm_xocl_ctx;
  data_exec : drm_xocl_execbuf
}.

Section MoreEntryPoints.
Context `{KdsAbi, KdsCore, KdsIoctlAbi, KdsInit}.

(** [xocl_context_ioctl] for the client [c]. *)
Definition xocl_context_ioctl (xdev : xocl_dev) (c : kds_client) (data : ioctl_data)
    (vzalloc_ok : bool) : Z * xocl_dev * kds_client :=
  if data_op data =? XOCL_CTX_OP_ALLOC_CTX
  then xocl_add_context xdev c (data_ctx data) vzalloc_ok
  else if data_op data =? XOCL_CTX_OP_FREE_CTX
  then xocl_del_context xdev c (data_ctx data)
  else (- EINVAL, xdev, c).

(** [xocl_client_ioctl] for the client [c] stored under the key [fd]. *)
Definition xocl_client_ioctl (xdev : xocl_dev) (fd : nat) (c : kds_client) (op : Z)
    (data : ioctl_data) (vzalloc_ok xcmd_ok cb_ok : bool) : Z * xocl_dev * kds_client :=
  if op =? DRM_XOCL_CTX then xocl_context_ioctl xdev c data vzalloc_ok
  else if op =? DRM_XOCL_EXECBUF then
    let '(ret, xdev) := xocl_command_ioctl xdev fd c (data_exec data) false xcmd_ok cb_ok in
    (ret, xdev, c)
  else if op =? DRM_XOCL_EXECBUF_CB then
    let '(ret, xdev) := xocl_command_ioctl xdev fd c (data_exec data) true xcmd_ok cb_ok in
    (ret, xdev, c)
  else (- EINVAL, xdev, c).

(** [xocl_execbuf_completion], the work function of an in-kernel callback:
    the call it makes, as (function, first argument, error), or none when
    [func] is NULL. *)
Definition xocl_execbuf_completion (cb : in_kernel_cb) : option (Z * Z * Z) :=
  let error := if cmd_state cb =? ERT_CMD_STATE_COMPLETED then 0 else - EFAULT in
  if negb (func cb =? 0) then Some (func cb, data cb, error) else None.

(** The command that [xocl_command_ioctl] has built from the buffer object
    [obj] when it reaches [kds_add_command] (lines 216 to 258). *)
Definition execbuf_xcmd (xdev : xocl_dev) (fd : nat) (args : drm_xocl_execbuf)
    (in_kernel : bool) (obj : drm_xocl_bo) : kds_command :=
  let h := exec_bo_handle args in
  let ecmd := with_state (vmapping (gem_object_get obj)) ERT_CMD_STATE_NEW in
  let xcmd := kds_alloc_command fd (u32 (count ecmd * 4)) in
  let xcmd := with_cb_free xcmd (Some kds_free_command) in
  let xcmd :=
    if opcode ecmd =? ERT_CONFIGURE then cfg_ecmd2xcmd h ecmd xcmd
    else if opcode ecmd =? ERT_START_CU then start_krnl_ecmd2xcmd h ecmd xcmd
    else xcmd in
  let xcmd :=
    with_type xcmd (Some (if ert_disable (kds xdev) then KDS_CU else KDS_ERT)) in
  let xcmd := with_notify xcmd (Some notify_execbuf_fn) (Some h) in
  if in_kernel && negb (cb_func args =? 0)
  then with_inkern_cb xcmd
         (Some {| func := cb_func args; data := cb_data args; cmd_state := 0 |})
  else xcmd.

(** [xocl_create_client]: the return value, the device and the client
    stored through [priv], if any.  [kzalloc_ok] tells whether the allocation
    succeeds; the allocated client is all zero ([new_client 0]) but for the
    device pointer, which nothing in xocl_kds.c reads. *)
Definition xocl_create_client (xdev : xocl_dev) (kzalloc_ok : bool)
  : Z * xocl_dev * option kds_client :=
  if negb kzalloc_ok then (- ENOMEM, xdev, None)
  else
    let '(ret, k, c) := kds_init_client (kds xdev) (new_client 0) in
    if negb (ret =? 0) then (ret, with_kds xdev k, None)
    else (ret, with_kds xdev k, Some c).

(** [n] polls of one client in a row: the event masks returned, in order,
    and the client left. *)
Fixpoint poll_times (n : nat) (c : kds_client) : list Z * kds_client :=
  match n with
  | O => ([], c)
  | S n =>
      let '(r, c) := xocl_poll_client c in
      let '(rs, c) := poll_times n c in
      (r :: rs, c)
  end.

End MoreEntryPoints.

(** Modelled from the spec: [kds_init_client] of kds_core.c records the
    submitter ("Identifies a submitter (pid ...)", section 3) and cannot
    fail here; [current] is the pid of the calling process. *)
Definition spec_kds_init_client (current : Z) (k : kds_sched) (c : kds_client)
  : Z * kds_sched * kds_client :=
  (0, k, {| pid := current; num_ctx := num_ctx c; xclbin_id := xclbin_id c;
            event := event c; waitq := waitq c; ctx := ctx c |}).

(** One numbering of the ioctl commands. *)
Definition sample_ioctl_abi : KdsIoctlAbi :=
  {| XOCL_CTX_OP_ALLOC_CTX := 0; XOCL_CTX_OP_FREE_CTX := 1;
     DRM_XOCL_CTX := 7; DRM_XOCL_EXECBUF := 12; DRM_XOCL_EXECBUF_CB := 13 |}.

(** The initialiser of a process with pid 100. *)
Definition sample_init : KdsInit := {| kds_init_client := spec_kds_init_client 100 |}.

(** An in-kernel submission of the buffer 7 with the callback [sample_cb]. *)
Definition sample_execbuf_cb : drm_xocl_execbuf :=
  {| exec_bo_handle := 7; cb_func := 4096; cb_data := 1 |}.

(** An argument block for the context and the command ioctl. *)
Definition sample_data (op : Z) : ioctl_data :=
  {| data_op := op; data_ctx := sample_ctx 5%N 0 0; data_exec := sample_execbuf_cb |}.

End XoclKds.

(** ** xcl2.cpp *)

Module Xcl2.

(** The process environment that [getenv] reads: the variables that are set,
    with their values. *)
Definition environ : Type := gmap string string.

Definition getenv (env : environ) (name : string) : option string := env !! name.

(** [strstr] of the C library: the offset of the first place of [hay] where
    [needle] starts, or NULL. *)
Fixpoint strstr (hay needle : string) : option nat :=
  if String.prefix needle hay then Some O
  else match hay with
       | EmptyString => None
       | String _ rest => S <$> strstr rest needle
       end.

Definition is_emulation (env : environ) : bool :=
  let ret := false in
  let xcl_mode := getenv env "XCL_EMULATION_MODE" in
  match xcl_mode with
  | Some _ => true
  | None => ret
  end.

Definition is_hw_emulation (env : environ) : bool :=
  let ret := false in
  let xcl_mode := getenv env "XCL_EMULATION_MODE" in
  match xcl_mode with
  | Some mode => if String.eqb mode "hw_emu" then true else ret
  | None => ret
  end.

Definition is_xpr_device (device_name : string) : bool :=
  match strstr device_name "xpr" with
  | None => false
  | Some _ => true
  end.

End Xcl2.

(** * Properties *)

(** ** Machine integers *)

Lemma u32_exact z : 0 <= z <= U32_MAX -> u32 z = z.
Proof. unfold u32, U32_MAX. intros Hz. apply Z.mod_small. lia. Qed.

Lemma s32_exact z : - 2 ^ 31 <= z <= INT_MAX -> s32 z = z.
Proof.
  unfold s32, INT_MAX. intros Hz.
  rewrite Z.mod_small by lia. lia.
Qed.

Lemma atomic_inc_exact v : - 2 ^ 31 <= v < INT_MAX -> atomic_inc v = v + 1.
Proof. unfold atomic_inc, INT_MAX. intros Hv. apply s32_exact. unfold INT_MAX. lia. Qed.

(** ** The CU wrappers of xrt_cu.h *)

Section CuProperties.
Import XrtCu.
Context {core_t cmd_t : Type}.
Implicit Types xcu : xrt_cu core_t cmd_t.

Lemma with_core_same xcu : with_core xcu (core xcu) = xcu.
Proof. by destruct xcu. Qed.

Lemma with_core_twice xcu (c1 c2 : core_t) :
  with_core (with_core xcu c1) c2 = with_core xcu c2.
Proof. reflexivity. Qed.

(** C7: [xrt_cu_check] hands a zeroed status to the backend's [check] and
    adds the two counts it gets back to [done_cnt] and [ready_cnt] (the
    addition of C on [u32]; it is the exact sum whenever the sum fits). *)
Theorem xrt_cu_check_accumulates xcu (f : xcu_funcs core_t) :
  funcs xcu = Some f ->
  let r := check f (core xcu) {| num_done := 0; num_ready := 0 |} in
  exists xcu',
    xrt_cu_check xcu = Some xcu' /\
    core xcu' = r.1 /\
    done_cnt xcu' = u32 (done_cnt xcu + num_done r.2) /\
    ready_cnt xcu' = u32 (ready_cnt xcu + num_ready r.2) /\
    (0 <= done_cnt xcu + num_done r.2 <= U32_MAX ->
     done_cnt xcu' = done_cnt xcu + num_done r.2) /\
    (0 <= ready_cnt xcu + num_ready r.2 <= U32_MAX ->
     ready_cnt xcu' = ready_cnt xcu + num_ready r.2).
Proof.
  intros Hf r. unfold xrt_cu_check. rewrite Hf. cbn.
  subst r. destruct (check f (core xcu) _) as [c st]. cbn.
  eexists. split; [reflexivity|]. cbn.
  repeat split; auto using u32_exact.
Qed.

End CuProperties.

Section CreditProperties.
Import XrtCu.
Implicit Types xcu : xrt_cu xrt_cu_hls nat.

Lemma with_credits_same (c : xrt_cu_hls) : with_credits c (credits c) = c.
Proof. by destruct c. Qed.

Lemma is_zero_credit_pure xcu f :
  funcs xcu = Some f -> hls_credit_table f ->
  is_zero_credit xcu = Some (credits (core xcu) =? 0, xcu).
Proof.
  intros Hf (_ & _ & Hpeek). unfold is_zero_credit. rewrite Hf. cbn.
  rewrite Hpeek. cbn. by rewrite with_core_same.
Qed.

(** C8: with the credit operations of the specification in the table of the
    CU, polling the free credit any number of times leaves the CU as it was,
    and taking a credit with [xrt_cu_get_credit] and giving one back with
    [xrt_cu_put_credit] restores the CU, its credit count included, whether
    or not a credit was free; the value returned in between is the count less
    one. *)
Theorem credit_peek_pure_and_round_trip xcu f :
  funcs xcu = Some f -> hls_credit_table f ->
  (forall n, peek_credit_times n xcu = Some xcu) /\
  exists xcu1,
    xrt_cu_get_credit xcu = Some (credits (core xcu) - 1, xcu1) /\
    credits (core xcu1) = credits (core xcu) - 1 /\
    xrt_cu_put_credit xcu1 1 = Some xcu.
Proof.
  intros Hf Htab. split.
  - induction n as [|n IH]; [reflexivity|].
    cbn. rewrite (is_zero_credit_pure _ _ Hf Htab). cbn. exact IH.
  - destruct Htab as (Halloc & Hfree & _).
    unfold xrt_cu_get_credit, xrt_cu_put_credit. rewrite Hf. cbn.
    rewrite Halloc. unfold cu_hls_alloc_credit.
    eexists. split; [reflexivity|]. cbn. rewrite Hf. cbn. split; [reflexivity|].
    rewrite Hfree. unfold cu_hls_free_credit, with_core, with_credits.
    destruct xcu as [? ? ? ? ? ? ? ? [va mc cr rc ch] ? ? ? ? ? ? ?]. cbn.
    do 3 f_equal. lia.
Qed.

Lemma credit_peek_pure_and_round_trip_witness :
  peek_credit_times 3 (idle_cu credit_only_funcs 2 4) = Some (idle_cu credit_only_funcs 2 4) /\
  (exists xcu1,
    xrt_cu_get_credit (idle_cu credit_only_funcs 2 4) = Some (1, xcu1) /\
    xrt_cu_put_credit xcu1 1 = Some (idle_cu credit_only_funcs 2 4)) /\
  (exists xcu1,
    xrt_cu_get_credit (idle_cu credit_only_funcs 0 4) = Some (-1, xcu1) /\
    xrt_cu_put_credit xcu1 1 = Some (idle_cu credit_only_funcs 0 4)).
Proof.
  destruct (credit_peek_pure_and_round_trip (idle_cu credit_only_funcs 2 4)
              credit_only_funcs eq_refl (conj eq_refl (conj eq_refl eq_refl)))
    as (Hpeek & xcu1 & Hget & _ & Hput).
  destruct (credit_peek_pure_and_round_trip (idle_cu credit_only_funcs 0 4)
              credit_only_funcs eq_refl (conj eq_refl (conj eq_refl eq_refl)))
    as (_ & xcu0 & Hget0 & _ & Hput0).
  split; [apply Hpeek|]. split.
  - exists xcu1. split; [exact Hget | exact Hput].
  - exists xcu0. split; [exact Hget0 | exact Hput0].
Defined.

Lemma xrt_cu_check_accumulates_witness :
  exists xcu',
    xrt_cu_check (idle_cu (fixed_check_funcs 2 1) 1 1) = Some xcu' /\
    done_cnt xcu' = 2 /\ ready_cnt xcu' = 1.
Proof.
  destruct (xrt_cu_check_accumulates (idle_cu (fixed_check_funcs 2 1) 1 1)
              (fixed_check_funcs 2 1) eq_refl)
    as (xcu' & Hrun & _ & Hd & Hr & _).
  exists xcu'. split; [exact Hrun|]. split; [exact Hd | exact Hr].
Defined.

End CreditProperties.

(** ** Reference counts and the shape of a completion *)

Section NotifyShape.
Import XoclKds.
Context `{!KdsAbi}.

Lemma gem_object_put_Some b g gbo :
  b !! g = Some gbo ->
  gem_object_put b g =
    Some (if (refcount gbo =? 1)%positive then delete g b
          else <[g := with_refcount gbo (refcount gbo - 1)%positive]> b).
Proof. intros Hg. unfold gem_object_put. rewrite Hg. cbn. by case_match. Qed.

Lemma gem_object_put_inv b g b' :
  gem_object_put b g = Some b' ->
  exists gbo,
    b !! g = Some gbo /\
    b' = if (refcount gbo =? 1)%positive then delete g b
         else <[g := with_refcount gbo (refcount gbo - 1)%positive]> b.
Proof.
  unfold gem_object_put. destruct (b !! g) as [gbo|]; [cbn|done].
  intros Hb. exists gbo. split; [done|]. by case_match; injection Hb as <-.
Qed.

Lemma gem_object_put_other b g b' h :
  gem_object_put b g = Some b' -> h <> g -> b' !! h = b !! h.
Proof.
  intros (gbo & _ & ->)%gem_object_put_inv Hne.
  case_match; [by rewrite lookup_delete_ne|by rewrite lookup_insert_ne].
Qed.

(** The object that a put leaves behind had more than one reference, and has
    one less. *)
Lemma gem_object_put_same b g b' bo' :
  gem_object_put b g = Some b' -> b' !! g = Some bo' ->
  exists bo,
    b !! g = Some bo /\ refcount bo <> 1%positive /\
    bo' = with_refcount bo (refcount bo - 1)%positive /\
    (refcount bo' + 1)%positive = refcount bo.
Proof.
  intros (gbo & Hg & ->)%gem_object_put_inv.
  destruct (Pos.eqb_spec (refcount gbo) 1) as [E|E].
  - by rewrite lookup_delete_eq.
  - rewrite lookup_insert_eq. intros [= <-]. exists gbo. cbn.
    repeat split; [done|done|lia].
Qed.

Lemma gem_object_put_last b g b' gbo :
  b !! g = Some gbo -> gem_object_put b g = Some b' ->
  refcount gbo = 1%positive -> b' !! g = None.
Proof.
  intros Hg Hput Hr. rewrite (gem_object_put_Some _ _ _ Hg), Hr in Hput.
  cbn in Hput. injection Hput as <-. apply lookup_delete_eq.
Qed.

Lemma gem_object_put_more b g b' gbo :
  b !! g = Some gbo -> gem_object_put b g = Some b' ->
  refcount gbo <> 1%positive ->
  b' !! g = Some (with_refcount gbo (refcount gbo - 1)%positive).
Proof.
  intros Hg Hput Hr. rewrite (gem_object_put_Some _ _ _ Hg) in Hput.
  destruct (Pos.eqb_spec (refcount gbo) 1) as [E|E]; [done|].
  injection Hput as <-. apply lookup_insert_eq.
Qed.

(** A put creates no object, and the one it can release is its own. *)
Lemma gem_object_put_lookup b g b' h bo' :
  gem_object_put b g = Some b' -> b' !! h = Some bo' ->
  exists bo,
    b !! h = Some bo /\ vmapping bo' = vmapping bo /\ bo_execbuf bo' = bo_execbuf bo /\
    (h <> g -> bo' = bo).
Proof.
  intros Hput Hl. destruct (decide (h = g)) as [->|Hne].
  - destruct (gem_object_put_same _ _ _ _ Hput Hl) as (bo & Hb & _ & -> & _).
    exists bo. by repeat split.
  - rewrite (gem_object_put_other _ _ _ _ Hput Hne) in Hl. exists bo'. by repeat split.
Qed.

Lemma gem_object_put_dom b g b' :
  gem_object_put b g = Some b' -> dom b' ⊆ dom b.
Proof.
  intros (gbo & Hg & ->)%gem_object_put_inv. case_match.
  - apply subseteq_dom, delete_subseteq.
  - by rewrite dom_insert_lookup_L.
Qed.

(** What a completion that returns has done, part by part. *)
Lemma notify_execbuf_inv xcmd status e e' :
  notify_execbuf xcmd status e = Some e' ->
  exists b1 g,
    notify_written xcmd status (n_bos e) = Some b1 /\
    gem_obj xcmd = Some g /\
    gem_object_put b1 g = Some (n_bos e') /\
    match inkern_cb xcmd with
    | Some cb => n_clients e' = n_clients e /\ n_workq e' = n_workq e ++ [cb]
    | None =>
        n_workq e' = n_workq e /\
        exists c,
          n_clients e !! client xcmd = Some c /\
          n_clients e' =
            <[client xcmd := with_event c (atomic_inc (event c)) (S (waitq c))]>
              (n_clients e)
    end.
Proof.
  unfold notify_execbuf.
  destruct (notify_written xcmd status (n_bos e)) as [b1|]; [cbn|done].
  destruct (gem_obj xcmd) as [g|]; [cbn|done].
  destruct (gem_object_put b1 g) as [b2|] eqn:Hput; [cbn|done].
  destruct (inkern_cb xcmd) as [cb|].
  - intros [= <-]. exists b1, g. by repeat split.
  - destruct (n_clients e !! client xcmd) as [c|] eqn:Hc; [cbn|done].
    intros [= <-]. exists b1, g. repeat split; [done|]. by exists c.
Qed.

(** Conversely, a completion on valid pointers returns. *)
Lemma notify_execbuf_run xcmd status e b1 g :
  notify_written xcmd status (n_bos e) = Some b1 ->
  gem_obj xcmd = Some g -> is_Some (b1 !! g) ->
  (inkern_cb xcmd = None -> is_Some (n_clients e !! client xcmd)) ->
  exists b2,
    gem_object_put b1 g = Some b2 /\
    notify_execbuf xcmd status e =
      Some {| n_bos := b2;
              n_clients :=
                match inkern_cb xcmd, n_clients e !! client xcmd with
                | None, Some c =>
                    <[client xcmd := with_event c (atomic_inc (event c)) (S (waitq c))]>
                      (n_clients e)
                | _, _ => n_clients e
                end;
              n_workq :=
                match inkern_cb xcmd with
                | Some cb => n_workq e ++ [cb]
                | None => n_workq e
                end |}.
Proof.
  intros Hw Hg [gbo Hgbo] Hcl.
  unfold notify_execbuf.
  rewrite Hw. cbn. rewrite Hg. cbn.
  rewrite (gem_object_put_Some _ _ _ Hgbo). cbn.
  eexists. split; [reflexivity|].
  destruct (inkern_cb xcmd); [reflexivity|].
  destruct (Hcl eq_refl) as [c ->]. reflexivity.
Qed.

(** Writing the state word moves no reference count and no other field. *)
Lemma notify_written_lookup xcmd status b b1 h :
  notify_written xcmd status b = Some b1 ->
  match b !! h with
  | Some bo =>
      exists bo1,
        b1 !! h = Some bo1 /\ refcount bo1 = refcount bo /\
        bo_execbuf bo1 = bo_execbuf bo /\
        count (vmapping bo1) = count (vmapping bo) /\
        opcode (vmapping bo1) = opcode (vmapping bo) /\
        (state (vmapping bo1) = state (vmapping bo) \/
         notify_state status = Some (state (vmapping bo1)) /\ execbuf xcmd = Some h) /\
        (execbuf xcmd <> Some h -> bo1 = bo) /\
        (notify_state status = None -> bo1 = bo)
  | None => b1 !! h = None
  end.
Proof.
  unfold notify_written. destruct (notify_state status) as [s|] eqn:Hs.
  - destruct (execbuf xcmd) as [a|]; [cbn|done].
    destruct (b !! a) as [abo|] eqn:Ha; [cbn|done]. intros [= <-].
    destruct (decide (a = h)) as [->|Hne].
    + rewrite Ha, lookup_insert_eq. eexists. split; [reflexivity|]. cbn.
      repeat split; [by right|done|done].
    + rewrite lookup_insert_ne by done. destruct (b !! h) as [bo|]; [|done].
      exists bo. repeat split. by left.
  - intros [= <-]. destruct (b !! h) as [bo|]; [|done].
    exists bo. repeat split. by left.
Qed.

Lemma notify_written_dom xcmd status b b1 :
  notify_written xcmd status b = Some b1 -> dom b1 = dom b.
Proof.
  unfold notify_written. destruct (notify_state status) as [s|].
  - destruct (execbuf xcmd) as [a|]; [cbn|done].
    destruct (b !! a) as [abo|] eqn:Ha; [cbn|done]. intros [= <-].
    by rewrite dom_insert_lookup_L.
  - by intros [= <-].
Qed.

End NotifyShape.

(** ** The context entry points of xocl_kds.c *)

Section ContextProperties.
Import XoclKds.
Context `{!KdsAbi, !KdsCore}.

Lemma xocl_add_context_unfold xdev c args ok :
  xocl_add_context xdev c args ok =
  let b := add_context_body xdev c args ok in
  let u := unlock_if_no_ctx b.1.2 b.2 args in
  (b.1.1, u.1, u.2).
Proof.
  unfold xocl_add_context.
  destruct (add_context_body xdev c args ok) as [[ret xdev1] c1]. cbn.
  by destruct (unlock_if_no_ctx xdev1 c1 args).
Qed.

Lemma unlock_if_no_ctx_client xdev c args :
  (unlock_if_no_ctx xdev c args).2 =
  if (num_ctx c =? 0)%nat then with_xclbin_id c None else c.
Proof. unfold unlock_if_no_ctx. by destruct (num_ctx c =? 0)%nat. Qed.

Lemma unlock_if_no_ctx_dev xdev c args :
  (unlock_if_no_ctx xdev c args).1 =
  if (num_ctx c =? 0)%nat
  then with_icap xdev (xocl_icap_unlock_bitstream (icap xdev) (ctx_xclbin_id args)).2
  else xdev.
Proof. unfold unlock_if_no_ctx. by destruct (num_ctx c =? 0)%nat. Qed.

Lemma unlock_if_no_ctx_lock_iff_ctx xdev c args :
  (num_ctx c <> 0%nat -> xclbin_id c <> None) ->
  lock_iff_ctx (unlock_if_no_ctx xdev c args).2.
Proof.
  intros Hc. rewrite unlock_if_no_ctx_client. unfold lock_iff_ctx.
  destruct (Nat.eqb_spec (num_ctx c) 0) as [E|E]; cbn.
  - rewrite E. split; [done | lia].
  - split; [lia | auto].
Qed.

Lemma with_xclbin_id_same c : with_xclbin_id c (xclbin_id c) = c.
Proof. by destruct c. Qed.

(** The three ways through [xocl_add_context] before the label [out]: the
    lock or the allocation failed and nothing was recorded, or
    [kds_add_context] ran on the client with its uuid recorded. *)
Lemma add_context_body_cases xdev c args ok :
  let b := add_context_body xdev c args ok in
  (num_ctx c = 0%nat /\ b.1.1 <> 0 /\ b.2 = c) \/
  (exists k c0,
      b = ((kds_add_context k c0 (xocl_ctx_to_info args)).1.1,
           with_kds (if (num_ctx c =? 0)%nat
                     then with_icap xdev
                            (xocl_icap_lock_bitstream (icap xdev) (ctx_xclbin_id args)).2
                     else xdev)
                    (kds_add_context k c0 (xocl_ctx_to_info args)).1.2,
           (kds_add_context k c0 (xocl_ctx_to_info args)).2) /\
      k = kds xdev /\
      c0 = (if (num_ctx c =? 0)%nat
            then with_xclbin_id c (Some (ctx_xclbin_id args)) else c) /\
      ((num_ctx c =? 0)%nat = true ->
       (xocl_icap_lock_bitstream (icap xdev) (ctx_xclbin_id args)).1 = 0 /\ ok = true)).
Proof.
  unfold add_context_body.
  destruct (Nat.eqb_spec (num_ctx c) 0) as [E|E].
  - destruct (xocl_icap_lock_bitstream (icap xdev) (ctx_xclbin_id args))
      as [ret ic] eqn:Hlock. cbn.
    destruct (Z.eqb_spec ret 0) as [Hret|Hret]; cbn.
    + destruct ok; cbn.
      * right. eexists _, _. split; [|split; [reflexivity|split; [reflexivity|done]]].
        by destruct (kds_add_context _ _ _) as [[? ?] ?].
      * left. repeat split; [done | unfold ENOMEM; lia].
    + left. by repeat split.
  - right. eexists _, _. split; [|split; [reflexivity|split; [reflexivity|done]]].
    by destruct (kds_add_context _ _ _) as [[? ?] ?].
Qed.

Context `{!KdsCoreLaws}.

Lemma add_context_lock_iff_ctx xdev c args ok :
  lock_iff_ctx c -> lock_iff_ctx (xocl_add_context xdev c args ok).2.
Proof.
  intros Hinv. rewrite xocl_add_context_unfold. cbn.
  apply unlock_if_no_ctx_lock_iff_ctx. intros Hn.
  destruct (add_context_body_cases xdev c args ok) as [(E & _ & Hb)|(k & c0 & Hb & _ & -> & _)].
  - rewrite Hb in Hn. congruence.
  - rewrite Hb. cbn. rewrite kds_add_context_xclbin.
    destruct (Nat.eqb_spec (num_ctx c) 0) as [E|E]; cbn; [done|].
    apply Hinv. lia.
Qed.

Lemma del_context_lock_iff_ctx xdev c args :
  lock_iff_ctx c -> lock_iff_ctx (xocl_del_context xdev c args).2.
Proof.
  intros Hinv. unfold xocl_del_context.
  destruct (xclbin_id c) as [uuid|] eqn:Hid; [|done].
  destruct (uuid_equal uuid (ctx_xclbin_id args)); cbn; [|done].
  pose proof (kds_del_context_xclbin (kds xdev) c (xocl_ctx_to_info args)) as Hx.
  pose proof (kds_del_context_fail (kds xdev) c (xocl_ctx_to_info args)) as Hf.
  destruct (kds_del_context _ _ _) as [[ret k] c1]. cbn in *.
  destruct (Z.eqb_spec ret 0) as [Hret|Hret]; cbn.
  - pose proof (unlock_if_no_ctx_lock_iff_ctx (with_kds xdev k) c1 args) as Hu.
    destruct (unlock_if_no_ctx _ c1 args) as [xdev2 c2]. cbn in *.
    apply Hu. intros _. congruence.
  - by rewrite (Hf Hret).
Qed.

Lemma with_event_lock_iff_ctx c e w :
  lock_iff_ctx c -> lock_iff_ctx (with_event c e w).
Proof. done. Qed.

Lemma notify_execbuf_lock_iff_ctx xcmd status e e' :
  notify_execbuf xcmd status e = Some e' ->
  (forall fd c, n_clients e !! fd = Some c -> lock_iff_ctx c) ->
  forall fd c, n_clients e' !! fd = Some c -> lock_iff_ctx c.
Proof.
  intros (b1 & g & _ & _ & _ & Hcl)%notify_execbuf_inv Hinv fd c.
  destruct (inkern_cb xcmd) as [cb|].
  - destruct Hcl as [-> _]. apply Hinv.
  - destruct Hcl as (_ & c0 & Hc0 & ->).
    destruct (decide (client xcmd = fd)) as [->|Hne].
    + rewrite lookup_insert_eq. intros [= <-].
      apply with_event_lock_iff_ctx. eapply Hinv, Hc0.
    + rewrite lookup_insert_ne by done. apply Hinv.
Qed.

Lemma kds_step_lock_iff_ctx s e s' :
  clients_lock_iff_ctx s -> kds_step s e = Some s' -> clients_lock_iff_ctx s'.
Proof.
  intros Hinv Hstep fd' c'.
  destruct e as [fd args ok|fd args|fd args ik o1 o2|xcmd status|fd|fd]; cbn in Hstep.
  - destruct (clients s !! fd) as [c|] eqn:Hc; [cbn in Hstep|done].
    pose proof (add_context_lock_iff_ctx (dev s) c args ok (Hinv _ _ Hc)) as Hadd.
    destruct (xocl_add_context _ _ _ _) as [[ret xdev] c1].
    injection Hstep as <-. cbn in *.
    destruct (decide (fd = fd')) as [->|Hne].
    + rewrite lookup_insert_eq. by intros [= <-].
    + rewrite lookup_insert_ne by done. apply Hinv.
  - destruct (clients s !! fd) as [c|] eqn:Hc; [cbn in Hstep|done].
    pose proof (del_context_lock_iff_ctx (dev s) c args (Hinv _ _ Hc)) as Hdel.
    destruct (xocl_del_context _ _ _) as [[ret xdev] c1].
    injection Hstep as <-. cbn in *.
    destruct (decide (fd = fd')) as [->|Hne].
    + rewrite lookup_insert_eq. by intros [= <-].
    + rewrite lookup_insert_ne by done. apply Hinv.
  - destruct (clients s !! fd) as [c|] eqn:Hc; [cbn in Hstep|done].
    destruct (xocl_command_ioctl _ _ _ _ _ _ _) as [ret xdev].
    injection Hstep as <-. cbn. apply Hinv.
  - destruct (notify_execbuf _ _ _) as [e'|] eqn:Hn; [cbn in Hstep|done].
    injection Hstep as <-. cbn.
    eapply notify_execbuf_lock_iff_ctx; [exact Hn|]. cbn. apply Hinv.
  - destruct (clients s !! fd) as [c|] eqn:Hc; [cbn in Hstep|done].
    injection Hstep as <-. cbn.
    destruct (decide (fd = fd')) as [->|Hne].
    + rewrite lookup_insert_eq. intros [= <-].
      unfold xocl_poll_client. destruct (atomic_dec_if_positive _) as [ev v].
      destruct (ev =? -1); cbn; apply with_event_lock_iff_ctx, (Hinv _ _ Hc).
    + rewrite lookup_insert_ne by done. apply Hinv.
  - destruct (clients s !! fd) as [c|] eqn:Hc; [cbn in Hstep|done].
    injection Hstep as <-. cbn.
    intros Hl. apply lookup_delete_Some in Hl as [_ Hl]. by eapply Hinv.
Qed.

Lemma kds_run_lock_iff_ctx es : forall s s',
  clients_lock_iff_ctx s -> kds_run s es = Some s' -> clients_lock_iff_ctx s'.
Proof.
  induction es as [|e es IH]; intros s s' Hinv Hrun; cbn in Hrun.
  - by injection Hrun as <-.
  - destruct (kds_step s e) as [s1|] eqn:Hstep; [cbn in Hrun|done].
    eapply IH; [|exact Hrun]. eapply kds_step_lock_iff_ctx; eauto.
Qed.

End ContextProperties.

(** The reference implementation meets the contract. *)
Lemma spec_kds_core_laws `{!XoclKds.KdsAbi} : @XoclKds.KdsCoreLaws XoclKds.spec_kds_core.
Proof.
  split; cbn.
  - intros k c i. unfold XoclKds.spec_kds_add_context.
    repeat (case_match; cbn; try done).
  - intros k c i. unfold XoclKds.spec_kds_add_context.
    repeat (case_match; cbn; try done);
      intros _; rewrite map_size_ne_0_lookup; exists (XoclKds.cu_idx i);
      rewrite lookup_insert_eq; eauto.
  - intros k c i. unfold XoclKds.spec_kds_add_context.
    repeat (case_match; cbn; try done).
  - intros k c i. unfold XoclKds.spec_kds_del_context.
    repeat (case_match; cbn; try done).
  - intros k c i. unfold XoclKds.spec_kds_del_context.
    repeat (case_match; cbn; try done).
  - done.
Qed.

Lemma new_client_lock_iff_ctx p : XoclKds.lock_iff_ctx (XoclKds.new_client p).
Proof. split; cbn; [done | lia]. Qed.

Lemma sample_system_lock_iff_ctx bad :
  XoclKds.clients_lock_iff_ctx (XoclKds.sample_system bad).
Proof.
  intros fd c Hl. cbn in Hl. apply lookup_singleton_Some in Hl as [_ <-].
  apply new_client_lock_iff_ctx.
Qed.

Section ContextClaims.
Import XoclKds.
Context `{!KdsAbi, !KdsCore, !KdsCoreLaws}.

(** C1: a client's [xclbin_id] is set exactly when it has a context open
    ([num_ctx > 0]): this holds of a new client and, from a state where it
    holds of every client, in every state that a sequence of driver calls
    reaches.  In particular: an open that succeeds on a client without
    contexts has taken the bitstream lock and recorded the xclbin; a close
    that succeeds and leaves no context clears the record and unlocks the
    bitstream; destroying a client removes it and unlocks the bitstream it
    still had recorded. *)
Theorem lock_held_iff_context_open :
  (forall p, lock_iff_ctx (new_client p)) /\
  (forall es s s',
      clients_lock_iff_ctx s -> kds_run s es = Some s' -> clients_lock_iff_ctx s') /\
  (forall xdev c args ok,
      num_ctx c = 0%nat -> (xocl_add_context xdev c args ok).1.1 = 0 ->
      (xocl_icap_lock_bitstream (icap xdev) (ctx_xclbin_id args)).1 = 0 /\
      xclbin_id (xocl_add_context xdev c args ok).2 = Some (ctx_xclbin_id args) /\
      (0 < num_ctx (xocl_add_context xdev c args ok).2)%nat) /\
  (forall xdev c args,
      (xocl_del_context xdev c args).1.1 = 0 ->
      num_ctx (xocl_del_context xdev c args).2 = 0%nat ->
      xclbin_id (xocl_del_context xdev c args).2 = None /\
      icap (xocl_del_context xdev c args).1.2 =
        (xocl_icap_unlock_bitstream (icap xdev) (ctx_xclbin_id args)).2) /\
  (forall s fd c,
      clients s !! fd = Some c ->
      exists s',
        kds_step s (DestroyClient fd) = Some s' /\
        clients s' !! fd = None /\
        forall u, xclbin_id c = Some u ->
                  icap (dev s') = (xocl_icap_unlock_bitstream (icap (dev s)) u).2).
Proof.
  split; [|split; [|split; [|split]]].
  - apply new_client_lock_iff_ctx.
  - intros es s s'. apply kds_run_lock_iff_ctx.
  - intros xdev c args ok Hn Hret.
    rewrite xocl_add_context_unfold in Hret |- *.
    cbv zeta in Hret |- *. cbn [fst snd] in Hret |- *.
    destruct (add_context_body_cases xdev c args ok)
      as [(_ & Hne & _)|(k & c0 & Hb & -> & -> & Hlock)]; [done|].
    rewrite Hb in Hret |- *. cbn [fst snd] in Hret |- *.
    rewrite Hn in Hret, Hlock |- *. cbn [Nat.eqb] in Hret, Hlock |- *.
    pose proof (kds_add_context_ok _ _ _ Hret) as Hpos.
    pose proof (kds_add_context_xclbin (kds xdev)
                  (with_xclbin_id c (Some (ctx_xclbin_id args)))
                  (xocl_ctx_to_info args)) as Hx.
    rewrite unlock_if_no_ctx_client.
    destruct (Nat.eqb_spec (num_ctx (kds_add_context (kds xdev)
                (with_xclbin_id c (Some (ctx_xclbin_id args)))
                (xocl_ctx_to_info args)).2) 0) as [E|E]; [done|].
    split; [by apply Hlock|]. split; [exact Hx | lia].
  - intros xdev c args. unfold xocl_del_context.
    destruct (xclbin_id c) as [uuid|] eqn:Hid; [|done].
    destruct (uuid_equal uuid (ctx_xclbin_id args)); cbn; [|done].
    destruct (kds_del_context _ _ _) as [[ret k] c1]. cbn.
    destruct (Z.eqb_spec ret 0) as [Hret|Hret]; cbn; [|done].
    intros _.
    pose proof (unlock_if_no_ctx_client (with_kds xdev k) c1 args) as Hc.
    pose proof (unlock_if_no_ctx_dev (with_kds xdev k) c1 args) as Hd.
    destruct (unlock_if_no_ctx _ c1 args) as [xdev2 c2]. cbn in *.
    subst c2 xdev2.
    destruct (Nat.eqb_spec (num_ctx c1) 0) as [E|E]; cbn; [done|].
    intros E'. done.
  - intros s fd c Hc. cbn. rewrite Hc. cbn. eexists. split; [reflexivity|]. cbn.
    split; [apply lookup_delete_eq|].
    intros u Hu. unfold xocl_destroy_client.
    pose proof (kds_fini_client_xclbin (kds (dev s)) c) as Hx.
    destruct (kds_fini_client _ _) as [k c1]. cbn in *.
    by rewrite Hx, Hu.
Qed.

(** C9: when [xocl_add_context] fails on a client without contexts, the
    client has no xclbin recorded and no context afterwards; a client that
    had none recorded before is left exactly as it was. *)
Theorem failed_first_open_leaves_client xdev c args ok :
  num_ctx c = 0%nat ->
  (xocl_add_context xdev c args ok).1.1 <> 0 ->
  xclbin_id (xocl_add_context xdev c args ok).2 = None /\
  num_ctx (xocl_add_context xdev c args ok).2 = 0%nat /\
  (xclbin_id c = None -> (xocl_add_context xdev c args ok).2 = c).
Proof.
  intros Hn Hret.
  rewrite xocl_add_context_unfold in Hret |- *.
  cbv zeta in Hret |- *. cbn [fst snd] in Hret |- *.
  rewrite unlock_if_no_ctx_client.
  destruct (add_context_body_cases xdev c args ok)
    as [(_ & _ & Hb)|(k & c0 & Hb & -> & -> & _)].
  - rewrite Hb, Hn. cbn. repeat split; [done|].
    intros <-. apply with_xclbin_id_same.
  - rewrite Hb in Hret |- *. cbn [fst snd] in Hret |- *.
    rewrite Hn in Hret |- *. cbn [Nat.eqb] in Hret |- *.
    rewrite (kds_add_context_fail _ _ _ Hret). cbn. rewrite Hn. cbn.
    repeat split; [done|].
    intros Hx. destruct c; cbn in *. by subst.
Qed.

End ContextClaims.

Section ContextGuards.
Import XoclKds.
Context `{!KdsAbi, !KdsCore}.

(** C5, as the code has it: [xocl_del_context] on a client whose recorded
    xclbin differs from the one passed returns -EBUSY, and on a client with
    no xclbin recorded it returns -EINVAL; in both cases the device and the
    client are left as they were. *)
Theorem del_context_rejects_wrong_xclbin xdev c args :
  (forall u, xclbin_id c = Some u -> u <> ctx_xclbin_id args ->
             xocl_del_context xdev c args = (- EBUSY, xdev, c)) /\
  (xclbin_id c = None -> xocl_del_context xdev c args = (- EINVAL, xdev, c)).
Proof.
  unfold xocl_del_context. split.
  - intros u -> Hne. unfold uuid_equal.
    destruct (N.eqb_spec u (ctx_xclbin_id args)); [done|reflexivity].
  - by intros ->.
Qed.

End ContextGuards.

Section ContextWitnesses.
Import XoclKds.

Lemma lock_held_iff_context_open_witness :
  exists s',
    @kds_run sample_abi sample_core (sample_system false) sample_calls = Some s' /\
    clients_lock_iff_ctx s'.
Proof.
  eexists. split; [vm_compute; reflexivity|].
  refine (proj1 (proj2 (@lock_held_iff_context_open sample_abi sample_core
                          spec_kds_core_laws))
            sample_calls (sample_system false) _ (sample_system_lock_iff_ctx false) _).
  vm_compute. reflexivity.
Defined.

Lemma failed_first_open_leaves_client_witness :
  (@xocl_add_context sample_abi sample_core (sample_dev false) (new_client 100)
     (sample_ctx 5%N 0 0) false).1.1 = - ENOMEM /\
  (@xocl_add_context sample_abi sample_core (sample_dev false) (new_client 100)
     (sample_ctx 5%N 0 0) false).2 = new_client 100.
Proof.
  split; [reflexivity|].
  apply (@failed_first_open_leaves_client sample_abi sample_core spec_kds_core_laws
           (sample_dev false) (new_client 100) (sample_ctx 5%N 0 0) false);
    [reflexivity | vm_compute; discriminate | reflexivity].
Defined.

Lemma del_context_rejects_wrong_xclbin_witness :
  @xocl_del_context sample_abi sample_core (sample_dev false) sample_open_client
    (sample_ctx 6%N 0 0) = (- EBUSY, sample_dev false, sample_open_client).
Proof.
  apply (proj1 (@del_context_rejects_wrong_xclbin sample_abi sample_core
                  (sample_dev false) sample_open_client (sample_ctx 6%N 0 0)) 5%N);
    [reflexivity | cbn; discriminate].
Defined.

(** C5, as the claim has it, fails on a client that has no xclbin recorded:
    its (absent) xclbin differs from the one passed, and the call returns
    -EINVAL instead of -EBUSY. *)
Lemma del_context_busy_counterexample :
  xclbin_id (new_client 100) <> Some (ctx_xclbin_id (sample_ctx 5%N 0 0)) /\
  (@xocl_del_context sample_abi sample_core (sample_dev false) (new_client 100)
     (sample_ctx 5%N 0 0)).1.1 = - EINVAL /\
  (@xocl_del_context sample_abi sample_core (sample_dev false) (new_client 100)
     (sample_ctx 5%N 0 0)).1.1 <> - EBUSY.
Proof. split; [discriminate|]. split; [reflexivity | vm_compute; discriminate]. Qed.

End ContextWitnesses.

(** ** Command submission and poll *)

Section CommandGuards.
Import XoclKds.
Context `{!KdsAbi, !KdsCore}.

(** C2, as the code has it: [xocl_command_ioctl] first rejects a client
    that has no xclbin recorded (no context open) with -EINVAL, whatever the
    bad-state flag says, and only then rejects with -EDEADLK when the flag is
    set; both rejections leave the device as it was. *)
Theorem command_ioctl_guards xdev fd c args ik o1 o2 :
  (xclbin_id c = None ->
   xocl_command_ioctl xdev fd c args ik o1 o2 = (- EINVAL, xdev)) /\
  (lock_iff_ctx c -> num_ctx c = 0%nat ->
   xocl_command_ioctl xdev fd c args ik o1 o2 = (- EINVAL, xdev)) /\
  (xclbin_id c <> None -> bad_state (kds xdev) = true ->
   xocl_command_ioctl xdev fd c args ik o1 o2 = (- EDEADLK, xdev)).
Proof.
  unfold xocl_command_ioctl. split; [|split].
  - by intros ->.
  - intros Hinv Hn. destruct (xclbin_id c) as [u|] eqn:Hid; [|done].
    exfalso. assert (0 < num_ctx c)%nat; [|lia].
    apply Hinv. by rewrite Hid.
  - intros Hid Hbad. destruct (xclbin_id c); [|done]. by rewrite Hbad.
Qed.

End CommandGuards.

Section PollProperties.
Import XoclKds.

Lemma atomic_dec_if_positive_spec v :
  0 <= v <= INT_MAX ->
  atomic_dec_if_positive v = if v =? 0 then (-1, 0) else (v - 1, v - 1).
Proof.
  intros Hv. unfold atomic_dec_if_positive.
  rewrite s32_exact by (unfold INT_MAX in *; lia).
  destruct (Z.eqb_spec v 0) as [->|Hne]; [reflexivity|].
  destruct (Z.ltb_spec (v - 1) 0); [lia|reflexivity].
Qed.

(** The counter stays a count under the two operations that change it. *)
Lemma event_count_preserved c :
  0 <= event c <= INT_MAX ->
  0 <= event (xocl_poll_client c).2 <= INT_MAX /\
  (event c < INT_MAX -> 0 <= atomic_inc (event c) <= INT_MAX).
Proof.
  intros Hev. split.
  - unfold xocl_poll_client. rewrite atomic_dec_if_positive_spec by done.
    destruct (Z.eqb_spec (event c) 0); cbn; [unfold INT_MAX; lia|].
    destruct (event c - 1 =? -1); cbn; lia.
  - intros Hlt. rewrite atomic_inc_exact by (unfold INT_MAX in *; lia). lia.
Qed.

End PollProperties.

Section CommandWitnesses.
Import XoclKds.

Lemma command_ioctl_guards_witness :
  @xocl_command_ioctl sample_abi sample_core (sample_dev true) 3 sample_open_client
    sample_execbuf false true true = (- EDEADLK, sample_dev true).
Proof.
  apply (@command_ioctl_guards sample_abi sample_core (sample_dev true) 3
           sample_open_client sample_execbuf false true true);
    [cbn; discriminate | reflexivity].
Defined.

(** C2, as the claim has it, fails when the bad-state flag is set and the
    client has no context: the call returns -EINVAL, not -EDEADLK. *)
Lemma command_ioctl_deadlock_counterexample :
  bad_state (kds (sample_dev true)) = true /\
  num_ctx (new_client 100) = 0%nat /\
  (@xocl_command_ioctl sample_abi sample_core (sample_dev true) 3 (new_client 100)
     sample_execbuf false true true).1 = - EINVAL /\
  (@xocl_command_ioctl sample_abi sample_core (sample_dev true) 3 (new_client 100)
     sample_execbuf false true true).1 <> - EDEADLK.
Proof. repeat split; vm_compute; discriminate. Qed.

End CommandWitnesses.

(** ** Completion notification *)

Section NotifyProperties.
Import XoclKds.
Context `{!KdsAbi}.

Lemma notify_state_values status s :
  notify_state status = Some s ->
  s ∈ [ERT_CMD_STATE_COMPLETED; ERT_CMD_STATE_ERROR; ERT_CMD_STATE_TIMEOUT;
       ERT_CMD_STATE_ABORT].
Proof.
  unfold notify_state. repeat case_match; intros Heq; simplify_eq; set_solver.
Qed.

Lemma notify_state_other status :
  status ∉ [KDS_COMPLETED; KDS_ERROR; KDS_TIMEOUT; KDS_ABORT] ->
  notify_state status = None.
Proof.
  intros Hnot. unfold notify_state.
  repeat (case_match; [exfalso; apply Hnot;
                       match goal with H : (_ =? _) = true |- _ =>
                         apply Z.eqb_eq in H; rewrite H end; set_solver|]).
  reflexivity.
Qed.

Lemma notify_state_terminal `{!KdsStatusDistinct} :
  notify_state KDS_COMPLETED = Some ERT_CMD_STATE_COMPLETED /\
  notify_state KDS_ERROR = Some ERT_CMD_STATE_ERROR /\
  notify_state KDS_TIMEOUT = Some ERT_CMD_STATE_TIMEOUT /\
  notify_state KDS_ABORT = Some ERT_CMD_STATE_ABORT.
Proof.
  pose proof kds_status_distinct as Hd.
  repeat match goal with
         | H : NoDup (_ :: _) |- _ => apply NoDup_cons in H as [? ?]
         | H : _ ∉ _ :: _ |- _ => apply not_elem_of_cons in H as [? ?]
         end.
  unfold notify_state. rewrite !Z.eqb_refl.
  repeat split; repeat (case_match; try done);
    match goal with H : (_ =? _) = true |- _ => apply Z.eqb_eq in H; congruence end.
Qed.

(** The completion signal of [notify_execbuf], field by field. *)
Lemma notify_execbuf_signal xcmd status e e' :
  notify_execbuf xcmd status e = Some e' ->
  match inkern_cb xcmd with
  | Some cb => n_workq e' = n_workq e ++ [cb] /\ n_clients e' = n_clients e
  | None =>
      n_workq e' = n_workq e /\
      (forall fd, fd <> client xcmd -> n_clients e' !! fd = n_clients e !! fd) /\
      exists c c',
        n_clients e !! client xcmd = Some c /\
        n_clients e' !! client xcmd = Some c' /\
        event c' = s32 (event c + 1) /\
        (- 2 ^ 31 <= event c < INT_MAX -> event c' = event c + 1) /\
        waitq c' = S (waitq c) /\
        pid c' = pid c /\ num_ctx c' = num_ctx c /\
        xclbin_id c' = xclbin_id c /\ ctx c' = ctx c
  end.
Proof.
  intros (b1 & g & _ & _ & _ & Hcl)%notify_execbuf_inv.
  destruct (inkern_cb xcmd) as [cb|]; [by destruct Hcl|].
  destruct Hcl as (Hw & c & Hc & ->). split; [done|]. split.
  - intros fd Hne. by rewrite lookup_insert_ne.
  - exists c. eexists. split; [done|]. rewrite lookup_insert_eq.
    split; [reflexivity|]. cbn. repeat split. apply atomic_inc_exact.
Qed.

(** Two tables with the same reference counts have the same reference
    counts after a put. *)
Lemma gem_object_put_refcounts b b' g b2 b2' :
  (forall h, refcount <$> b !! h = refcount <$> b' !! h) ->
  gem_object_put b g = Some b2 -> gem_object_put b' g = Some b2' ->
  forall h, refcount <$> b2 !! h = refcount <$> b2' !! h.
Proof.
  intros Hsame (gbo & Hg & ->)%gem_object_put_inv (gbo' & Hg' & ->)%gem_object_put_inv h.
  pose proof (Hsame g) as Hr. rewrite Hg, Hg' in Hr. cbn in Hr. injection Hr as Hr.
  rewrite Hr. destruct (refcount gbo' =? 1)%positive.
  - destruct (decide (h = g)) as [->|Hne].
    + by rewrite !lookup_delete_eq.
    + rewrite !lookup_delete_ne by done. apply Hsame.
  - destruct (decide (h = g)) as [->|Hne].
    + by rewrite !lookup_insert_eq.
    + rewrite !lookup_insert_ne by done. apply Hsame.
Qed.

Lemma notify_written_refcounts xcmd status b b1 h :
  notify_written xcmd status b = Some b1 ->
  refcount <$> b1 !! h = refcount <$> b !! h.
Proof.
  intros Hw. pose proof (notify_written_lookup _ _ _ _ h Hw) as Hl.
  destruct (b !! h) as [bo|].
  - destruct Hl as (bo1 & -> & Hr & _). cbn. by rewrite Hr.
  - by rewrite Hl.
Qed.

(** C3, as the code has it: for a terminal status and a command whose
    pointers are valid (its command buffer and its buffer object exist, and
    so does its client when it carries no in-kernel callback),
    [notify_execbuf] returns and has (a) stored the matching state in the
    state word of the command buffer, leaving count and opcode, (b) dropped
    one reference of the buffer object, which is released when that was its
    last one, and (c) queued the work of the in-kernel callback and left the
    clients alone, or else left the work queue alone, added one to the event
    counter of the owning client (the addition of C on an int) and delivered
    one wake-up to its wait queue, with the other fields of the client and
    the other clients untouched. *)
Theorem notify_execbuf_terminal `{!KdsStatusDistinct} xcmd status e a bo g gbo :
  status ∈ [KDS_COMPLETED; KDS_ERROR; KDS_TIMEOUT; KDS_ABORT] ->
  execbuf xcmd = Some a -> n_bos e !! a = Some bo ->
  gem_obj xcmd = Some g -> n_bos e !! g = Some gbo ->
  (inkern_cb xcmd = None -> is_Some (n_clients e !! client xcmd)) ->
  exists e',
    notify_execbuf xcmd status e = Some e' /\
    (forall bo',
        n_bos e' !! a = Some bo' ->
        (status = KDS_COMPLETED -> state (vmapping bo') = ERT_CMD_STATE_COMPLETED) /\
        (status = KDS_ERROR -> state (vmapping bo') = ERT_CMD_STATE_ERROR) /\
        (status = KDS_TIMEOUT -> state (vmapping bo') = ERT_CMD_STATE_TIMEOUT) /\
        (status = KDS_ABORT -> state (vmapping bo') = ERT_CMD_STATE_ABORT) /\
        count (vmapping bo') = count (vmapping bo) /\
        opcode (vmapping bo') = opcode (vmapping bo)) /\
    (a <> g \/ refcount gbo <> 1%positive -> is_Some (n_bos e' !! a)) /\
    (refcount gbo = 1%positive -> n_bos e' !! g = None) /\
    (refcount gbo <> 1%positive ->
     exists gbo',
       n_bos e' !! g = Some gbo' /\ (refcount gbo' + 1)%positive = refcount gbo) /\
    match inkern_cb xcmd with
    | Some cb => n_workq e' = n_workq e ++ [cb] /\ n_clients e' = n_clients e
    | None =>
        n_workq e' = n_workq e /\
        (forall fd, fd <> client xcmd -> n_clients e' !! fd = n_clients e !! fd) /\
        exists c c',
          n_clients e !! client xcmd = Some c /\
          n_clients e' !! client xcmd = Some c' /\
          event c' = s32 (event c + 1) /\
          (- 2 ^ 31 <= event c < INT_MAX -> event c' = event c + 1) /\
          waitq c' = S (waitq c) /\
          pid c' = pid c /\ num_ctx c' = num_ctx c /\
          xclbin_id c' = xclbin_id c /\ ctx c' = ctx c
    end.
Proof.
  intros Hst Ha Hbo Hg Hgbo Hcl.
  destruct notify_state_terminal as (Hc & He & Ht & Hab).
  assert (exists s, notify_state status = Some s /\
            (status = KDS_COMPLETED -> s = ERT_CMD_STATE_COMPLETED) /\
            (status = KDS_ERROR -> s = ERT_CMD_STATE_ERROR) /\
            (status = KDS_TIMEOUT -> s = ERT_CMD_STATE_TIMEOUT) /\
            (status = KDS_ABORT -> s = ERT_CMD_STATE_ABORT)) as (s & Hs & Hvals).
  { destruct (notify_state status) as [s|] eqn:Hs.
    - exists s. split; [done|].
      repeat split; intros ->; congruence.
    - exfalso. rewrite !elem_of_cons in Hst.
      destruct Hst as [->|[->|[->|[->|Hnil]]]]; try congruence.
      by apply elem_of_nil in Hnil. }
  set (b1 := <[a := with_vmapping bo (with_state (vmapping bo) s)]> (n_bos e)).
  assert (notify_written xcmd status (n_bos e) = Some b1) as Hw.
  { unfold notify_written. rewrite Hs, Ha. cbn. by rewrite Hbo. }
  assert (exists gbo1, b1 !! g = Some gbo1 /\ refcount gbo1 = refcount gbo)
    as (gbo1 & Hg1 & Href).
  { subst b1. destruct (decide (a = g)) as [->|Hne].
    - rewrite lookup_insert_eq. eexists. split; [reflexivity|]. cbn. congruence.
    - rewrite lookup_insert_ne by done. eauto. }
  destruct (notify_execbuf_run xcmd status e b1 g Hw Hg) as (b2 & Hput & Hrun);
    [by eauto | done |].
  pose proof (notify_execbuf_signal _ _ _ _ Hrun) as Hsig.
  rewrite Hrun. eexists. split; [reflexivity|]. cbn [n_bos].
  split; [|split; [|split; [|split; [|exact Hsig]]]].
  - intros bo' Hl.
    destruct (gem_object_put_lookup _ _ _ _ _ Hput Hl) as (bo1 & Hl1 & Hv & _).
    subst b1. rewrite lookup_insert_eq in Hl1. injection Hl1 as <-.
    rewrite Hv. cbn. destruct Hvals as (? & ? & ? & ?). by repeat split.
  - intros Hor. destruct (decide (a = g)) as [->|Hne].
    + destruct Hor as [|Hr]; [done|].
      rewrite (gem_object_put_more _ _ _ _ Hg1 Hput) by congruence. by eexists.
    + rewrite (gem_object_put_other _ _ _ _ Hput Hne). subst b1.
      rewrite lookup_insert_eq. by eexists.
  - intros Hr. apply (gem_object_put_last _ _ _ _ Hg1 Hput). congruence.
  - intros Hr. rewrite (gem_object_put_more _ _ _ _ Hg1 Hput) by congruence.
    eexists. split; [reflexivity|]. cbn. lia.
Qed.

(** C10: for a status that is none of the four terminal ones,
    [notify_execbuf] leaves the packet of every buffer object, its state word
    included, as it was, and still drops one reference of the buffer object
    (releasing it with its last one) and delivers the completion: the work of
    the in-kernel callback is queued, or else the event counter of the owning
    client goes up by one and its wait queue gets one wake-up.  Reference
    counts, clients and work queue end as they do for every other status. *)
Theorem notify_execbuf_other_status xcmd status e g gbo :
  status ∉ [KDS_COMPLETED; KDS_ERROR; KDS_TIMEOUT; KDS_ABORT] ->
  gem_obj xcmd = Some g -> n_bos e !! g = Some gbo ->
  (inkern_cb xcmd = None -> is_Some (n_clients e !! client xcmd)) ->
  exists e',
    notify_execbuf xcmd status e = Some e' /\
    (forall h bo',
        n_bos e' !! h = Some bo' ->
        exists bo, n_bos e !! h = Some bo /\ vmapping bo' = vmapping bo) /\
    (forall h, h <> g -> n_bos e' !! h = n_bos e !! h) /\
    (refcount gbo = 1%positive -> n_bos e' !! g = None) /\
    (refcount gbo <> 1%positive ->
     exists gbo',
       n_bos e' !! g = Some gbo' /\ (refcount gbo' + 1)%positive = refcount gbo) /\
    match inkern_cb xcmd with
    | Some cb => n_workq e' = n_workq e ++ [cb] /\ n_clients e' = n_clients e
    | None =>
        n_workq e' = n_workq e /\
        (forall fd, fd <> client xcmd -> n_clients e' !! fd = n_clients e !! fd) /\
        exists c c',
          n_clients e !! client xcmd = Some c /\
          n_clients e' !! client xcmd = Some c' /\
          event c' = s32 (event c + 1) /\
          (- 2 ^ 31 <= event c < INT_MAX -> event c' = event c + 1) /\
          waitq c' = S (waitq c) /\
          pid c' = pid c /\ num_ctx c' = num_ctx c /\
          xclbin_id c' = xclbin_id c /\ ctx c' = ctx c
    end /\
    (forall t e_t,
        notify_execbuf xcmd t e = Some e_t ->
        (forall h, refcount <$> n_bos e_t !! h = refcount <$> n_bos e' !! h) /\
        n_clients e_t = n_clients e' /\ n_workq e_t = n_workq e').
Proof.
  intros Hst Hg Hgbo Hcl.
  pose proof (notify_state_other status Hst) as Hs.
  assert (notify_written xcmd status (n_bos e) = Some (n_bos e)) as Hw.
  { unfold notify_written. by rewrite Hs. }
  destruct (notify_execbuf_run xcmd status e (n_bos e) g Hw Hg) as (b2 & Hput & Hrun);
    [by eauto | done |].
  pose proof (notify_execbuf_signal _ _ _ _ Hrun) as Hsig.
  rewrite Hrun. eexists. split; [reflexivity|]. cbn [n_bos n_clients n_workq].
  split; [|split; [|split; [|split; [|split; [exact Hsig|]]]]].
  - intros h bo' Hl.
    destruct (gem_object_put_lookup _ _ _ _ _ Hput Hl) as (bo1 & Hl1 & Hv & _). eauto.
  - intros h Hne. apply (gem_object_put_other _ _ _ _ Hput Hne).
  - intros Hr. apply (gem_object_put_last _ _ _ _ Hgbo Hput Hr).
  - intros Hr. rewrite (gem_object_put_more _ _ _ _ Hgbo Hput Hr).
    eexists. split; [reflexivity|]. cbn. lia.
  - intros t e_t Ht.
    pose proof Ht as (b1 & g' & Hw1 & Hg' & Hput1 & Hcl1)%notify_execbuf_inv.
    rewrite Hg in Hg'. injection Hg' as <-.
    split.
    + apply (gem_object_put_refcounts b1 (n_bos e) g); [|done|done].
      intros h. apply (notify_written_refcounts _ _ _ _ _ Hw1).
    + destruct (inkern_cb xcmd) as [cb|].
      * by destruct Hcl1 as [-> ->].
      * destruct Hcl1 as (-> & c & Hc & ->). by rewrite Hc.
Qed.

(** A command built from a packet that is neither CONFIGURE nor START_CU
    carries the execbuf pointer that [kds_alloc_command] left: the ioctl
    attaches the command buffer only through the two packet conversions. *)
Lemma execbuf_xcmd_other_opcode `{!KdsCore} xdev fd args ik obj :
  opcode (vmapping obj) <> ERT_CONFIGURE -> opcode (vmapping obj) <> ERT_START_CU ->
  execbuf (execbuf_xcmd xdev fd args ik obj) =
  execbuf (kds_alloc_command fd (u32 (count (vmapping obj) * 4))).
Proof.
  intros H1 H2. unfold execbuf_xcmd. cbn.
  destruct (Z.eqb_spec (opcode (vmapping obj)) ERT_CONFIGURE); [done|].
  destruct (Z.eqb_spec (opcode (vmapping obj)) ERT_START_CU); [done|].
  by destruct (ik && negb (cb_func args =? 0)).
Qed.

End NotifyProperties.

Lemma sample_status_distinct : @XoclKds.KdsStatusDistinct XoclKds.sample_abi.
Proof.
  unfold XoclKds.KdsStatusDistinct. cbn.
  repeat (apply NoDup_cons; split;
          [rewrite ?elem_of_cons, elem_of_nil; intuition discriminate|]).
  apply NoDup_nil_2.
Qed.

Section NotifyWitnesses.
Import XoclKds.

Lemma notify_execbuf_terminal_witness :
  exists e' bo' c',
    @notify_execbuf sample_abi (sample_xcmd None) 3 sample_submitted_env = Some e' /\
    n_bos e' !! 7%nat = Some bo' /\
    state (vmapping bo') = 8 /\ refcount bo' = 1%positive /\
    n_workq e' = [] /\
    n_clients e' !! 3%nat = Some c' /\ event c' = 1 /\ waitq c' = 1%nat.
Proof.
  destruct (@notify_execbuf_terminal sample_abi sample_status_distinct
              (sample_xcmd None) 3 sample_submitted_env 7%nat sample_submitted_bo
              7%nat sample_submitted_bo)
    as (e' & Hrun & Ha & _ & _ & Hmore & Hw & _ & c & c' & Hc & Hc' & _ & Hev & Hwq & _).
  - cbn. rewrite !elem_of_cons. auto.
  - reflexivity.
  - reflexivity.
  - reflexivity.
  - reflexivity.
  - intros _. eexists. reflexivity.
  - destruct (Hmore ltac:(discriminate)) as (bo' & Hbo' & Href).
    destruct (Ha bo' Hbo') as (_ & _ & Ht & _).
    exists e', bo', c'. split; [exact Hrun|]. split; [exact Hbo'|].
    split; [exact (Ht eq_refl)|]. split; [change (refcount sample_submitted_bo) with 2%positive in Href; lia|].
    split; [exact Hw|].
    split; [exact Hc'|].
    cbn in Hc. injection Hc as <-.
    split; [|exact Hwq].
    rewrite Hev; [reflexivity|]. vm_compute. split; [discriminate | reflexivity].
Defined.

Lemma notify_execbuf_other_status_witness :
  (exists e' bo' c',
      @notify_execbuf sample_abi (sample_xcmd None) 7 sample_submitted_env = Some e' /\
      n_bos e' !! 7%nat = Some bo' /\
      state (vmapping bo') = 1 /\ refcount bo' = 1%positive /\
      n_workq e' = [] /\
      n_clients e' !! 3%nat = Some c' /\ event c' = 1 /\ waitq c' = 1%nat) /\
  (exists e',
      @notify_execbuf sample_abi (sample_xcmd (Some sample_cb)) 7 sample_submitted_env
        = Some e' /\
      n_workq e' = [sample_cb] /\ n_clients e' = n_clients sample_submitted_env).
Proof.
  assert (7 ∉ [@KDS_COMPLETED sample_abi; @KDS_ERROR sample_abi; @KDS_TIMEOUT sample_abi;
               @KDS_ABORT sample_abi]) as Hst.
  { cbn. rewrite !elem_of_cons, elem_of_nil. intuition discriminate. }
  split.
  - destruct (@notify_execbuf_other_status sample_abi (sample_xcmd None) 7
                sample_submitted_env 7%nat sample_submitted_bo Hst eq_refl eq_refl
                ltac:(intros _; eexists; reflexivity))
      as (e' & Hrun & Hpkt & _ & _ & Hmore & (Hw & _ & c & c' & Hc & Hc' & _ & Hev & Hwq & _)
          & _).
    destruct (Hmore ltac:(discriminate)) as (bo' & Hbo' & Href).
    destruct (Hpkt _ _ Hbo') as (bo & Hbo & Hv).
    exists e', bo', c'. split; [exact Hrun|]. split; [exact Hbo'|].
    cbn in Hbo. injection Hbo as <-.
    split; [by rewrite Hv|]. split; [change (refcount sample_submitted_bo) with 2%positive in Href; lia|].
    split; [exact Hw|].
    split; [exact Hc'|].
    cbn in Hc. injection Hc as <-.
    split; [|exact Hwq].
    rewrite Hev; [reflexivity|]. vm_compute. split; [discriminate | reflexivity].
  - destruct (@notify_execbuf_other_status sample_abi (sample_xcmd (Some sample_cb)) 7
                sample_submitted_env 7%nat sample_submitted_bo Hst eq_refl eq_refl
                ltac:(discriminate))
      as (e' & Hrun & _ & _ & _ & _ & (Hw & Hcl) & _).
    exists e'. split; [exact Hrun|]. split; [exact Hw | exact Hcl].
Defined.

(** C3, as the claim has it, fails on a command without a command buffer.
    The ioctl accepts a packet whose opcode is neither CONFIGURE nor START_CU
    and hands over a command whose execbuf pointer is still the NULL of the
    allocation; reporting KDS_COMPLETED for it makes [notify_execbuf] follow
    that pointer: no state word is written, no reference dropped, no signal
    delivered.  Whatever stands behind [kds_alloc_command], the execbuf
    pointer of such a command is the one the allocation left, which cannot
    depend on the buffer submitted. *)
Lemma notify_execbuf_null_execbuf_counterexample :
  let obj := {| vmapping := other_packet 0; refcount := 1; bo_execbuf := true |} in
  let xcmd := @execbuf_xcmd sample_abi sample_core sample_dev_other 3 sample_execbuf
                false obj in
  let r := @xocl_command_ioctl sample_abi sample_core sample_dev_other 3
             sample_open_client sample_execbuf false true true in
  (r.1 = 0 /\ pending (kds r.2) = [xcmd] /\
   execbuf xcmd = None /\ gem_obj xcmd = Some 7%nat /\
   bos r.2 !! 7%nat
     = Some {| vmapping := other_packet 1; refcount := 2; bo_execbuf := true |} /\
   @notify_execbuf sample_abi xcmd (@KDS_COMPLETED sample_abi)
     {| n_bos := bos r.2; n_clients := {[ 3%nat := sample_open_client ]}; n_workq := [] |}
   = None) /\
  (forall (core : KdsCore) xdev fd args ik obj',
      opcode (vmapping obj') <> @ERT_CONFIGURE sample_abi ->
      opcode (vmapping obj') <> @ERT_START_CU sample_abi ->
      execbuf (@execbuf_xcmd sample_abi core xdev fd args ik obj') =
      execbuf (@kds_alloc_command core fd (u32 (count (vmapping obj') * 4)))).
Proof.
  split.
  - repeat split; vm_compute; reflexivity.
  - intros core xdev fd args ik obj' H1 H2.
    by apply (@execbuf_xcmd_other_opcode sample_abi core).
Qed.

End NotifyWitnesses.

(** ** Who writes the state word *)

Section StateWord.
Import XoclKds.
Context `{!KdsAbi, !KdsCore}.

Lemma add_context_bos xdev c args ok :
  bos (xocl_add_context xdev c args ok).1.2 = bos xdev.
Proof.
  rewrite xocl_add_context_unfold. cbv zeta. cbn [fst snd].
  rewrite unlock_if_no_ctx_dev.
  assert (bos (add_context_body xdev c args ok).1.2 = bos xdev) as Hbody.
  { unfold add_context_body.
    repeat (case_match; cbn; try done). }
  by destruct (num_ctx _ =? 0)%nat.
Qed.

Lemma del_context_bos xdev c args :
  bos (xocl_del_context xdev c args).1.2 = bos xdev.
Proof.
  unfold xocl_del_context.
  destruct (xclbin_id c); [|done].
  destruct (uuid_equal _ _); cbn; [|done].
  destruct (kds_del_context _ _ _) as [[ret k] c1].
  destruct (ret =? 0); cbn; [|done].
  pose proof (unlock_if_no_ctx_dev (with_kds xdev k) c1 args) as Hd.
  destruct (unlock_if_no_ctx _ c1 args) as [xdev2 c2]. cbn in *. subst xdev2.
  by destruct (num_ctx c1 =? 0)%nat.
Qed.

Lemma destroy_client_bos xdev c : bos (xocl_destroy_client xdev c) = bos xdev.
Proof.
  unfold xocl_destroy_client. destruct (kds_fini_client _ _) as [k c1].
  by destruct (xclbin_id c1).
Qed.

(** The buffer objects after [xocl_command_ioctl]: untouched, or the
    submitted object with a reference taken, or that object with a reference
    taken and its state word set to NEW. *)
Lemma command_ioctl_bos xdev fd c args ik o1 o2 :
  let b' := bos (xocl_command_ioctl xdev fd c args ik o1 o2).2 in
  b' = bos xdev \/
  exists obj,
    bos xdev !! exec_bo_handle args = Some obj /\
    (b' = <[exec_bo_handle args := gem_object_get obj]> (bos xdev) \/
     b' = <[exec_bo_handle args :=
              with_vmapping (gem_object_get obj)
                (with_state (vmapping (gem_object_get obj)) ERT_CMD_STATE_NEW)]>
            (bos xdev)).
Proof.
  unfold xocl_command_ioctl.
  destruct (xclbin_id c); [|by left].
  destruct (bad_state (kds xdev)); [by left|].
  destruct (bos xdev !! exec_bo_handle args) as [obj|] eqn:Hobj; [|by left].
  right. exists obj. split; [done|].
  destruct (bo_execbuf (gem_object_get obj)); cbn; [|by left].
  right.
  destruct o1; cbn; [|done].
  destruct (ik && negb (cb_func args =? 0) && negb o2); cbn; [done|].
  by destruct (kds_add_command _ _).
Qed.

Lemma notify_execbuf_state_word xcmd status e e' h bo bo' :
  notify_execbuf xcmd status e = Some e' ->
  n_bos e !! h = Some bo -> n_bos e' !! h = Some bo' ->
  state (vmapping bo') = state (vmapping bo) \/
  notify_state status = Some (state (vmapping bo')).
Proof.
  intros (b1 & g & Hw & _ & Hput & _)%notify_execbuf_inv Hb Hb'.
  destruct (gem_object_put_lookup _ _ _ _ _ Hput Hb') as (bo1 & Hl1 & Hv & _).
  pose proof (notify_written_lookup _ _ _ _ h Hw) as Hl. rewrite Hb in Hl.
  destruct Hl as (bo1' & Hl1' & _ & _ & _ & _ & Hst & _).
  rewrite Hl1 in Hl1'. injection Hl1' as <-.
  rewrite Hv. destruct Hst as [?|[? _]]; auto.
Qed.

(** C4, as the code has it: whenever a driver call changes the state word of
    a command buffer, either the call is a completion through
    [notify_execbuf] and the new value is COMPLETED, ERROR, TIMEOUT or
    ABORT, or the call is the command ioctl submitting that very buffer and
    the new value is NEW. *)
Theorem state_word_mutations s e s' h w w' :
  kds_step s e = Some s' ->
  state_word s h = Some w -> state_word s' h = Some w' -> w' <> w ->
  (is_notify e = true /\
   w' ∈ [ERT_CMD_STATE_COMPLETED; ERT_CMD_STATE_ERROR; ERT_CMD_STATE_TIMEOUT;
         ERT_CMD_STATE_ABORT]) \/
  (exists fd args ik o1 o2,
      e = Execbuf fd args ik o1 o2 /\ exec_bo_handle args = h /\
      w' = ERT_CMD_STATE_NEW).
Proof.
  unfold state_word. intros Hstep Hw Hw' Hne.
  destruct (bos (dev s) !! h) as [bo|] eqn:Hbo; [cbn in Hw|done].
  destruct (bos (dev s') !! h) as [bo'|] eqn:Hbo'; [cbn in Hw'|done].
  injection Hw as <-. injection Hw' as <-.
  destruct e as [fd args ok|fd args|fd args ik o1 o2|xcmd status|fd|fd]; cbn in Hstep.
  - destruct (clients s !! fd) as [c|]; [cbn in Hstep|done].
    pose proof (add_context_bos (dev s) c args ok) as Hb.
    destruct (xocl_add_context _ _ _ _) as [[ret xdev] c1].
    injection Hstep as <-. cbn in *. congruence.
  - destruct (clients s !! fd) as [c|]; [cbn in Hstep|done].
    pose proof (del_context_bos (dev s) c args) as Hb.
    destruct (xocl_del_context _ _ _) as [[ret xdev] c1].
    injection Hstep as <-. cbn in *. congruence.
  - destruct (clients s !! fd) as [c|]; [cbn in Hstep|done].
    pose proof (command_ioctl_bos (dev s) fd c args ik o1 o2) as Hb.
    destruct (xocl_command_ioctl _ _ _ _ _ _ _) as [ret xdev].
    injection Hstep as <-. cbn in *.
    destruct Hb as [Hb|(obj & Hobj & [Hb|Hb])]; rewrite Hb in Hbo'.
    + congruence.
    + destruct (decide (exec_bo_handle args = h)) as [Heq|Hneq].
      * rewrite Heq in *. rewrite lookup_insert_eq in Hbo'.
        injection Hbo' as <-. cbn in Hne. congruence.
      * rewrite lookup_insert_ne in Hbo' by done. congruence.
    + destruct (decide (exec_bo_handle args = h)) as [Heq|Hneq].
      * right. exists fd, args, ik, o1, o2. split; [done|]. split; [done|].
        rewrite Heq in Hbo'. rewrite lookup_insert_eq in Hbo'.
        by injection Hbo' as <-.
      * rewrite lookup_insert_ne in Hbo' by done. congruence.
  - destruct (notify_execbuf _ _ _) as [e'|] eqn:Hn; [cbn in Hstep|done].
    injection Hstep as <-. cbn in Hbo'.
    destruct (notify_execbuf_state_word _ _ _ _ h bo bo' Hn Hbo Hbo') as [Hsame|Hs];
      [done|].
    left. split; [done|]. eapply notify_state_values, Hs.
  - destruct (clients s !! fd) as [c|]; [cbn in Hstep|done].
    injection Hstep as <-. cbn in *. congruence.
  - destruct (clients s !! fd) as [c|]; [cbn in Hstep|done].
    injection Hstep as <-. cbn in Hbo'. rewrite destroy_client_bos in Hbo'.
    congruence.
Qed.

End StateWord.

Section StateWordWitnesses.
Import XoclKds.

Lemma state_word_mutations_witness :
  exists s',
    @kds_step sample_abi sample_core sample_submitted_system
      (NotifyHost (sample_xcmd None) 1) = Some s' /\
    state_word s' 7 = Some 5.
Proof.
  eexists. split; [vm_compute; reflexivity|].
  destruct (@state_word_mutations sample_abi sample_core sample_submitted_system
              (NotifyHost (sample_xcmd None) 1) _ 7%nat 1 5
              ltac:(vm_compute; reflexivity) ltac:(reflexivity)
              ltac:(vm_compute; reflexivity) ltac:(discriminate))
    as [_|(fd & args & ik & o1 & o2 & Habs & _)]; [|discriminate Habs].
  vm_compute. reflexivity.
Defined.

(** C4, as the claim has it, fails on a submission: [xocl_command_ioctl],
    which is not the notify path, changes the state word of the submitted
    buffer from 0 to NEW. *)
Lemma state_word_new_counterexample :
  exists s',
    @kds_step sample_abi sample_core (sample_open_system false)
      (Execbuf 3 sample_execbuf false true true) = Some s' /\
    is_notify (Execbuf 3 sample_execbuf false true true) = false /\
    state_word (sample_open_system false) 7 = Some 0 /\
    state_word s' 7 = Some (@ERT_CMD_STATE_NEW sample_abi) /\
    @ERT_CMD_STATE_NEW sample_abi <> 0.
Proof.
  eexists. split; [vm_compute; reflexivity|].
  repeat split; try reflexivity. discriminate.
Qed.

End StateWordWitnesses.

(** ** The event counter along a run *)

Lemma spec_kds_core_event_frame `{!XoclKds.KdsAbi} :
  @XoclKds.KdsCoreEventFrame XoclKds.spec_kds_core.
Proof.
  split; cbn; intros k c i.
  - unfold XoclKds.spec_kds_add_context. repeat (case_match; cbn; try done).
  - unfold XoclKds.spec_kds_del_context. repeat (case_match; cbn; try done).
Qed.

Section EventCounter.
Import XoclKds.
Context `{!KdsAbi, !KdsCore, !KdsCoreEventFrame}.

Lemma add_context_event xdev c args ok :
  event (xocl_add_context xdev c args ok).2 = event c.
Proof.
  rewrite xocl_add_context_unfold. cbv zeta. cbn [fst snd].
  rewrite unlock_if_no_ctx_client.
  assert (event (add_context_body xdev c args ok).2 = event c) as Hbody.
  { destruct (add_context_body_cases xdev c args ok)
      as [(_ & _ & Hb)|(k & c0 & Hb & _ & -> & _)]; [by rewrite Hb|].
    rewrite Hb. cbn [fst snd]. rewrite kds_add_context_event.
    by destruct (num_ctx c =? 0)%nat. }
  by destruct (num_ctx _ =? 0)%nat.
Qed.

Lemma del_context_event xdev c args :
  event (xocl_del_context xdev c args).2 = event c.
Proof.
  unfold xocl_del_context.
  destruct (xclbin_id c); [|done].
  destruct (uuid_equal _ _); cbn; [|done].
  pose proof (kds_del_context_event (kds xdev) c (xocl_ctx_to_info args)) as He.
  destruct (kds_del_context _ _ _) as [[ret k] c1]. cbn in He.
  destruct (ret =? 0); cbn; [|done].
  pose proof (unlock_if_no_ctx_client (with_kds xdev k) c1 args) as Hc.
  destruct (unlock_if_no_ctx _ c1 args) as [xdev2 c2]. cbn in *. subst c2.
  by destruct (num_ctx c1 =? 0)%nat.
Qed.

(** One call raises no counter by more than one and lowers none below 0. *)
Lemma kds_step_events_within b s e s' :
  0 <= b < INT_MAX ->
  events_within b s -> kds_step s e = Some s' -> events_within (b + 1) s'.
Proof.
  intros Hb Hinv Hstep fd' c'.
  assert (forall fd c, clients s !! fd = Some c -> 0 <= event c <= b + 1) as Hweak.
  { intros fd c Hc. specialize (Hinv fd c Hc). lia. }
  destruct e as [fd args ok|fd args|fd args ik o1 o2|xcmd status|fd|fd]; cbn in Hstep.
  - destruct (clients s !! fd) as [c|] eqn:Hc; [cbn in Hstep|done].
    pose proof (add_context_event (dev s) c args ok) as He.
    destruct (xocl_add_context _ _ _ _) as [[ret xdev] c1].
    injection Hstep as <-. cbn in *.
    destruct (decide (fd = fd')) as [->|Hne].
    + rewrite lookup_insert_eq. intros [= <-]. rewrite He. eauto.
    + rewrite lookup_insert_ne by done. apply Hweak.
  - destruct (clients s !! fd) as [c|] eqn:Hc; [cbn in Hstep|done].
    pose proof (del_context_event (dev s) c args) as He.
    destruct (xocl_del_context _ _ _) as [[ret xdev] c1].
    injection Hstep as <-. cbn in *.
    destruct (decide (fd = fd')) as [->|Hne].
    + rewrite lookup_insert_eq. intros [= <-]. rewrite He. eauto.
    + rewrite lookup_insert_ne by done. apply Hweak.
  - destruct (clients s !! fd) as [c|] eqn:Hc; [cbn in Hstep|done].
    destruct (xocl_command_ioctl _ _ _ _ _ _ _) as [ret xdev].
    injection Hstep as <-. cbn. apply Hweak.
  - destruct (notify_execbuf _ _ _) as [e1|] eqn:Hn; [cbn in Hstep|done].
    injection Hstep as <-. cbn.
    pose proof Hn as (b1 & g & _ & _ & _ & Hcl)%notify_execbuf_inv. cbn in Hcl.
    destruct (inkern_cb xcmd) as [cb|].
    + destruct Hcl as [-> _]. apply Hweak.
    + destruct Hcl as (_ & c0 & Hc0 & ->).
      destruct (decide (client xcmd = fd')) as [->|Hne].
      * rewrite lookup_insert_eq. intros [= <-]. cbn.
        specialize (Hinv _ _ Hc0).
        rewrite atomic_inc_exact by (unfold INT_MAX in *; lia). lia.
      * rewrite lookup_insert_ne by done. apply Hweak.
  - destruct (clients s !! fd) as [c|] eqn:Hc; [cbn in Hstep|done].
    injection Hstep as <-. cbn.
    destruct (decide (fd = fd')) as [->|Hne].
    + rewrite lookup_insert_eq. intros [= <-].
      specialize (Hinv _ _ Hc).
      assert (0 <= event c <= INT_MAX) as Hr by lia.
      destruct (event_count_preserved c Hr) as [Hp _].
      unfold xocl_poll_client in Hp |- *.
      rewrite atomic_dec_if_positive_spec in Hp |- * by done.
      destruct (event c =? 0); cbn in Hp |- *; [lia|].
      destruct (event c - 1 =? -1); cbn in Hp |- *; lia.
    + rewrite lookup_insert_ne by done. apply Hweak.
  - destruct (clients s !! fd) as [c|] eqn:Hc; [cbn in Hstep|done].
    injection Hstep as <-. cbn.
    intros Hl. apply lookup_delete_Some in Hl as [_ Hl]. by eapply Hweak.
Qed.

(** Counters that start as counts are still counts after [length es] calls,
    as long as 2^31 completions cannot have piled up. *)
Lemma kds_run_events_within es : forall b s s',
  0 <= b -> b + Z.of_nat (length es) <= INT_MAX ->
  events_within b s -> kds_run s es = Some s' ->
  events_within (b + Z.of_nat (length es)) s'.
Proof.
  induction es as [|e es IH]; intros b s s' Hb Hlen Hinv Hrun; cbn in Hrun.
  - injection Hrun as <-. cbn. intros fd c Hc. specialize (Hinv fd c Hc). lia.
  - destruct (kds_step s e) as [s1|] eqn:Hstep; [cbn in Hrun|done].
    cbn [length] in Hlen |- *. rewrite Nat2Z.inj_succ in Hlen |- *.
    replace (b + Z.succ (Z.of_nat (length es))) with (b + 1 + Z.of_nat (length es)) by lia.
    eapply IH; [lia | lia | | exact Hrun].
    eapply kds_step_events_within; [|exact Hinv|exact Hstep]. lia.
Qed.

(** A call of an existing client always goes through. *)
Lemma kds_step_total s fd c :
  clients s !! fd = Some c ->
  (forall args ok, is_Some (kds_step s (CtxAlloc fd args ok))) /\
  (forall args, is_Some (kds_step s (CtxFree fd args))) /\
  (forall args ik o1 o2, is_Some (kds_step s (Execbuf fd args ik o1 o2))) /\
  is_Some (kds_step s (Poll fd)) /\
  is_Some (kds_step s (DestroyClient fd)).
Proof.
  intros Hc. cbn. rewrite Hc. cbn. repeat split; intros.
  - by destruct (xocl_add_context _ _ _ _) as [[? ?] ?].
  - by destruct (xocl_del_context _ _ _) as [[? ?] ?].
  - by destruct (xocl_command_ioctl _ _ _ _ _ _ _) as [? ?].
  - done.
  - done.
Qed.

End EventCounter.

Section PollClaim.
Import XoclKds.
Context `{!KdsAbi, !KdsCore, !KdsCoreEventFrame}.

(** C6, as the code has it: on a client whose event counter is a count
    (between 0 and INT_MAX), [xocl_poll_client] returns POLLIN exactly when
    the counter is positive;
    a poll that returns POLLIN takes exactly one off the counter, and a poll
    that does not returns 0 and leaves the client as it was.  The counter of
    every client is such a count in every state that driver calls reach from
    a state where the counters are counts, as long as fewer than 2^31
    completions can have piled up. *)
Theorem poll_readable_iff_event_positive :
  (forall c,
      0 <= event c <= INT_MAX ->
      ((xocl_poll_client c).1 = POLLIN <-> 0 < event c) /\
      ((xocl_poll_client c).1 = POLLIN ->
       (xocl_poll_client c).2 = with_event c (event c - 1) (waitq c)) /\
      ((xocl_poll_client c).1 <> POLLIN ->
       (xocl_poll_client c).1 = 0 /\ (xocl_poll_client c).2 = c)) /\
  (forall es b s s' fd c,
      0 <= b -> b + Z.of_nat (length es) <= INT_MAX ->
      events_within b s -> kds_run s es = Some s' ->
      clients s' !! fd = Some c ->
      0 <= event c <= INT_MAX).
Proof.
  split.
  - intros c Hev. unfold xocl_poll_client.
    rewrite atomic_dec_if_positive_spec by done.
    destruct (Z.eqb_spec (event c) 0) as [E|E]; cbn.
    + rewrite E. repeat split; try (unfold POLLIN; lia).
      destruct c; cbn in *. by subst.
    + destruct (Z.eqb_spec (event c - 1) (-1)) as [E'|E']; [lia|]. cbn.
      repeat split; try done; lia.
  - intros es b s s' fd c Hb Hlen Hinv Hrun Hc.
    pose proof (kds_run_events_within es b s s' Hb Hlen Hinv Hrun fd c Hc). lia.
Qed.

End PollClaim.

Lemma sample_system_events_within bad :
  XoclKds.events_within 0 (XoclKds.sample_system bad).
Proof.
  intros fd c Hl. cbn in Hl. apply lookup_singleton_Some in Hl as [_ <-].
  cbn. lia.
Qed.

Section PollWitness.
Import XoclKds.

Lemma poll_readable_iff_event_positive_witness :
  (xocl_poll_client (with_event (new_client 100) 2 1)).1 = POLLIN /\
  (xocl_poll_client (with_event (new_client 100) 2 1)).2 = with_event (new_client 100) 1 1 /\
  exists s' c,
    @kds_run sample_abi sample_core (sample_system false) sample_calls = Some s' /\
    clients s' !! 3%nat = Some c /\ 0 <= event c <= INT_MAX.
Proof.
  destruct (@poll_readable_iff_event_positive sample_abi sample_core
              spec_kds_core_event_frame) as [Hpoll Hreach].
  destruct (Hpoll (with_event (new_client 100) 2 1) ltac:(cbn; unfold INT_MAX; lia))
    as (Hiff & Hdec & _).
  assert (Hin : (xocl_poll_client (with_event (new_client 100) 2 1)).1 = POLLIN)
    by (apply Hiff; cbn; lia).
  split; [exact Hin|]. split; [exact (Hdec Hin)|].
  eexists _, _. split; [vm_compute; reflexivity|]. split; [vm_compute; reflexivity|].
  refine (Hreach sample_calls 0 (sample_system false) _ 3%nat _ _ _
            (sample_system_events_within false) _ _);
    [lia | vm_compute; discriminate | vm_compute; reflexivity | vm_compute; reflexivity].
Defined.

(** C6, as the claim has it, fails on a counter that has wrapped.  One
    completion on a client whose counter is INT_MAX leaves -2^31: the poll of
    that client answers POLLIN although the counter is not positive, and
    instead of taking one off it leaves INT_MAX.  On a counter of -5 the poll
    answers POLLIN and leaves -5. *)
Lemma poll_readable_counterexample :
  exists e' c',
    @notify_execbuf sample_abi (sample_xcmd None) 0 (sample_env_with_event INT_MAX)
      = Some e' /\
    n_clients e' !! 3%nat = Some c' /\
    event c' = - 2 ^ 31 /\ ~ 0 < event c' /\
    (xocl_poll_client c').1 = POLLIN /\
    event (xocl_poll_client c').2 = INT_MAX /\
    (xocl_poll_client (with_event sample_open_client (-5) 0)).1 = POLLIN /\
    event (xocl_poll_client (with_event sample_open_client (-5) 0)).2 = -5.
Proof.
  eexists _, _. split; [vm_compute; reflexivity|]. split; [vm_compute; reflexivity|].
  repeat split; try (vm_compute; reflexivity). vm_compute. discriminate.
Qed.

End PollWitness.

(** * Further properties of the code *)

(** ** xrt_cu.h: the inline wrappers *)

Lemma u32_add_l a b : u32 (u32 a + b) = u32 (a + b).
Proof. unfold u32. by rewrite Zplus_mod_idemp_l. Qed.

Section CuWrappers.
Import XrtCu.
Context {core_t cmd_t : Type}.
Implicit Types xcu : xrt_cu core_t cmd_t.

(** X1: the wrappers only ever change the backend state of a CU, and
    [xrt_cu_check] the two completion counters besides: queues, queue
    lengths, stop flag, bad-state latch, timeout, event slot and table
    pointer come back as they went in. *)
Theorem cu_wrappers_touch_core_only xcu :
  (forall t, xrt_cu_enable_intr xcu t = with_core xcu (core (xrt_cu_enable_intr xcu t))) /\
  (forall t, xrt_cu_disable_intr xcu t = with_core xcu (core (xrt_cu_disable_intr xcu t))) /\
  (xrt_cu_clear_intr xcu).2 = with_core xcu (core (xrt_cu_clear_intr xcu).2) /\
  (forall d sz ty xcu', xrt_cu_config xcu d sz ty = Some xcu' -> xcu' = with_core xcu (core xcu')) /\
  (forall xcu', xrt_cu_start xcu = Some xcu' -> xcu' = with_core xcu (core xcu')) /\
  (forall r xcu', xrt_cu_get_credit xcu = Some (r, xcu') -> xcu' = with_core xcu (core xcu')) /\
  (forall r xcu', is_zero_credit xcu = Some (r, xcu') -> xcu' = with_core xcu (core xcu')) /\
  (forall n xcu', xrt_cu_put_credit xcu n = Some xcu' -> xcu' = with_core xcu (core xcu')) /\
  (forall xcu', xrt_cu_check xcu = Some xcu' ->
     xcu' = with_counts (with_core xcu (core xcu')) (done_cnt xcu') (ready_cnt xcu')).
Proof.
  unfold xrt_cu_enable_intr, xrt_cu_disable_intr, xrt_cu_clear_intr, xrt_cu_config,
    xrt_cu_start, xrt_cu_get_credit, is_zero_credit, xrt_cu_put_credit, xrt_cu_check.
  destruct (funcs xcu) as [f|] eqn:Hf; cbn.
  - repeat split; intros.
    + by destruct (clear_intr f (core xcu)).
    + by simplify_eq.
    + by simplify_eq.
    + destruct (alloc_credit f (core xcu)). by simplify_eq.
    + destruct (peek_credit f (core xcu)). by simplify_eq.
    + by simplify_eq.
    + destruct (check f (core xcu) _). by simplify_eq.
  - repeat split; intros; try done; by rewrite with_core_same.
Qed.

(** X2: without a capability table ([funcs] NULL) the three interrupt
    wrappers do nothing, [xrt_cu_clear_intr] answering 0, while the six other
    wrappers give a result exactly when the table is there: they dereference
    the pointer untested. *)
Theorem cu_wrappers_null_table xcu :
  (funcs xcu = None ->
   (forall t, xrt_cu_enable_intr xcu t = xcu) /\
   (forall t, xrt_cu_disable_intr xcu t = xcu) /\
   xrt_cu_clear_intr xcu = (0, xcu)) /\
  (forall d sz ty, is_Some (xrt_cu_config xcu d sz ty) <-> is_Some (funcs xcu)) /\
  (is_Some (xrt_cu_start xcu) <-> is_Some (funcs xcu)) /\
  (is_Some (xrt_cu_check xcu) <-> is_Some (funcs xcu)) /\
  (is_Some (xrt_cu_get_credit xcu) <-> is_Some (funcs xcu)) /\
  (is_Some (is_zero_credit xcu) <-> is_Some (funcs xcu)) /\
  (forall n, is_Some (xrt_cu_put_credit xcu n) <-> is_Some (funcs xcu)).
Proof.
  unfold xrt_cu_enable_intr, xrt_cu_disable_intr, xrt_cu_clear_intr, xrt_cu_config,
    xrt_cu_start, xrt_cu_get_credit, is_zero_credit, xrt_cu_put_credit, xrt_cu_check.
  destruct (funcs xcu) as [f|]; cbn.
  - split; [done|].
    repeat split; intros; try done; try (by eexists).
    + by destruct (check f (core xcu) _).
    + by destruct (alloc_credit f (core xcu)).
    + by destruct (peek_credit f (core xcu)).
  - split; [done|].
    repeat split; intros [? ?]; done.
Qed.

(** X3: two [xrt_cu_check] in a row leave in [done_cnt] and [ready_cnt] the
    old value plus both reports, as one [u32] sum: nothing is lost when the
    first addition wraps. *)
Theorem xrt_cu_check_twice xcu (f : xcu_funcs core_t) :
  funcs xcu = Some f ->
  let r1 := check f (core xcu) {| num_done := 0; num_ready := 0 |} in
  let r2 := check f r1.1 {| num_done := 0; num_ready := 0 |} in
  exists xcu1 xcu2,
    xrt_cu_check xcu = Some xcu1 /\ xrt_cu_check xcu1 = Some xcu2 /\
    core xcu2 = r2.1 /\
    done_cnt xcu2 = u32 (done_cnt xcu + num_done r1.2 + num_done r2.2) /\
    ready_cnt xcu2 = u32 (ready_cnt xcu + num_ready r1.2 + num_ready r2.2).
Proof.
  intros Hf r1 r2. unfold xrt_cu_check. rewrite Hf. cbn.
  subst r2 r1. destruct (check f (core xcu) _) as [c1 st1]. cbn.
  destruct (check f c1 _) as [c2 st2] eqn:Hc2. cbn.
  eexists _, _. split; [reflexivity|]. cbn. rewrite Hf. cbn. rewrite Hc2.
  split; [reflexivity|]. cbn. by rewrite !u32_add_l.
Qed.

End CuWrappers.

Section CuWrappersWitness.
Import XrtCu.

Lemma cu_wrappers_touch_core_only_witness :
  exists xcu',
    xrt_cu_check (idle_cu (fixed_check_funcs 2 1) 1 1) = Some xcu' /\
    pq xcu' = [] /\ bad_state xcu' = false /\ funcs xcu' = Some (fixed_check_funcs 2 1).
Proof.
  destruct (cu_wrappers_touch_core_only (idle_cu (fixed_check_funcs 2 1) 1 1))
    as (_ & _ & _ & _ & _ & _ & _ & _ & Hcheck).
  specialize (Hcheck _ eq_refl).
  eexists. split; [reflexivity|].
  rewrite Hcheck. repeat split.
Defined.

Lemma cu_wrappers_null_table_witness :
  xrt_cu_enable_intr bare_cu CU_INTR_DONE = bare_cu /\
  xrt_cu_clear_intr bare_cu = (0, bare_cu) /\
  xrt_cu_check bare_cu = None.
Proof.
  destruct (cu_wrappers_null_table bare_cu) as (Hnull & _ & _ & Hcheck & _).
  destruct (Hnull eq_refl) as (Hen & _ & Hclr).
  split; [apply Hen|]. split; [exact Hclr|].
  destruct (xrt_cu_check bare_cu) as [x|] eqn:E; [|reflexivity].
  destruct (proj1 Hcheck (ex_intro _ x eq_refl)) as [f Hf]. discriminate Hf.
Defined.

Lemma xrt_cu_check_twice_witness :
  exists xcu1 xcu2,
    xrt_cu_check (idle_cu (fixed_check_funcs 2 1) 1 1) = Some xcu1 /\
    xrt_cu_check xcu1 = Some xcu2 /\ done_cnt xcu2 = 4 /\ ready_cnt xcu2 = 2.
Proof.
  destruct (xrt_cu_check_twice (idle_cu (fixed_check_funcs 2 1) 1 1)
              (fixed_check_funcs 2 1) eq_refl)
    as (xcu1 & xcu2 & H1 & H2 & _ & Hd & Hr).
  exists xcu1, xcu2. split; [exact H1|]. split; [exact H2|].
  split; [exact Hd | exact Hr].
Defined.

(** X4: [prot2str] names the five protocols apart, and answers "UNKNOWN"
    exactly for the numbers that are none of them. *)
Theorem prot2str_names :
  (forall p q, prot2str (protocol_value p) = prot2str (protocol_value q) -> p = q) /\
  (forall z, prot2str z = "UNKNOWN"%string <-> ~ exists p, z = protocol_value p).
Proof.
  split.
  - intros p q. destruct p, q; cbn; intros Heq; try reflexivity; discriminate Heq.
  - intros z. split.
    + intros Hz [p ->]. destruct p; discriminate Hz.
    + intros Hno. unfold prot2str.
      repeat match goal with
             | |- context [?a =? ?b] =>
                 destruct (Z.eqb_spec a b) as [E|E];
                 [exfalso; apply Hno; eexists; exact E|clear E]
             end.
      reflexivity.
Qed.

End CuWrappersWitness.

(** ** xocl_kds.c: contexts and the bitstream lock *)

Section ContextLocking.
Import XoclKds.
Context `{!KdsAbi, !KdsCore, !KdsCoreLaws}.

(** X5: an open on a client without contexts always asks for the bitstream
    lock first.  When the open succeeds the device keeps the lock as the
    call left it; when the open fails, for whatever reason, the block at
    [out] unlocks the bitstream, also when it was the lock itself that was
    refused; and a refused lock is the value returned, [kds_add_context] not
    having been called. *)
Theorem first_open_bitstream_calls xdev c args ok :
  num_ctx c = 0%nat ->
  let l := xocl_icap_lock_bitstream (icap xdev) (ctx_xclbin_id args) in
  let r := xocl_add_context xdev c args ok in
  (r.1.1 = 0 -> icap r.1.2 = l.2) /\
  (r.1.1 <> 0 ->
   icap r.1.2 = (xocl_icap_unlock_bitstream l.2 (ctx_xclbin_id args)).2) /\
  (l.1 <> 0 -> r.1.1 = l.1 /\ kds r.1.2 = kds xdev).
Proof.
  intros Hn l r. subst l r.
  unfold xocl_add_context, add_context_body, unlock_if_no_ctx. rewrite Hn. cbn [Nat.eqb].
  destruct (xocl_icap_lock_bitstream (icap xdev) (ctx_xclbin_id args)) as [ret ic].
  cbn [fst snd].
  destruct (Z.eqb_spec ret 0) as [Hret|Hret]; cbn [negb].
  - destruct ok; cbn [negb].
    + pose proof (kds_add_context_ok (kds (with_icap xdev ic))
                    (with_xclbin_id c (Some (ctx_xclbin_id args)))
                    (xocl_ctx_to_info args)) as Hok.
      pose proof (kds_add_context_fail (kds (with_icap xdev ic))
                    (with_xclbin_id c (Some (ctx_xclbin_id args)))
                    (xocl_ctx_to_info args)) as Hfail.
      destruct (kds_add_context _ _ _) as [[r k] c1]. cbn [fst snd] in *.
      destruct (Z.eq_dec r 0) as [Hr|Hr].
      * specialize (Hok Hr).
        destruct (Nat.eqb_spec (num_ctx c1) 0); [done|]. cbn. by repeat split.
      * rewrite (Hfail Hr). cbn. rewrite Hn. cbn. by repeat split.
    + rewrite Hn. cbn. by repeat split.
  - rewrite Hn. cbn. by repeat split.
Qed.

(** X6: an open on a client that already has contexts does not look at the
    xclbin passed, nor at the bitstream lock: it is [kds_add_context] on the
    device's scheduler and nothing more, and a failing one leaves the client
    as it was. *)
Theorem later_open_skips_bitstream xdev c args ok :
  num_ctx c <> 0%nat ->
  let a := kds_add_context (kds xdev) c (xocl_ctx_to_info args) in
  xocl_add_context xdev c args ok = (a.1.1, with_kds xdev a.1.2, a.2) /\
  (a.1.1 <> 0 -> (xocl_add_context xdev c args ok).2 = c) /\
  (forall args' ok',
      cu_index args' = cu_index args -> flags args' = flags args ->
      xocl_add_context xdev c args' ok' = xocl_add_context xdev c args ok).
Proof.
  intros Hn.
  assert (forall args0 ok0,
             xocl_add_context xdev c args0 ok0 =
             ((kds_add_context (kds xdev) c (xocl_ctx_to_info args0)).1.1,
              with_kds xdev (kds_add_context (kds xdev) c (xocl_ctx_to_info args0)).1.2,
              (kds_add_context (kds xdev) c (xocl_ctx_to_info args0)).2)) as Hopen.
  { intros args0 ok0.
    unfold xocl_add_context, add_context_body, unlock_if_no_ctx.
    destruct (Nat.eqb_spec (num_ctx c) 0) as [E|_]; [congruence|].
    pose proof (kds_add_context_ok (kds xdev) c (xocl_ctx_to_info args0)) as Hok.
    pose proof (kds_add_context_fail (kds xdev) c (xocl_ctx_to_info args0)) as Hfail.
    destruct (kds_add_context _ _ _) as [[r k] c1]. cbn [fst snd] in *.
    destruct (Nat.eqb_spec (num_ctx c1) 0) as [E|_]; [|reflexivity].
    exfalso. destruct (Z.eq_dec r 0) as [Hr|Hr].
    - by apply Hok.
    - rewrite (Hfail Hr) in E. done. }
  intros a. split; [apply Hopen|]. split.
  - intros Hfail. rewrite Hopen. cbn. by apply kds_add_context_fail.
  - intros args' ok' Hcu Hfl. rewrite !Hopen.
    unfold xocl_ctx_to_info. by rewrite Hcu, Hfl.
Qed.

(** X7: [xocl_del_context] unlocks the bitstream only on the close that
    succeeds and leaves no context: a close that fails or leaves a context
    keeps both the device's lock and the client's recorded xclbin; and
    [xocl_destroy_client] leaves the lock alone for a client that has none
    recorded. *)
Theorem unlock_only_on_last_close xdev c args :
  ((xocl_del_context xdev c args).1.1 <> 0 \/
   num_ctx (xocl_del_context xdev c args).2 <> 0%nat ->
   icap (xocl_del_context xdev c args).1.2 = icap xdev /\
   xclbin_id (xocl_del_context xdev c args).2 = xclbin_id c) /\
  (xclbin_id c = None -> icap (xocl_destroy_client xdev c) = icap xdev).
Proof.
  split.
  - unfold xocl_del_context.
    destruct (xclbin_id c) as [uuid|] eqn:Hid; [|done].
    destruct (uuid_equal uuid (ctx_xclbin_id args)); cbn; [|done].
    pose proof (kds_del_context_xclbin (kds xdev) c (xocl_ctx_to_info args)) as Hx.
    destruct (kds_del_context _ _ _) as [[ret k] c1]. cbn in Hx.
    destruct (Z.eqb_spec ret 0) as [Hret|Hret]; cbn; [|by rewrite Hx].
    unfold unlock_if_no_ctx.
    destruct (Nat.eqb_spec (num_ctx c1) 0) as [E|E]; cbn.
    + intros [?|?]; done.
    + by rewrite Hx.
  - intros Hid. unfold xocl_destroy_client.
    pose proof (kds_fini_client_xclbin (kds xdev) c) as Hx.
    destruct (kds_fini_client _ _) as [k c1]. cbn in Hx. by rewrite Hx, Hid.
Qed.

End ContextLocking.

Section ContextLockingWitnesses.
Import XoclKds.

Lemma first_open_bitstream_calls_witness :
  icap (@xocl_add_context sample_abi sample_core (sample_dev false) (new_client 100)
          (sample_ctx 5%N 0 0) true).1.2 = {| icap_uuid := Some 5%N; icap_ref := 1 |} /\
  icap (@xocl_add_context sample_abi sample_core (sample_dev false) (new_client 100)
          (sample_ctx 5%N 0 0) false).1.2 = {| icap_uuid := None; icap_ref := 0 |}.
Proof.
  destruct (@first_open_bitstream_calls sample_abi sample_core spec_kds_core_laws
              (sample_dev false) (new_client 100) (sample_ctx 5%N 0 0) true eq_refl)
    as (Hok & _ & _).
  destruct (@first_open_bitstream_calls sample_abi sample_core spec_kds_core_laws
              (sample_dev false) (new_client 100) (sample_ctx 5%N 0 0) false eq_refl)
    as (_ & Hfail & _).
  split.
  - rewrite Hok; reflexivity.
  - rewrite Hfail; [reflexivity | vm_compute; discriminate].
Defined.

Lemma later_open_skips_bitstream_witness :
  @xocl_add_context sample_abi sample_core (sample_dev false) sample_open_client
    (sample_ctx 9%N 1 0) false =
  @xocl_add_context sample_abi sample_core (sample_dev false) sample_open_client
    (sample_ctx 5%N 1 0) true.
Proof.
  apply (@later_open_skips_bitstream sample_abi sample_core spec_kds_core_laws
           (sample_dev false) sample_open_client (sample_ctx 5%N 1 0) true);
    [cbn; discriminate | reflexivity | reflexivity].
Defined.

Lemma unlock_only_on_last_close_witness :
  icap (@xocl_del_context sample_abi sample_core (sample_dev false) sample_open_client
          (sample_ctx 5%N 3 0)).1.2 = icap (sample_dev false) /\
  xclbin_id (@xocl_del_context sample_abi sample_core (sample_dev false) sample_open_client
               (sample_ctx 5%N 3 0)).2 = Some 5%N.
Proof.
  apply (@unlock_only_on_last_close sample_abi sample_core spec_kds_core_laws
           (sample_dev false) sample_open_client (sample_ctx 5%N 3 0)).
  left. vm_compute. discriminate.
Defined.

End ContextLockingWitnesses.

(** ** xocl_kds.c: submissions *)

Section Submission.
Import XoclKds.
Context `{!KdsAbi, !KdsCore}.

(** The buffer objects after the write of NEW into the submitted one. *)
Lemma command_ioctl_submits xdev fd c args ik o2 u obj :
  xclbin_id c = Some u -> bad_state (kds xdev) = false ->
  bos xdev !! exec_bo_handle args = Some obj -> bo_execbuf obj = true ->
  (ik && negb (cb_func args =? 0) = true -> o2 = true) ->
  let b' := <[exec_bo_handle args :=
                with_vmapping (gem_object_get obj)
                  (with_state (vmapping (gem_object_get obj)) ERT_CMD_STATE_NEW)]>
              (bos xdev) in
  let r := kds_add_command (kds xdev) (execbuf_xcmd xdev fd args ik obj) in
  xocl_command_ioctl xdev fd c args ik true o2 = (r.1, with_kds (with_bos xdev b') r.2).
Proof.
  intros Hid Hbad Hobj Hex Hcb. unfold xocl_command_ioctl, execbuf_xcmd.
  rewrite Hid, Hbad, Hobj. cbn [gem_object_get bo_execbuf]. rewrite Hex. cbn [negb].
  destruct (ik && negb (cb_func args =? 0)) eqn:Hik.
  - rewrite (Hcb eq_refl). cbn. by destruct (kds_add_command _ _).
  - cbn. by destruct (kds_add_command _ _).
Qed.


(** X8: a submission that names no buffer object returns -ENOENT and
    changes nothing.  A submission rejected after the lookup keeps the
    reference the lookup took: for a buffer that is no execbuf the answer is
    -EINVAL with the reference count one up and the packet untouched; when the
    command or the in-kernel callback cannot be allocated the answer is
    -ENOMEM with the reference count one up and the state word already NEW. *)
Theorem command_ioctl_rejections xdev fd c args ik o1 o2 u :
  xclbin_id c = Some u -> bad_state (kds xdev) = false ->
  let h := exec_bo_handle args in
  let r := xocl_command_ioctl xdev fd c args ik o1 o2 in
  (bos xdev !! h = None -> r = (- ENOENT, xdev)) /\
  (forall obj,
      bos xdev !! h = Some obj ->
      (bo_execbuf obj = false ->
       r = (- EINVAL, with_bos xdev (<[h := gem_object_get obj]> (bos xdev)))) /\
      (bo_execbuf obj = true ->
       o1 = false \/ (ik = true /\ cb_func args <> 0 /\ o2 = false) ->
       r = (- ENOMEM,
            with_bos xdev
              (<[h := with_vmapping (gem_object_get obj)
                        (with_state (vmapping obj) ERT_CMD_STATE_NEW)]> (bos xdev))))).
Proof.
  intros Hid Hbad h r. subst h r. unfold xocl_command_ioctl. rewrite Hid, Hbad.
  split.
  - by intros ->.
  - intros obj ->. cbn [gem_object_get bo_execbuf vmapping]. split.
    + by intros ->.
    + intros -> [->|(-> & Hcb & ->)]; cbn; [done|].
      destruct o1; [|done]. cbn.
      by destruct (Z.eqb_spec (cb_func args) 0).
Qed.


(** X10: a submission from user space ([in_kernel] false) never reads the
    callback fields: its result is the same whatever they hold and whether
    or not a callback could be allocated; and an in-kernel submission with a
    NULL callback function is the user-space submission. *)
Theorem user_submission_ignores_callback xdev fd c args o1 o2 :
  (forall args' o2',
      exec_bo_handle args' = exec_bo_handle args ->
      xocl_command_ioctl xdev fd c args' false o1 o2' =
      xocl_command_ioctl xdev fd c args false o1 o2) /\
  (cb_func args = 0 ->
   xocl_command_ioctl xdev fd c args true o1 o2 =
   xocl_command_ioctl xdev fd c args false o1 o2).
Proof.
  split.
  - intros args' o2' Hh. unfold xocl_command_ioctl. rewrite Hh. cbn [andb]. reflexivity.
  - intros Hnull. unfold xocl_command_ioctl. rewrite Hnull. reflexivity.
Qed.

(** X11: [notify_execbuf] queues the callback record of a command as it
    finds it and stores no state in it.  For a command that
    [xocl_command_ioctl] built with a callback, the record is the freshly
    zeroed one, so the error [xocl_execbuf_completion] passes to the callback
    is the same for every status notified: 0 if ERT_CMD_STATE_COMPLETED is the
    number 0, and -EFAULT otherwise. *)
Theorem in_kernel_callback_error xdev fd args obj status e e' :
  cb_func args <> 0 ->
  notify_execbuf (execbuf_xcmd xdev fd args true obj) status e = Some e' ->
  exists cb,
    n_workq e' = n_workq e ++ [cb] /\
    xocl_execbuf_completion cb =
      Some (cb_func args, cb_data args,
            if ERT_CMD_STATE_COMPLETED =? 0 then 0 else - EFAULT).
Proof.
  intros Hcb Hrun.
  assert (inkern_cb (execbuf_xcmd xdev fd args true obj) =
          Some {| func := cb_func args; data := cb_data args; cmd_state := 0 |}) as Hik.
  { unfold execbuf_xcmd. cbn [andb].
    by destruct (Z.eqb_spec (cb_func args) 0). }
  pose proof (notify_execbuf_signal _ _ _ _ Hrun) as Hsig. rewrite Hik in Hsig.
  destruct Hsig as [Hw _]. eexists. split; [exact Hw|].
  unfold xocl_execbuf_completion. cbn [func data cmd_state].
  destruct (Z.eqb_spec (cb_func args) 0) as [E|_]; [done|]. cbn [negb].
  rewrite (Z.eqb_sym 0). reflexivity.
Qed.

End Submission.

Section SubmissionWitnesses.
Import XoclKds.

Lemma command_ioctl_rejections_witness :
  @xocl_command_ioctl sample_abi sample_core (sample_dev false) 3 sample_open_client
    {| exec_bo_handle := 8; cb_func := 0; cb_data := 0 |} false true true
  = (- ENOENT, sample_dev false) /\
  (@xocl_command_ioctl sample_abi sample_core (sample_dev false) 3 sample_open_client
     sample_execbuf false false true).1 = - ENOMEM /\
  bos (@xocl_command_ioctl sample_abi sample_core (sample_dev false) 3 sample_open_client
         sample_execbuf false false true).2 !! 7%nat
  = Some {| vmapping := sample_packet 1; refcount := 2; bo_execbuf := true |}.
Proof.
  destruct (@command_ioctl_rejections sample_abi sample_core (sample_dev false) 3
              sample_open_client {| exec_bo_handle := 8; cb_func := 0; cb_data := 0 |}
              false true true 5%N eq_refl eq_refl) as [Hnoent _].
  destruct (@command_ioctl_rejections sample_abi sample_core (sample_dev false) 3
              sample_open_client sample_execbuf false false true 5%N eq_refl eq_refl)
    as [_ Hobj].
  destruct (Hobj _ eq_refl) as [_ Hnomem].
  split; [exact (Hnoent eq_refl)|].
  rewrite (Hnomem eq_refl (or_introl eq_refl)). split; reflexivity.
Defined.


Lemma in_kernel_callback_error_witness :
  exists e' cb,
    @notify_execbuf sample_abi
      (@execbuf_xcmd sample_abi sample_core (sample_dev false) 3 sample_execbuf_cb true
         {| vmapping := sample_packet 0; refcount := 1; bo_execbuf := true |}) 0
      sample_notify_env = Some e' /\
    n_workq e' = [cb] /\
    @xocl_execbuf_completion sample_abi cb = Some (4096, 1, - EFAULT).
Proof.
  eexists.
  destruct (@in_kernel_callback_error sample_abi sample_core (sample_dev false) 3
              sample_execbuf_cb
              {| vmapping := sample_packet 0; refcount := 1; bo_execbuf := true |} 0
              sample_notify_env _ ltac:(cbn; discriminate)
              ltac:(vm_compute; reflexivity)) as (cb & Hq & Hc).
  exists cb. split; [vm_compute; reflexivity|]. split; [exact Hq | exact Hc].
Defined.

Lemma user_submission_ignores_callback_witness :
  @xocl_command_ioctl sample_abi sample_core (sample_dev false) 3 sample_open_client
    sample_execbuf_cb false true false
  = @xocl_command_ioctl sample_abi sample_core (sample_dev false) 3 sample_open_client
      sample_execbuf false true true /\
  @xocl_command_ioctl sample_abi sample_core (sample_dev false) 3 sample_open_client
    sample_execbuf true true false
  = @xocl_command_ioctl sample_abi sample_core (sample_dev false) 3 sample_open_client
      sample_execbuf false true false.
Proof.
  split.
  - exact (proj1 (@user_submission_ignores_callback sample_abi sample_core
                    (sample_dev false) 3 sample_open_client sample_execbuf true true)
             sample_execbuf_cb false eq_refl).
  - exact (proj2 (@user_submission_ignores_callback sample_abi sample_core
                    (sample_dev false) 3 sample_open_client sample_execbuf true false)
             eq_refl).
Defined.

End SubmissionWitnesses.

(** ** xocl_kds.c: completions and polls *)

Section CompletionsAndPolls.
Import XoclKds.

Lemma xocl_poll_client_count c :
  0 <= event c <= INT_MAX ->
  xocl_poll_client c =
  if event c =? 0 then (0, with_event c 0 (waitq c))
  else (POLLIN, with_event c (event c - 1) (waitq c)).
Proof.
  intros Hev. unfold xocl_poll_client.
  rewrite atomic_dec_if_positive_spec by done.
  destruct (Z.eqb_spec (event c) 0) as [E|E]; [reflexivity|].
  destruct (Z.eqb_spec (event c - 1) (-1)); [lia|reflexivity].
Qed.

Lemma poll_times_empty m : forall c,
  event c = 0 -> poll_times m c = (replicate m 0, with_event c 0 (waitq c)).
Proof.
  induction m as [|m IH]; intros c Hz; cbn.
  - f_equal. destruct c; cbn in *. by subst.
  - rewrite xocl_poll_client_count by (rewrite Hz; unfold INT_MAX; lia).
    rewrite Hz. cbn. rewrite IH by done. reflexivity.
Qed.

(** X12: the event counter is a counting semaphore for polls: on a client
    with [k] events pending, the next [k] polls answer POLLIN and every poll
    after them answers 0, the counter ending at 0. *)
Theorem poll_times_counts k : forall m c,
  event c = Z.of_nat k -> event c <= INT_MAX ->
  poll_times (k + m) c =
  (replicate k POLLIN ++ replicate m 0, with_event c 0 (waitq c)).
Proof.
  induction k as [|k IH]; intros m c Hk Hmax.
  - cbn [Nat.add replicate app]. by apply poll_times_empty.
  - cbn [Nat.add poll_times].
    rewrite xocl_poll_client_count by lia.
    destruct (Z.eqb_spec (event c) 0) as [E|_]; [lia|].
    rewrite (IH m (with_event c (event c - 1) (waitq c))) by (cbn; lia).
    reflexivity.
Qed.

Lemma poll_times_counts_witness :
  poll_times 4 (with_event (new_client 100) 2 1) =
  ([POLLIN; POLLIN; 0; 0], with_event (new_client 100) 0 1).
Proof.
  apply (poll_times_counts 2 2 (with_event (new_client 100) 2 1));
    [reflexivity | cbn; unfold INT_MAX; lia].
Defined.

(** X14: the poll only tells a zero counter apart: on a negative counter
    above -2^31 it answers POLLIN and leaves the counter as it is, and on
    -2^31, which is what [atomic_inc] makes of INT_MAX, it answers POLLIN and
    leaves INT_MAX. *)
Theorem poll_negative_counter c :
  (- 2 ^ 31 < event c < 0 -> xocl_poll_client c = (POLLIN, c)) /\
  (event c = - 2 ^ 31 ->
   xocl_poll_client c = (POLLIN, with_event c INT_MAX (waitq c))) /\
  atomic_inc INT_MAX = - 2 ^ 31.
Proof.
  unfold xocl_poll_client, atomic_dec_if_positive. repeat split.
  - intros Hev. rewrite s32_exact by (unfold INT_MAX; lia).
    destruct (Z.ltb_spec (event c - 1) 0); [|lia].
    destruct (Z.eqb_spec (event c - 1) (-1)); [lia|].
    destruct c; reflexivity.
  - intros ->. reflexivity.
Qed.

Lemma poll_negative_counter_witness :
  xocl_poll_client (with_event (new_client 100) (-5) 0) =
  (POLLIN, with_event (new_client 100) (-5) 0).
Proof.
  apply (proj1 (poll_negative_counter (with_event (new_client 100) (-5) 0))).
  cbn. lia.
Defined.

Context `{!KdsAbi}.

(** X13: a completion without in-kernel callback followed by a poll of the
    owning client, for every value of the event counter (an int).  From a
    counter that is not negative the poll answers POLLIN and puts the counter
    back to what it was before the completion, also from INT_MAX, where the
    completion wraps to -2^31; from -1 the completion leaves 0 and the poll
    answers 0; from a lower counter the poll answers POLLIN and leaves the
    counter one up.  In every case the client is left with one more wake-up
    and is otherwise as before. *)
Theorem notify_then_poll xcmd status e e' c :
  inkern_cb xcmd = None ->
  n_clients e !! client xcmd = Some c ->
  - 2 ^ 31 <= event c <= INT_MAX ->
  notify_execbuf xcmd status e = Some e' ->
  exists c',
    n_clients e' !! client xcmd = Some c' /\
    event c' = s32 (event c + 1) /\
    let r := xocl_poll_client c' in
    (0 <= event c -> r.1 = POLLIN /\ event r.2 = event c) /\
    (event c = -1 -> r.1 = 0 /\ event r.2 = 0) /\
    (event c < -1 -> r.1 = POLLIN /\ event r.2 = event c + 1) /\
    waitq r.2 = S (waitq c) /\
    pid r.2 = pid c /\ num_ctx r.2 = num_ctx c /\
    xclbin_id r.2 = xclbin_id c /\ ctx r.2 = ctx c.
Proof.
  intros Hik Hc Hev Hrun.
  pose proof Hrun as (b1 & g & _ & _ & _ & Hcl)%notify_execbuf_inv.
  rewrite Hik in Hcl. destruct Hcl as (_ & c0 & Hc0 & Hcl).
  rewrite Hc in Hc0. injection Hc0 as <-.
  rewrite Hcl, lookup_insert_eq. eexists. split; [reflexivity|].
  split; [reflexivity|]. cbv zeta.
  unfold xocl_poll_client, atomic_dec_if_positive. cbn [event waitq with_event].
  destruct (Z.eq_dec (event c) INT_MAX) as [E|E].
  - rewrite E. change (atomic_inc INT_MAX) with (- 2 ^ 31).
    change (s32 (- 2 ^ 31 - 1)) with INT_MAX.
    change (INT_MAX <? 0) with false. cbn iota.
    change (INT_MAX =? -1) with false. cbn.
    repeat split; intros; unfold INT_MAX in *; lia.
  - rewrite atomic_inc_exact by lia.
    replace (event c + 1 - 1) with (event c) by lia.
    rewrite s32_exact by lia.
    destruct (Z.ltb_spec (event c) 0) as [Hneg|Hpos];
      destruct (Z.eqb_spec (event c) (-1)) as [Hm|Hm]; cbn;
      repeat split; intros; unfold POLLIN; lia.
Qed.

(** X15: what [notify_execbuf] never touches: every buffer object other than
    the command's buffer and its gem object, every client other than the
    owner, and of the owner its pid, contexts and recorded xclbin; the buffer
    objects it leaves keep count, opcode and execbuf mark.  It creates no
    buffer object, and the only one it releases is the command's gem object,
    exactly when the reference it drops was the last one.  No client appears
    or disappears. *)
Theorem notify_execbuf_frame xcmd status e e' :
  notify_execbuf xcmd status e = Some e' ->
  (forall h, execbuf xcmd <> Some h -> gem_obj xcmd <> Some h ->
             n_bos e' !! h = n_bos e !! h) /\
  (forall h bo', n_bos e' !! h = Some bo' ->
                 exists bo, n_bos e !! h = Some bo /\
                            count (vmapping bo') = count (vmapping bo) /\
                            opcode (vmapping bo') = opcode (vmapping bo) /\
                            bo_execbuf bo' = bo_execbuf bo) /\
  (forall h bo, n_bos e !! h = Some bo ->
                n_bos e' !! h = None <->
                gem_obj xcmd = Some h /\ refcount bo = 1%positive) /\
  (forall fd, fd <> client xcmd -> n_clients e' !! fd = n_clients e !! fd) /\
  (forall c', n_clients e' !! client xcmd = Some c' ->
              exists c, n_clients e !! client xcmd = Some c /\
                        pid c' = pid c /\ num_ctx c' = num_ctx c /\
                        xclbin_id c' = xclbin_id c /\ ctx c' = ctx c) /\
  dom (n_clients e') = dom (n_clients e).
Proof.
  intros Hrun.
  pose proof Hrun as (b1 & g & Hw & Hg & Hput & Hcl)%notify_execbuf_inv.
  assert (n_clients e' = n_clients e \/
          exists c, n_clients e !! client xcmd = Some c /\
                    n_clients e' =
                      <[client xcmd := with_event c (atomic_inc (event c)) (S (waitq c))]>
                        (n_clients e)) as Hcl'.
  { destruct (inkern_cb xcmd); [left; by destruct Hcl|].
    destruct Hcl as (_ & c & Hc & ->). eauto. }
  clear Hcl. split; [|split; [|split; [|split; [|split]]]].
  - intros h Ha Hgh.
    rewrite (gem_object_put_other _ _ _ h Hput) by congruence.
    pose proof (notify_written_lookup _ _ _ _ h Hw) as Hl.
    destruct (n_bos e !! h) as [bo|]; [|done].
    destruct Hl as (bo1 & -> & _ & _ & _ & _ & _ & Hsame & _). by rewrite Hsame.
  - intros h bo' Hl'.
    destruct (gem_object_put_lookup _ _ _ _ _ Hput Hl') as (bo1 & Hl1 & Hv & Hx & _).
    pose proof (notify_written_lookup _ _ _ _ h Hw) as Hl.
    destruct (n_bos e !! h) as [bo|]; [|congruence].
    destruct Hl as (bo1' & Hl1' & _ & Hx' & Hcnt & Hop & _).
    rewrite Hl1 in Hl1'. injection Hl1' as <-.
    exists bo. rewrite Hv, Hx. by repeat split.
  - intros h bo Hbo.
    pose proof (notify_written_lookup _ _ _ _ h Hw) as Hl. rewrite Hbo in Hl.
    destruct Hl as (bo1 & Hl1 & Hr & _). split.
    + intros Hnone. destruct (decide (h = g)) as [->|Hne].
      * split; [done|].
        destruct (decide (refcount bo1 = 1%positive)) as [E|E]; [congruence|].
        by rewrite (gem_object_put_more _ _ _ _ Hl1 Hput E) in Hnone.
      * rewrite (gem_object_put_other _ _ _ h Hput Hne) in Hnone. congruence.
    + intros [Hgh Hone]. rewrite Hg in Hgh. injection Hgh as ->.
      apply (gem_object_put_last _ _ _ _ Hl1 Hput). congruence.
  - intros fd Hne. destruct Hcl' as [->|(c & _ & ->)]; [done|].
    by rewrite lookup_insert_ne.
  - intros c'. destruct Hcl' as [->|(c & Hc & ->)]; [eauto 10|].
    rewrite lookup_insert_eq. intros [= <-]. eauto 10.
  - destruct Hcl' as [->|(c & Hc & ->)]; [done|].
    by apply dom_insert_lookup_L.
Qed.

End CompletionsAndPolls.

Section CompletionWitnesses.
Import XoclKds.

Lemma notify_then_poll_witness :
  (exists e' c',
      @notify_execbuf sample_abi (sample_xcmd None) 0 sample_submitted_env = Some e' /\
      n_clients e' !! 3%nat = Some c' /\ event c' = 1 /\
      (xocl_poll_client c').1 = POLLIN /\ event (xocl_poll_client c').2 = 0 /\
      waitq (xocl_poll_client c').2 = 1%nat) /\
  (exists e' c',
      @notify_execbuf sample_abi (sample_xcmd None) 0 (sample_env_with_event (-1))
        = Some e' /\
      n_clients e' !! 3%nat = Some c' /\ event c' = 0 /\
      (xocl_poll_client c').1 = 0 /\ event (xocl_poll_client c').2 = 0 /\
      waitq (xocl_poll_client c').2 = 1%nat).
Proof.
  split.
  - assert (exists e', @notify_execbuf sample_abi (sample_xcmd None) 0 sample_submitted_env
                       = Some e') as [e' Hrun] by (eexists; vm_compute; reflexivity).
    destruct (@notify_then_poll sample_abi (sample_xcmd None) 0 sample_submitted_env e'
                sample_open_client eq_refl eq_refl
                ltac:(vm_compute; split; discriminate) Hrun)
      as (c' & Hc' & Hev & Hpos & _ & _ & Hwq & _).
    destruct (Hpos ltac:(vm_compute; discriminate)) as [Hin Hback].
    exists e', c'. by repeat split.
  - assert (exists e', @notify_execbuf sample_abi (sample_xcmd None) 0
                         (sample_env_with_event (-1)) = Some e') as [e' Hrun]
      by (eexists; vm_compute; reflexivity).
    destruct (@notify_then_poll sample_abi (sample_xcmd None) 0
                (sample_env_with_event (-1)) e'
                (with_event sample_open_client (-1) 0) eq_refl eq_refl
                ltac:(vm_compute; split; discriminate) Hrun)
      as (c' & Hc' & Hev & _ & Hone & _ & Hwq & _).
    destruct (Hone eq_refl) as [Hzero Hstay].
    exists e', c'. by repeat split.
Defined.

Lemma notify_execbuf_frame_witness :
  (exists e',
      @notify_execbuf sample_abi (sample_xcmd None) 0 sample_crowded_env = Some e' /\
      n_bos e' !! 9%nat = Some {| vmapping := sample_packet 3; refcount := 2;
                                  bo_execbuf := false |} /\
      n_bos e' !! 7%nat <> None /\
      n_clients e' !! 4%nat = Some (new_client 200)) /\
  (exists e',
      @notify_execbuf sample_abi (sample_xcmd None) 0 sample_notify_env = Some e' /\
      n_bos e' !! 7%nat = None).
Proof.
  split.
  - assert (exists e', @notify_execbuf sample_abi (sample_xcmd None) 0 sample_crowded_env
                       = Some e') as [e' Hrun] by (eexists; vm_compute; reflexivity).
    destruct (@notify_execbuf_frame sample_abi _ _ _ _ Hrun) as (Hb & _ & Hgone & Hc & _).
    exists e'. split; [exact Hrun|]. split; [|split].
    + rewrite Hb; [reflexivity | discriminate | discriminate].
    + intros Hnone.
      destruct (proj1 (Hgone 7%nat sample_submitted_bo eq_refl) Hnone) as [_ Habs].
      discriminate Habs.
    + rewrite Hc; [reflexivity | discriminate].
  - assert (exists e', @notify_execbuf sample_abi (sample_xcmd None) 0 sample_notify_env
                       = Some e') as [e' Hrun] by (eexists; vm_compute; reflexivity).
    destruct (@notify_execbuf_frame sample_abi _ _ _ _ Hrun) as (_ & _ & Hgone & _).
    exists e'. split; [exact Hrun|].
    apply (Hgone 7%nat {| vmapping := sample_packet 0; refcount := 1; bo_execbuf := true |}
             eq_refl).
    split; reflexivity.
Defined.

End CompletionWitnesses.

(** ** xocl_kds.c: the driver calls together *)

Section DriverCalls.
Import XoclKds.
Context `{!KdsAbi, !KdsCore}.

(** One driver call creates no buffer object and registers no client; the
    only call that releases a buffer object is a completion, and the object
    is the gem object of its command. *)
Lemma kds_step_structure s e s' :
  kds_step s e = Some s' ->
  dom (bos (dev s')) ⊆ dom (bos (dev s)) /\
  dom (clients s') ⊆ dom (clients s) /\
  (forall h, h ∈ dom (bos (dev s)) -> h ∉ dom (bos (dev s')) ->
             exists xcmd status, e = NotifyHost xcmd status /\ gem_obj xcmd = Some h).
Proof.
  intros Hstep.
  destruct e as [fd args ok|fd args|fd args ik o1 o2|xcmd status|fd|fd]; cbn in Hstep.
  - destruct (clients s !! fd) as [c|] eqn:Hc; [cbn in Hstep|done].
    pose proof (add_context_bos (dev s) c args ok) as Hb.
    destruct (xocl_add_context _ _ _ _) as [[ret xdev] c1].
    injection Hstep as <-. cbn in *. rewrite Hb.
    split; [done|]. split; [by rewrite dom_insert_lookup_L|done].
  - destruct (clients s !! fd) as [c|] eqn:Hc; [cbn in Hstep|done].
    pose proof (del_context_bos (dev s) c args) as Hb.
    destruct (xocl_del_context _ _ _) as [[ret xdev] c1].
    injection Hstep as <-. cbn in *. rewrite Hb.
    split; [done|]. split; [by rewrite dom_insert_lookup_L|done].
  - destruct (clients s !! fd) as [c|] eqn:Hc; [cbn in Hstep|done].
    pose proof (command_ioctl_bos (dev s) fd c args ik o1 o2) as Hb.
    destruct (xocl_command_ioctl _ _ _ _ _ _ _) as [ret xdev].
    injection Hstep as <-. cbn in *.
    assert (dom (bos xdev) = dom (bos (dev s))) as ->.
    { destruct Hb as [->|(obj & Hobj & [->| ->])]; [done| |];
        by apply dom_insert_lookup_L. }
    done.
  - destruct (notify_execbuf _ _ _) as [e'|] eqn:Hn; [cbn in Hstep|done].
    injection Hstep as <-. cbn.
    pose proof Hn as (b1 & g & Hw & Hg & Hput & Hcl)%notify_execbuf_inv. cbn in *.
    pose proof (notify_written_dom _ _ _ _ Hw) as Hd1.
    pose proof (gem_object_put_dom _ _ _ Hput) as Hd2.
    split; [by rewrite <- Hd1|]. split.
    + destruct (inkern_cb xcmd); [by destruct Hcl as [-> _]|].
      destruct Hcl as (_ & c & Hc & ->). by rewrite dom_insert_lookup_L.
    + intros h Hin Hout. exists xcmd, status. split; [done|].
      destruct (decide (h = g)) as [->|Hne]; [done|]. exfalso. apply Hout.
      rewrite <- Hd1 in Hin. apply elem_of_dom in Hin. apply elem_of_dom.
      by rewrite (gem_object_put_other _ _ _ h Hput Hne).
  - destruct (clients s !! fd) as [c|] eqn:Hc; [cbn in Hstep|done].
    injection Hstep as <-. cbn.
    split; [done|]. split; [by rewrite dom_insert_lookup_L|done].
  - destruct (clients s !! fd) as [c|] eqn:Hc; [cbn in Hstep|done].
    injection Hstep as <-. cbn. rewrite destroy_client_bos.
    split; [done|]. split; [apply subseteq_dom, delete_subseteq|done].
Qed.

(** X16: no sequence of driver calls creates a buffer object or registers a
    client (clients only go away, by [xocl_destroy_client]), and a buffer
    object that is gone after the calls was the gem object of a completion
    among them. *)
Theorem kds_run_structure es : forall s s',
  kds_run s es = Some s' ->
  dom (bos (dev s')) ⊆ dom (bos (dev s)) /\
  dom (clients s') ⊆ dom (clients s) /\
  (forall h, h ∈ dom (bos (dev s)) -> h ∉ dom (bos (dev s')) ->
             exists xcmd status, NotifyHost xcmd status ∈ es /\ gem_obj xcmd = Some h).
Proof.
  induction es as [|e es IH]; intros s s' Hrun; cbn in Hrun.
  - injection Hrun as <-. by repeat split.
  - destruct (kds_step s e) as [s1|] eqn:Hstep; [cbn in Hrun|done].
    destruct (kds_step_structure _ _ _ Hstep) as (Hb1 & Hc1 & Hg1).
    destruct (IH _ _ Hrun) as (Hb2 & Hc2 & Hg2).
    split; [by etrans|]. split; [by etrans|].
    intros h Hin Hout.
    destruct (decide (h ∈ dom (bos (dev s1)))) as [Hin1|Hout1].
    + destruct (Hg2 h Hin1 Hout) as (xcmd & status & Hel & Hg).
      exists xcmd, status. split; [apply elem_of_cons; by right|done].
    + destruct (Hg1 h Hin Hout1) as (xcmd & status & -> & Hg).
      exists xcmd, status. split; [apply elem_of_cons; by left|done].
Qed.

(** X17: reference counts move one at a time and only in two places: a
    driver call that changes the reference count of a buffer object is either
    the command ioctl on that buffer, which adds one, or a completion of a
    command whose gem object it is, which takes one off. *)
Theorem refcount_changes s e s' h bo bo' :
  kds_step s e = Some s' ->
  bos (dev s) !! h = Some bo -> bos (dev s') !! h = Some bo' ->
  refcount bo' <> refcount bo ->
  (exists fd args ik o1 o2,
      e = Execbuf fd args ik o1 o2 /\ exec_bo_handle args = h /\
      Z.pos (refcount bo') = Z.pos (refcount bo) + 1) \/
  (exists xcmd status,
      e = NotifyHost xcmd status /\ gem_obj xcmd = Some h /\
      Z.pos (refcount bo') = Z.pos (refcount bo) - 1).
Proof.
  intros Hstep Hbo Hbo' Hne.
  destruct e as [fd args ok|fd args|fd args ik o1 o2|xcmd status|fd|fd]; cbn in Hstep.
  - destruct (clients s !! fd) as [c|]; [cbn in Hstep|done].
    pose proof (add_context_bos (dev s) c args ok) as Hb.
    destruct (xocl_add_context _ _ _ _) as [[ret xdev] c1].
    injection Hstep as <-. cbn in *. congruence.
  - destruct (clients s !! fd) as [c|]; [cbn in Hstep|done].
    pose proof (del_context_bos (dev s) c args) as Hb.
    destruct (xocl_del_context _ _ _) as [[ret xdev] c1].
    injection Hstep as <-. cbn in *. congruence.
  - destruct (clients s !! fd) as [c|]; [cbn in Hstep|done].
    pose proof (command_ioctl_bos (dev s) fd c args ik o1 o2) as Hb.
    destruct (xocl_command_ioctl _ _ _ _ _ _ _) as [ret xdev].
    injection Hstep as <-. cbn in *.
    destruct Hb as [Hb|(obj & Hobj & Hb)]; [congruence|].
    destruct (decide (exec_bo_handle args = h)) as [Heq|Hneq].
    + left. exists fd, args, ik, o1, o2. split; [done|]. split; [done|].
      rewrite Heq in *. assert (obj = bo) as -> by congruence.
      destruct Hb as [Hb|Hb]; rewrite Hb, lookup_insert_eq in Hbo';
        injection Hbo' as <-; cbn; lia.
    + destruct Hb as [Hb|Hb]; rewrite Hb, lookup_insert_ne in Hbo' by done; congruence.
  - destruct (notify_execbuf _ _ _) as [e'|] eqn:Hn; [cbn in Hstep|done].
    injection Hstep as <-. cbn in Hbo'.
    pose proof Hn as (b1 & g & Hw & Hg & Hput & _)%notify_execbuf_inv. cbn in *.
    pose proof (notify_written_lookup _ _ _ _ h Hw) as Hl. rewrite Hbo in Hl.
    destruct Hl as (bo1 & Hl1 & Hr & _).
    destruct (decide (h = g)) as [->|Hgh].
    + right. exists xcmd, status. split; [done|]. split; [done|].
      destruct (gem_object_put_same _ _ _ _ Hput Hbo') as (bo2 & Hl2 & _ & _ & Hdec).
      rewrite Hl1 in Hl2. injection Hl2 as <-. lia.
    + rewrite (gem_object_put_other _ _ _ h Hput Hgh), Hl1 in Hbo'.
      injection Hbo' as <-. congruence.
  - destruct (clients s !! fd) as [c|]; [cbn in Hstep|done].
    injection Hstep as <-. cbn in *. congruence.
  - destruct (clients s !! fd) as [c|]; [cbn in Hstep|done].
    injection Hstep as <-. cbn in Hbo'. rewrite destroy_client_bos in Hbo'.
    congruence.
Qed.

End DriverCalls.

Section DriverCallsWitnesses.
Import XoclKds.

Lemma kds_run_structure_witness :
  (exists s',
      @kds_run sample_abi sample_core (sample_system false)
        (sample_calls ++ [DestroyClient 3]) = Some s' /\
      dom (bos (dev s')) ⊆ {[ 7%nat ]} /\
      dom (clients s') ⊆ {[ 3%nat ]}) /\
  (exists s' xcmd status,
      @kds_run sample_abi sample_core (sample_open_system false)
        [NotifyHost (sample_xcmd None) 0] = Some s' /\
      bos (dev s') !! 7%nat = None /\
      NotifyHost xcmd status ∈ [NotifyHost (sample_xcmd None) 0] /\
      gem_obj xcmd = Some 7%nat).
Proof.
  split.
  - assert (exists s', @kds_run sample_abi sample_core (sample_system false)
                         (sample_calls ++ [DestroyClient 3]) = Some s') as [s' Hrun]
      by (eexists; vm_compute; reflexivity).
    destruct (@kds_run_structure sample_abi sample_core _ _ _ Hrun) as (Hb & Hc & _).
    exists s'. split; [exact Hrun|]. split.
    + etrans; [exact Hb|]. cbn. by rewrite dom_singleton_L.
    + etrans; [exact Hc|]. cbn. by rewrite dom_singleton_L.
  - assert (exists s', @kds_run sample_abi sample_core (sample_open_system false)
                         [NotifyHost (sample_xcmd None) 0] = Some s' /\
                       bos (dev s') !! 7%nat = None) as (s' & Hrun & Hnone)
      by (eexists; split; vm_compute; reflexivity).
    destruct (@kds_run_structure sample_abi sample_core _ _ _ Hrun) as (_ & _ & Hgone).
    destruct (Hgone 7%nat) as (xcmd & status & Hel & Hg).
    + apply elem_of_dom. cbn. rewrite lookup_singleton_eq. by eexists.
    + rewrite elem_of_dom, Hnone. by intros [? ?].
    + exists s', xcmd, status. by repeat split.
Defined.

Lemma refcount_changes_witness :
  exists s',
    @kds_step sample_abi sample_core (sample_open_system false)
      (Execbuf 3 sample_execbuf false true true) = Some s' /\
    refcount <$> bos (dev s') !! 7%nat = Some 2%positive.
Proof.
  eexists. split; [vm_compute; reflexivity|].
  destruct (@refcount_changes sample_abi sample_core (sample_open_system false)
              (Execbuf 3 sample_execbuf false true true) _ 7%nat
              {| vmapping := sample_packet 0; refcount := 1; bo_execbuf := true |}
              {| vmapping := sample_packet 1; refcount := 2; bo_execbuf := true |}
              ltac:(vm_compute; reflexivity) ltac:(reflexivity)
              ltac:(vm_compute; reflexivity) ltac:(cbn; discriminate))
    as [_|(xcmd & status & Habs & _)]; [|discriminate Habs].
  vm_compute. reflexivity.
Defined.

End DriverCallsWitnesses.

(** ** xocl_kds.c: dispatch, hand-over and client creation *)

Section Dispatch.
Import XoclKds.
Context `{!KdsAbi, !KdsCore, !KdsIoctlAbi, !KdsIoctlDistinct}.

(** X18: [xocl_client_ioctl] answers -EINVAL and changes nothing for a
    command that is none of its three, and so does [xocl_context_ioctl] for
    an operation that is neither alloc nor free; the context command runs
    [xocl_add_context] or [xocl_del_context], and the two command ioctls run
    [xocl_command_ioctl], outside and inside the kernel, and give the client
    back as it was. *)
Theorem client_ioctl_dispatch xdev fd c op data ok o1 o2 :
  let r := xocl_client_ioctl xdev fd c op data ok o1 o2 in
  (op ∉ [DRM_XOCL_CTX; DRM_XOCL_EXECBUF; DRM_XOCL_EXECBUF_CB] ->
   r = (- EINVAL, xdev, c)) /\
  (op = DRM_XOCL_CTX ->
   (data_op data = XOCL_CTX_OP_ALLOC_CTX ->
    r = xocl_add_context xdev c (data_ctx data) ok) /\
   (data_op data = XOCL_CTX_OP_FREE_CTX ->
    r = xocl_del_context xdev c (data_ctx data)) /\
   (data_op data ∉ [XOCL_CTX_OP_ALLOC_CTX; XOCL_CTX_OP_FREE_CTX] ->
    r = (- EINVAL, xdev, c))) /\
  (op = DRM_XOCL_EXECBUF ->
   r = ((xocl_command_ioctl xdev fd c (data_exec data) false o1 o2).1,
        (xocl_command_ioctl xdev fd c (data_exec data) false o1 o2).2, c)) /\
  (op = DRM_XOCL_EXECBUF_CB ->
   r = ((xocl_command_ioctl xdev fd c (data_exec data) true o1 o2).1,
        (xocl_command_ioctl xdev fd c (data_exec data) true o1 o2).2, c)).
Proof.
  intros r. subst r.
  pose proof ctx_op_distinct as Hctx. pose proof drm_op_distinct as Hdrm.
  repeat match goal with
         | H : NoDup (_ :: _) |- _ => apply NoDup_cons in H as [? ?]
         | H : _ ∉ _ :: _ |- _ => apply not_elem_of_cons in H as [? ?]
         end.
  unfold xocl_client_ioctl, xocl_context_ioctl.
  split; [|split; [|split]].
  - intros Hop. rewrite !not_elem_of_cons in Hop. destruct Hop as (? & ? & ? & _).
    repeat (match goal with
            | |- context [op =? ?b] => destruct (Z.eqb_spec op b) as [?|_]; [done|]
            end).
    reflexivity.
  - intros ->. rewrite Z.eqb_refl. split; [|split].
    + intros ->. by rewrite Z.eqb_refl.
    + intros ->. destruct (Z.eqb_spec XOCL_CTX_OP_FREE_CTX XOCL_CTX_OP_ALLOC_CTX);
        [congruence|]. by rewrite Z.eqb_refl.
    + intros Hd. rewrite !not_elem_of_cons in Hd. destruct Hd as (? & ? & _).
      destruct (Z.eqb_spec (data_op data) XOCL_CTX_OP_ALLOC_CTX); [done|].
      by destruct (Z.eqb_spec (data_op data) XOCL_CTX_OP_FREE_CTX).
  - intros ->. destruct (Z.eqb_spec DRM_XOCL_EXECBUF DRM_XOCL_CTX); [congruence|].
    rewrite Z.eqb_refl. by destruct (xocl_command_ioctl _ _ _ _ _ _ _).
  - intros ->. destruct (Z.eqb_spec DRM_XOCL_EXECBUF_CB DRM_XOCL_CTX); [congruence|].
    destruct (Z.eqb_spec DRM_XOCL_EXECBUF_CB DRM_XOCL_EXECBUF); [congruence|].
    rewrite Z.eqb_refl. by destruct (xocl_command_ioctl _ _ _ _ _ _ _).
Qed.

End Dispatch.

Section HandOver.
Import XoclKds.
Context `{!KdsAbi, !KdsCore}.

(** X20: what a submission that passes every check hands to
    [kds_add_command]: a command with [notify_execbuf] as its notify
    callback, the submitted buffer as gem object, the type KDS_CU when ERT is
    disabled and KDS_ERT otherwise, and a zeroed in-kernel callback record
    with the caller's function and data when the call came from the kernel
    with a callback function: the fields the ioctl assigns after the packet
    conversion.  The value the ioctl returns is the one [kds_add_command]
    returns for that command, the scheduler is the one it leaves, and the
    bitstream lock is not touched. *)
Theorem submission_hands_over xdev fd c args ik o2 u obj :
  xclbin_id c = Some u -> bad_state (kds xdev) = false ->
  bos xdev !! exec_bo_handle args = Some obj -> bo_execbuf obj = true ->
  (ik && negb (cb_func args =? 0) = true -> o2 = true) ->
  let xcmd := execbuf_xcmd xdev fd args ik obj in
  let r := xocl_command_ioctl xdev fd c args ik true o2 in
  r.1 = (kds_add_command (kds xdev) xcmd).1 /\
  kds r.2 = (kds_add_command (kds xdev) xcmd).2 /\
  icap r.2 = icap xdev /\
  cb_notify_host xcmd = Some notify_execbuf_fn /\
  gem_obj xcmd = Some (exec_bo_handle args) /\
  type xcmd = Some (if ert_disable (kds xdev) then KDS_CU else KDS_ERT) /\
  (ik = true -> cb_func args <> 0 ->
   inkern_cb xcmd = Some {| func := cb_func args; data := cb_data args; cmd_state := 0 |}).
Proof.
  intros Hid Hbad Hobj Hex Hcb xcmd r. subst r.
  rewrite (command_ioctl_submits xdev fd c args ik o2 u obj Hid Hbad Hobj Hex Hcb).
  cbn [fst snd kds icap bos with_kds with_bos].
  split; [done|]. split; [done|]. split; [done|].
  subst xcmd. unfold execbuf_xcmd.
  destruct (Z.eqb_spec (cb_func args) 0) as [E|E]; destruct ik; cbn;
    repeat split; try done.
Qed.

End HandOver.

Section Creation.
Import XoclKds.
Context `{!KdsAbi, !KdsCore, !KdsInit}.

(** X19: [xocl_create_client] stores a client exactly when it returns 0: a
    failed allocation is -ENOMEM with the device untouched, a failed
    [kds_init_client] is its own code.  If [kds_init_client] leaves the
    zeroed context count, xclbin pointer and event counter alone, a client
    just created has no lock and no context, so that a close and a submission
    are both answered -EINVAL with nothing changed, and a poll is answered 0. *)
Theorem create_client_outcomes xdev :
  xocl_create_client xdev false = (- ENOMEM, xdev, None) /\
  (forall ok, (xocl_create_client xdev ok).1.1 = 0 <->
              is_Some (xocl_create_client xdev ok).2) /\
  ((forall k c0,
       num_ctx (kds_init_client k c0).2 = num_ctx c0 /\
       xclbin_id (kds_init_client k c0).2 = xclbin_id c0 /\
       event (kds_init_client k c0).2 = event c0) ->
   forall ok c,
     (xocl_create_client xdev ok).2 = Some c ->
     lock_iff_ctx c /\
     (forall xd args, xocl_del_context xd c args = (- EINVAL, xd, c)) /\
     (forall xd fd args ik o1 o2,
         xocl_command_ioctl xd fd c args ik o1 o2 = (- EINVAL, xd)) /\
     xocl_poll_client c = (0, c)).
Proof.
  unfold xocl_create_client. split; [reflexivity|]. split.
  - intros [|]; cbn.
    + destruct (kds_init_client _ _) as [[ret k] c].
      destruct (Z.eqb_spec ret 0) as [->|Hne]; cbn.
      * split; [by eexists|done].
      * split; [done|]. intros [? ?]; done.
    + split; [unfold ENOMEM; lia|]. intros [? ?]; done.
  - intros Hinit [|] c; cbn; [|done].
    destruct (Hinit (kds xdev) (new_client 0)) as (Hn & Hx & He).
    destruct (kds_init_client _ _) as [[ret k] c1]. cbn in Hn, Hx, He.
    destruct (ret =? 0); cbn; [|done]. intros [= ->].
    split; [|split; [|split]].
    + unfold lock_iff_ctx. rewrite Hn, Hx. split; [done|lia].
    + intros xd args. unfold xocl_del_context. by rewrite Hx.
    + intros xd fd args ik o1 o2. unfold xocl_command_ioctl. by rewrite Hx.
    + unfold xocl_poll_client. rewrite He. cbn.
      destruct c; cbn in *. by subst.
Qed.

End Creation.

Section DispatchWitnesses.
Import XoclKds.

Lemma sample_ioctl_distinct : @KdsIoctlDistinct sample_ioctl_abi.
Proof.
  split; cbn; [discriminate|].
  repeat (apply NoDup_cons; split;
          [rewrite ?elem_of_cons, elem_of_nil; intuition discriminate|]).
  apply NoDup_nil_2.
Qed.

Lemma client_ioctl_dispatch_witness :
  @xocl_client_ioctl sample_abi sample_core sample_ioctl_abi (sample_dev false) 3
    sample_open_client 99 (sample_data 0) true true true
  = (- EINVAL, sample_dev false, sample_open_client).
Proof.
  apply (proj1 (@client_ioctl_dispatch sample_abi sample_core sample_ioctl_abi
                  sample_ioctl_distinct (sample_dev false) 3 sample_open_client 99
                  (sample_data 0) true true true)).
  intros Hin. cbn in Hin. rewrite !elem_of_cons, elem_of_nil in Hin.
  intuition discriminate.
Defined.

Lemma submission_hands_over_witness :
  (@xocl_command_ioctl sample_abi sample_core (sample_dev false) 3 sample_open_client
     sample_execbuf_cb true true true).1 = 0 /\
  inkern_cb (@execbuf_xcmd sample_abi sample_core (sample_dev false) 3 sample_execbuf_cb
               true {| vmapping := sample_packet 0; refcount := 1; bo_execbuf := true |})
  = Some sample_cb.
Proof.
  destruct (@submission_hands_over sample_abi sample_core (sample_dev false) 3
              sample_open_client sample_execbuf_cb true true 5%N
              {| vmapping := sample_packet 0; refcount := 1; bo_execbuf := true |}
              eq_refl eq_refl eq_refl eq_refl (fun _ => eq_refl))
    as (Hret & _ & _ & _ & _ & _ & Hcb).
  split; [rewrite Hret; reflexivity|].
  apply Hcb; [reflexivity | cbn; discriminate].
Defined.

Lemma create_client_outcomes_witness :
  exists c,
    (@xocl_create_client sample_init (sample_dev false) true).2 = Some c /\
    pid c = 100 /\
    @xocl_del_context sample_abi sample_core (sample_dev false) c (sample_ctx 5%N 0 0)
    = (- EINVAL, sample_dev false, c).
Proof.
  eexists. split; [reflexivity|]. split; [reflexivity|].
  destruct (@create_client_outcomes sample_abi sample_core sample_init (sample_dev false))
    as (_ & _ & Hnew).
  destruct (Hnew (fun k c0 => conj eq_refl (conj eq_refl eq_refl)) true _ eq_refl)
    as (_ & Hdel & _).
  apply Hdel.
Defined.

End DispatchWitnesses.

(** ** xcl2.cpp: the emulation flags and the device name test *)

Section Xcl2Properties.
Import Xcl2.

Lemma prefix_append (n h : string) :
  String.prefix n h = true <-> exists post, h = String.append n post.
Proof.
  revert h. induction n as [|a n IH]; intros h.
  - split; [intros _; exists h; reflexivity|by destruct h].
  - destruct h as [|b h]; cbn.
    + split; [done|]. intros [post Hp]. discriminate Hp.
    + destruct (Ascii.ascii_dec a b) as [->|Hne].
      * rewrite IH. split; intros [post Hp]; exists post.
        -- by rewrite Hp.
        -- by injection Hp.
      * split; [done|]. intros [post Hp]. injection Hp as ? ?. done.
Qed.

Lemma strstr_found (needle : string) : forall hay,
  is_Some (strstr hay needle) <->
  exists pre post, hay = String.append pre (String.append needle post).
Proof.
  induction hay as [|b hay IH]; cbn [strstr].
  - destruct (String.prefix needle "") eqn:Hp.
    + split; [|by eexists]. intros _. apply prefix_append in Hp as [post Hp].
      by exists ""%string, post.
    + split; [intros [? ?]; done|]. intros (pre & post & Heq). exfalso.
      destruct pre; cbn in Heq; [|discriminate Heq].
      assert (String.prefix needle "" = true) as Ht by (apply prefix_append; eauto).
      congruence.
  - destruct (String.prefix needle (String b hay)) eqn:Hp.
    + split; [|by eexists]. intros _. apply prefix_append in Hp as [post Hp].
      by exists ""%string, post.
    + rewrite fmap_is_Some, IH. split.
      * intros (pre & post & ->). by exists (String b pre), post.
      * intros (pre & post & Heq). destruct pre as [|b' pre]; cbn in Heq.
        -- exfalso.
           assert (String.prefix needle (String b hay) = true) as Ht
               by (apply prefix_append; eauto).
           congruence.
        -- injection Heq as -> ->. eauto.
Qed.

(** X21: hardware emulation is a case of emulation: [is_emulation] holds
    exactly when XCL_EMULATION_MODE is set, to whatever value, and
    [is_hw_emulation] exactly when it is set to "hw_emu", so that the second
    never holds without the first. *)
Theorem emulation_flags (env : environ) :
  (is_emulation env = true <-> is_Some (env !! "XCL_EMULATION_MODE"%string)) /\
  (is_hw_emulation env = true <-> env !! "XCL_EMULATION_MODE"%string = Some "hw_emu"%string) /\
  (is_hw_emulation env = true -> is_emulation env = true).
Proof.
  unfold is_emulation, is_hw_emulation, getenv.
  destruct (env !! "XCL_EMULATION_MODE"%string) as [mode|]; cbn.
  - split; [split; [by eexists|done]|].
    destruct (String.eqb_spec mode "hw_emu") as [->|Hne].
    + by repeat split.
    + split; [|done]. split; [done|]. intros [= ?]. done.
  - split; [split; [done|intros [? ?]; done]|]. by split.
Qed.

(** X22: [is_xpr_device] holds exactly for the names that contain "xpr"
    somewhere. *)
Theorem is_xpr_device_contains (device_name : string) :
  is_xpr_device device_name = true <->
  exists pre post,
    device_name = String.append pre (String.append "xpr" post).
Proof.
  rewrite <- strstr_found. unfold is_xpr_device.
  destruct (strstr device_name "xpr"); split; done.
Qed.

End Xcl2Properties.
